(** * AD9739A DAC frontend and AXI DAC backend: a shallow embedding

    Sources embedded here:
    - [drivers/iio/dac/ad9739a.c]      (module [Ad9739a]),
    - [drivers/iio/dac/adi-axi-dac.c]  (module [AxiDac]),
    - [include/linux/iio/backend.h]    (the operations table and the enums).

    The drivers talk to collaborators that are not part of these sources
    (regmap, clk, gpio, the backend registry).  Every call into one of them
    is recorded in a log together with the time it was issued and the errno
    it returned; the outcome of the n-th call is read from an oracle carried
    by the world, so that every failure path of the drivers can be
    exercised. *)

From Stdlib Require Import ZArith List Bool Lia.
From stdpp Require Import base gmap list.
Import ListNotations.

Open Scope Z_scope.

(** ** Kernel constants and macros used by the two drivers *)

(** Modelled from the spec: the error taxonomy (InvalidArgument,
    UnrecognizedDevice, IncompatibleCoreVersion, LockTimeout, BusError,
    ...); the errno values of linux/errno.h, which the drivers return
    negated, are missing from the sources. *)
Definition ENOMEM : Z := 12.
Definition EIO : Z := 5.
Definition EFAULT : Z := 14.
Definition ENODEV : Z := 19.
Definition EINVAL : Z := 22.
Definition EOPNOTSUPP : Z := 95.
Definition ETIMEDOUT : Z := 110.

(** [unsigned int] and [unsigned long] arithmetic wraps around. *)
Definition u32 (x : Z) : Z := x mod 2 ^ 32.
Definition BITS_PER_LONG : Z := 64.
Definition ulong (x : Z) : Z := x mod 2 ^ BITS_PER_LONG.

(** Storing into an [int] keeps the low 32 bits, read as two's complement. *)
Definition to_int (x : Z) : Z := (x + 2 ^ 31) mod 2 ^ 32 - 2 ^ 31.

(** Modelled from the spec: the register fields are given as bit masks;
    [BIT], [GENMASK] and [FIELD_PREP] of linux/bits.h and linux/bitfield.h
    are missing from the sources. *)
Definition BIT (n : Z) : Z := Z.shiftl 1 n.
Definition GENMASK (h l : Z) : Z := Z.shiftl (Z.ones (h - l + 1)) l.

(** [FIELD_PREP(mask, val)]: shift [val] to the lowest set bit of [mask]. *)
Definition FIELD_PREP (mask val : Z) : Z :=
  Z.land (Z.shiftl val (Z.log2 (Z.land mask (- mask)))) mask.

(** Modelled from the spec: the clock range bounds are given in M-units;
    [MEGA] of linux/units.h is missing from the sources. *)
Definition MEGA : Z := 1000000.

(** Modelled from the spec: "it must fall within a fixed supported range";
    [in_range] of linux/minmax.h is missing from the sources.  It compares
    the wrapped difference with the length of the range, on the width of
    [unsigned long]. *)
Definition in_range (val start len : Z) : bool :=
  ulong (val - start) <? len.

(** Modelled from the spec: "version-register layout (major/minor/patch
    packing)"; linux/fpga/adi-axi-common.h is missing from the sources. *)
Definition ADI_AXI_REG_VERSION : Z := 0x0000.
Definition ADI_AXI_PCORE_VER (major minor patch : Z) : Z :=
  Z.lor (Z.lor (Z.shiftl major 16) (Z.shiftl minor 8)) patch.
Definition ADI_AXI_PCORE_VER_MAJOR (version : Z) : Z :=
  Z.land (Z.shiftr version 16) 0xff.
Definition ADI_AXI_PCORE_VER_MINOR (version : Z) : Z :=
  Z.land (Z.shiftr version 8) 0xff.
Definition ADI_AXI_PCORE_VER_PATCH (version : Z) : Z :=
  Z.land version 0xff.

(** Modelled from the spec: the scalar attributes are "scale, phase,
    frequency, sample-rate"; linux/iio/types.h is missing from the sources.
    Any other value of the [long mask] argument is [IIO_CHAN_INFO_OTHER]. *)
Inductive iio_chan_info_enum : Type :=
  | IIO_CHAN_INFO_SCALE
  | IIO_CHAN_INFO_SAMP_FREQ
  | IIO_CHAN_INFO_FREQUENCY
  | IIO_CHAN_INFO_PHASE
  | IIO_CHAN_INFO_OTHER (n : Z).

(** The success code of a [read_raw] that produced one integer. *)
Definition IIO_VAL_INT : Z := 1.

(** include/linux/iio/backend.h *)
Inductive iio_backend_data_source : Type :=
  | IIO_BACKEND_INTERNAL_CW
  | IIO_BACKEND_EXTERNAL
  | IIO_BACKEND_DATA_SOURCE_MAX.

Inductive iio_backend_data_type : Type :=
  | IIO_BACKEND_TWOS_COMPLEMENT
  | IIO_BACKEND_OFFSET_BINARY
  | IIO_BACKEND_DATA_TYPE_MAX.

Record iio_backend_data_fmt : Type := DataFmt {
  fmt_type : iio_backend_data_type;
  fmt_sign_extend : bool;
  fmt_enable : bool
}.

(** ** The world: collaborators, register files, log *)

(** One constructor per call a driver makes into a collaborator. *)
Inductive call : Type :=
  | DevAlloc
  | ClkGetEnabled
  | ClkGetRate (rate : Z)
  | Ioremap
  | RegmapInit (bus : Z)
  | RegRead (bus reg val : Z)
  | RegWrite (bus reg val : Z)
  | UpdateBits (bus reg mask val : Z)
  | MultiRegWrite (bus : Z) (seq : list (Z * Z))
  | ReadPoll (bus reg mask timeout_us : Z)
  | Ndelay (ns : Z)
  | Fsleep (us : Z)
  | GpioGet (present : bool)
  | GpioSet (value : Z)
  | BackendGet
  | RequestBuffer
  | PropertyReadString
  | DmaBufferAlloc (default_name : bool)
  | BufferSetDirOut
  | AttachBuffer
  | DmaBufferFree
  | BackendRegister (dev : Z)
  | DeviceRegister
  | BackendReadRaw (mask : iio_chan_info_enum)
  | BackendWriteRaw (mask : iio_chan_info_enum) (val val2 : Z)
  | BackendDataSourceSet (chan : Z) (data : iio_backend_data_source)
  | BadHandle.

Record entry : Type := Entry {
  at_ns : Z;      (* time at which the call was issued *)
  what : call;
  result : Z      (* errno returned, 0 on success *)
}.

(** A backend that registered itself: owning device and private state
    (for the AXI DAC core: the bus of its register map). *)
Record registered_backend : Type := Registered {
  rb_dev : Z;
  rb_bus : Z
}.

Record world : Type := World {
  fault : nat -> Z;         (* errno of the n-th call, 0 = it succeeds *)
  latency : nat -> N;       (* duration of the n-th call, in ns *)
  clk_rate : Z;             (* rate of the device clock *)
  reset_gpio : bool;        (* is a "reset" line described? *)
  tick : nat;               (* number of calls made so far *)
  now : Z;                  (* ns *)
  regs : gmap (Z * Z) Z;    (* (bus, register) -> content *)
  registry : list registered_backend;
  log : list entry          (* oldest first *)
}.

(** Stateful code is a function from the world to a result and a world. *)
Definition M (A : Type) : Type := world -> A * world.

Definition Return {A} (a : A) : M A := fun w => (a, w).
Definition bind {A B} (c : M A) (k : A -> M B) : M B :=
  fun w => let (a, w') := c w in k a w'.

Notation "x <- c ;; k" := (bind c (fun x => k))
  (at level 100, c at next level, right associativity).
Notation "c ;;; k" := (bind c (fun _ => k))
  (at level 100, right associativity).

(** Record the call [c] with result [r], taking [d] ns. *)
Definition emit (c : call) (r : Z) (d : Z) (w : world) : world :=
  {| fault := fault w; latency := latency w; clk_rate := clk_rate w;
     reset_gpio := reset_gpio w;
     tick := S (tick w);
     now := now w + d;
     regs := regs w;
     registry := registry w;
     log := log w ++ [Entry (now w) c r] |}.

Definition set_regs (rs : gmap (Z * Z) Z) (w : world) : world :=
  {| fault := fault w; latency := latency w; clk_rate := clk_rate w;
     reset_gpio := reset_gpio w; tick := tick w; now := now w;
     regs := rs;
     registry := registry w;
     log := log w |}.

Definition set_registry (r : list registered_backend) (w : world) : world :=
  {| fault := fault w; latency := latency w; clk_rate := clk_rate w;
     reset_gpio := reset_gpio w; tick := tick w; now := now w;
     regs := regs w;
     registry := r;
     log := log w |}.

(** The errno and the duration the oracle gives to the next call. *)
Definition next_fault (w : world) : Z := fault w (tick w).
Definition next_latency (w : world) : Z := Z.of_N (latency w (tick w)).

(** A call whose only outcome is an errno. *)
Definition collab (c : call) : M Z := fun w =>
  let r := next_fault w in (r, emit c r (next_latency w) w).

(** A call that cannot fail ([void]). *)
Definition collab_void (c : call) : M unit := fun w =>
  (tt, emit c 0 (next_latency w) w).

(** [ndelay] and [fsleep] wait at least the time they are given. *)
Definition ndelay (ns : Z) : M unit := fun w =>
  (tt, emit (Ndelay ns) 0 (ns + next_latency w) w).
Definition fsleep (us : Z) : M unit := fun w =>
  (tt, emit (Fsleep us) 0 (1000 * us + next_latency w) w).

(** [clk_get_rate] returns the rate of the clock as an [unsigned long]. *)
Definition clk_get_rate : M Z := fun w =>
  let rate := ulong (clk_rate w) in
  (rate, emit (ClkGetRate rate) 0 (next_latency w) w).

(** Content of a register; a register never written reads as 0. *)
Definition peek (w : world) (bus reg : Z) : Z :=
  default 0 (regs w !! (bus, reg)).
Definition poke (bus reg val : Z) (w : world) : world :=
  set_regs (<[(bus, reg) := val]> (regs w)) w.

(** ** The bus transaction layer (regmap) *)

Record regmap_config : Type := RegmapConfig {
  reg_bits : Z;
  val_bits : Z;
  reg_stride : Z;
  readable_reg : option (Z -> bool);
  writeable_reg : option (Z -> bool);
  max_register : Z
}.

Record regmap : Type := Regmap {
  bus : Z;
  config : regmap_config
}.

Module Bus.

(** Modelled from the spec: the bus transaction layer, "core calls
    read(reg), write(reg, val), update_bits(reg, mask, val),
    multi_write(sequence), poll_until(reg, mask, timeout); core supplies a
    register-accessibility predicate (...) the layer must reject for both
    read and write".  drivers/base/regmap is missing from the sources.  A
    rejected access returns -EIO and does not reach the device. *)
Definition in_window (m : regmap) (reg : Z) : bool :=
  reg <=? max_register (config m).

Definition readable (m : regmap) (reg : Z) : bool :=
  in_window m reg &&
  match readable_reg (config m) with Some f => f reg | None => true end.

Definition writeable (m : regmap) (reg : Z) : bool :=
  in_window m reg &&
  match writeable_reg (config m) with Some f => f reg | None => true end.

Definition val_mask (m : regmap) : Z := Z.ones (val_bits (config m)).

(** Errno of the next transaction on [reg]. *)
Definition access (ok : bool) (w : world) : Z :=
  if ok then next_fault w else - EIO.

Definition regmap_read (m : regmap) (reg : Z) : M (Z * Z) := fun w =>
  let v := peek w (bus m) reg in
  let r := access (readable m reg) w in
  ((r, v), emit (RegRead (bus m) reg v) r (next_latency w) w).

Definition regmap_write (m : regmap) (reg val : Z) : M Z := fun w =>
  let r := access (writeable m reg) w in
  let w' := emit (RegWrite (bus m) reg val) r (next_latency w) w in
  (r, if r =? 0 then poke (bus m) reg (Z.land val (val_mask m)) w' else w').

Definition regmap_update_bits (m : regmap) (reg mask val : Z) : M Z := fun w =>
  let orig := peek w (bus m) reg in
  let r := access (readable m reg && writeable m reg) w in
  let w' := emit (UpdateBits (bus m) reg mask val) r (next_latency w) w in
  let tmp := Z.lor (Z.land orig (Z.lnot mask)) (Z.land val mask) in
  (r, if r =? 0 then poke (bus m) reg (Z.land tmp (val_mask m)) w' else w').

Definition regmap_set_bits (m : regmap) (reg bits : Z) : M Z :=
  regmap_update_bits m reg bits bits.

Definition regmap_clear_bits (m : regmap) (reg bits : Z) : M Z :=
  regmap_update_bits m reg bits 0.

Definition poke_all (m : regmap) (seq : list (Z * Z)) (w : world) : world :=
  fold_left (fun w rv => poke (bus m) (fst rv) (Z.land (snd rv) (val_mask m)) w)
            seq w.

Definition regmap_multi_reg_write (m : regmap) (seq : list (Z * Z)) : M Z :=
  fun w =>
  let r := access (forallb (fun rv => writeable m (fst rv)) seq) w in
  let w' := emit (MultiRegWrite (bus m) seq) r (next_latency w) w in
  (r, if r =? 0 then poke_all m seq w' else w').

(** [regmap_read_poll_timeout(map, reg, val, val & mask, sleep, timeout)]:
    a read error is returned as it is; otherwise 0 when the condition was
    seen and -ETIMEDOUT when it was not. *)
Definition regmap_read_poll_timeout (m : regmap) (reg mask timeout_us : Z)
  : M Z := fun w =>
  let v := peek w (bus m) reg in
  let e := access (readable m reg) w in
  let r := if e =? 0
           then (if Z.land v mask =? 0 then - ETIMEDOUT else 0)
           else e in
  (r, emit (ReadPoll (bus m) reg mask timeout_us) r (next_latency w) w).

End Bus.

(** ** The capability contract (include/linux/iio/backend.h) *)

(** [struct iio_backend_ops], over the type [P] of the backend's private
    state; a missing operation is [None].  [read_raw] gets the current
    contents of [*val] and [*val2] and returns their new contents. *)
Record iio_backend_ops (P : Type) : Type := BackendOps {
  enable : option (P -> M Z);
  disable : option (P -> M unit);
  chan_enable : option (P -> Z -> M Z);
  chan_disable : option (P -> Z -> M Z);
  data_format_set : option (P -> Z -> iio_backend_data_fmt -> M Z);
  data_source_set : option (P -> Z -> iio_backend_data_source -> M Z);
  request_buffer : option (P -> M Z);
  free_buffer : option (P -> M unit);
  read_raw : option (P -> Z -> Z -> Z -> iio_chan_info_enum -> M (Z * (Z * Z)));
  write_raw : option (P -> Z -> Z -> Z -> iio_chan_info_enum -> M Z)
}.
Arguments BackendOps {P}.
Arguments enable {P}.
Arguments disable {P}.
Arguments chan_enable {P}.
Arguments chan_disable {P}.
Arguments data_format_set {P}.
Arguments data_source_set {P}.
Arguments request_buffer {P}.
Arguments free_buffer {P}.
Arguments read_raw {P}.
Arguments write_raw {P}.

(** [struct iio_backend]: an operations table and the private state. *)
Record iio_backend : Type := Backend {
  priv_type : Type;
  ops : iio_backend_ops priv_type;
  priv : priv_type
}.

Module Binder.

(** Modelled from the spec: "the Binder holds a trait/interface reference
    plus opaque private state"; drivers/iio/industrialio-backend.c is
    missing from the sources.  A call through a handle is logged and then
    handed to the operation of the handle's table, with the arguments and
    the result unchanged; a call through no handle is a programming error
    ([BadHandle]), and a missing operation is -EOPNOTSUPP. *)
Definition iio_backend_read_raw (back : option iio_backend)
    (chan val val2 : Z) (mask : iio_chan_info_enum) : M (Z * (Z * Z)) :=
  match back with
  | None => r <- collab_void BadHandle ;; Return (- EFAULT, (val, val2))
  | Some b =>
      collab_void (BackendReadRaw mask) ;;;
      match read_raw (ops b) with
      | Some f => f (priv b) chan val val2 mask
      | None => Return (- EOPNOTSUPP, (val, val2))
      end
  end.

Definition iio_backend_write_raw (back : option iio_backend)
    (chan val val2 : Z) (mask : iio_chan_info_enum) : M Z :=
  match back with
  | None => r <- collab_void BadHandle ;; Return (- EFAULT)
  | Some b =>
      collab_void (BackendWriteRaw mask val val2) ;;;
      match write_raw (ops b) with
      | Some f => f (priv b) chan val val2 mask
      | None => Return (- EOPNOTSUPP)
      end
  end.

Definition iio_backend_data_source_set (back : option iio_backend)
    (chan : Z) (data : iio_backend_data_source) : M Z :=
  match back with
  | None => r <- collab_void BadHandle ;; Return (- EFAULT)
  | Some b =>
      collab_void (BackendDataSourceSet chan data) ;;;
      match data_source_set (ops b) with
      | Some f => f (priv b) chan data
      | None => Return (- EOPNOTSUPP)
      end
  end.

(** Modelled from the spec: "register(topologyRef, ops, privateState):
    inserts a RegisteredBackend"; the entry is added when the call
    succeeds. *)
Definition devm_iio_backend_register (dev bus : Z) : M Z := fun w =>
  let (r, w') := collab (BackendRegister dev) w in
  (r, if r =? 0
      then set_registry (registry w' ++ [Registered dev bus]) w'
      else w').

End Binder.

(** ** drivers/iio/dac/ad9739a.c *)

Module Ad9739a.
Import Bus Binder.

Definition AD9739A_REG_MODE : Z := 0.
Definition AD9739A_RESET_MASK : Z := BIT 5.
Definition AD9739A_REG_LVDS_REC_CNT1 : Z := 0x10.
Definition AD9739A_REG_LVDS_REC_CNT4 : Z := 0x13.
Definition AD9739A_FINE_DEL_SKW_MASK : Z := GENMASK 3 0.
Definition AD9739A_REG_CROSS_CNT1 : Z := 0x22.
Definition AD9739A_REG_CROSS_CNT2 : Z := 0x23.
Definition AD9739A_REG_PHS_DET : Z := 0x24.
Definition AD9739A_REG_MU_DUTY : Z := 0x25.
Definition AD9739A_REG_MU_CNT1 : Z := 0x26.
Definition AD9739A_MU_EN_MASK : Z := BIT 0.
Definition AD9739A_REG_MU_CNT2 : Z := 0x27.
Definition AD9739A_REG_MU_CNT3 : Z := 0x28.
Definition AD9739A_REG_MU_CNT4 : Z := 0x29.
Definition AD9739A_MU_CNT4_DEFAULT : Z := 0xcb.
Definition AD9739A_REG_MU_STAT1 : Z := 0x2A.
Definition AD9739A_MU_LOCK_MASK : Z := BIT 0.
Definition AD9739A_REG_ANA_CNT_1 : Z := 0x32.
Definition AD9739A_REG_ID : Z := 0x35.

Definition AD9739A_ID : Z := 0x24.
Definition AD9739A_REG_IS_RESERVED (reg : Z) : bool :=
  (reg =? 0x5) || (reg =? 0x9) || (reg =? 0x0E) || (reg =? 0x0D) ||
  (reg =? 0x2B) || (reg =? 0x2C) || (reg =? 0x34).

Definition AD9739A_MIN_DAC_CLK : Z := 1600 * MEGA.
Definition AD9739A_MAX_DAC_CLK : Z := 2500 * MEGA.
Definition AD9739A_DAC_CLK_RANGE : Z :=
  AD9739A_MAX_DAC_CLK - AD9739A_MIN_DAC_CLK + 1.
(* as recommended by the datasheet *)
Definition AD9739A_LOCK_N_TRIES : Z := 3.

Record ad9739a_state : Type := State {
  back : option iio_backend;
  st_regmap : regmap;
  sample_rate : Z
}.

Definition ad9739a_read_raw (st : ad9739a_state) (chan val val2 : Z)
    (mask : iio_chan_info_enum) : M (Z * (Z * Z)) :=
  match mask with
  | IIO_CHAN_INFO_SAMP_FREQ =>
      Return (IIO_VAL_INT, (to_int (sample_rate st), val2))
  | _ => iio_backend_read_raw (back st) chan val val2 mask
  end.

Definition ad9739a_write_raw (st : ad9739a_state) (chan val val2 : Z)
    (mask : iio_chan_info_enum) : M Z :=
  iio_backend_write_raw (back st) chan val val2 mask.

Definition ad9739a_buffer_preenable (st : ad9739a_state) : M Z :=
  iio_backend_data_source_set (back st) 0 IIO_BACKEND_EXTERNAL.

Definition ad9739a_buffer_postdisable (st : ad9739a_state) : M Z :=
  (* re-enable the internal tone *)
  iio_backend_data_source_set (back st) 0 IIO_BACKEND_INTERNAL_CW.

Definition ad9739a_reg_accessible (reg : Z) : bool :=
  if AD9739A_REG_IS_RESERVED reg then false
  else if (AD9739A_REG_MU_STAT1 <? reg) && (reg <? AD9739A_REG_ANA_CNT_1)
  then false
  else true.

(** [devm_gpiod_get_optional(dev, "reset", GPIOD_OUT_HIGH)]: an errno, and
    whether a line was found when there is no error. *)
Definition devm_gpiod_get_optional : M (Z * bool) := fun w =>
  let (r, w') := collab (GpioGet (reset_gpio w)) w in
  ((r, reset_gpio w), w').

Definition ad9739a_reset (st : ad9739a_state) : M Z :=
  g <- devm_gpiod_get_optional ;;
  if negb (fst g =? 0) then Return (fst g)
  else if snd g then
    (* minimum pulse width of 40ns *)
    ndelay 40 ;;;
    collab_void (GpioSet 0) ;;;
    Return 0
  else
    (* bring all registers to their default state *)
    ret <- regmap_set_bits (st_regmap st) AD9739A_REG_MODE AD9739A_RESET_MASK ;;
    if negb (ret =? 0) then Return ret
    else
      ndelay 40 ;;;
      regmap_clear_bits (st_regmap st) AD9739A_REG_MODE AD9739A_RESET_MASK.

(*
 * Recommended values (as per datasheet) for the dac clk common mode voltage
 * and Mu controller. Look at table 29
 *)
Definition ad9739a_clk_mu_ctrl : list (Z * Z) :=
  [ (* DAC clk common mode voltage *)
    (AD9739A_REG_CROSS_CNT1, 0x0f);
    (AD9739A_REG_CROSS_CNT2, 0x0f);
    (* Mu controller configuration *)
    (AD9739A_REG_PHS_DET, 0x30);
    (AD9739A_REG_MU_DUTY, 0x80);
    (AD9739A_REG_MU_CNT2, 0x44);
    (AD9739A_REG_MU_CNT3, 0x6c) ].

(** How a [for] loop of [ad9739a_init] ends: by a [return] of the function,
    or by leaving the loop ([break], or the counter reaching its bound) with
    the current value of [ret]. *)
Inductive loop_end : Type :=
  | Returned (ret : Z)
  | Left (ret : Z).

(** The first loop, with [n] iterations to go. *)
Fixpoint mu_lock_loop (st : ad9739a_state) (n : nat) (ret : Z) : M loop_end :=
  match n with
  | O => Return (Left ret)
  | S n' =>
      ret <- regmap_write (st_regmap st) AD9739A_REG_MU_CNT4
                          AD9739A_MU_CNT4_DEFAULT ;;
      if negb (ret =? 0) then Return (Returned ret)
      else
        (* Enable the Mu controller search and track mode. *)
        ret <- regmap_set_bits (st_regmap st) AD9739A_REG_MU_CNT1
                               AD9739A_MU_EN_MASK ;;
        if negb (ret =? 0) then Return (Returned ret)
        else
          (* ensure the DLL loop is locked *)
          ret <- regmap_read_poll_timeout (st_regmap st) AD9739A_REG_MU_STAT1
                                          AD9739A_MU_LOCK_MASK 1000 ;;
          if ret =? 0 then Return (Left ret)
          else mu_lock_loop st n' ret
  end.

(** The second loop, with [n] iterations to go. *)
Fixpoint skew_loop (st : ad9739a_state) (n : nat) (ret : Z) : M loop_end :=
  match n with
  | O => Return (Left ret)
  | S n' =>
      ret <- regmap_update_bits (st_regmap st) AD9739A_REG_LVDS_REC_CNT4
                                AD9739A_FINE_DEL_SKW_MASK
                                (FIELD_PREP AD9739A_FINE_DEL_SKW_MASK 2) ;;
      if negb (ret =? 0) then Return (Returned ret)
      else skew_loop st n' ret
  end.

(** The result is [Some ret] for [return ret], and [None] when control
    reaches the closing brace of the function, which has no [return]
    statement after the second loop. *)
Definition ad9739a_init (st : ad9739a_state) : M (option Z) :=
  ret <- regmap_multi_reg_write (st_regmap st) ad9739a_clk_mu_ctrl ;;
  if negb (ret =? 0) then Return (Some ret)
  else
    e <- mu_lock_loop st (Z.to_nat AD9739A_LOCK_N_TRIES) ret ;;
    match e with
    | Returned ret => Return (Some ret)
    | Left ret =>
        if negb (ret =? 0) then Return (Some ret) (* dev_err_probe *)
        else
          e <- skew_loop st (Z.to_nat AD9739A_LOCK_N_TRIES) ret ;;
          match e with
          | Returned ret => Return (Some ret)
          | Left _ => Return None
          end
    end.

Definition ad9739a_regmap_config : regmap_config :=
  {| reg_bits := 8;
     val_bits := 8;
     reg_stride := 1;
     readable_reg := Some ad9739a_reg_accessible;
     writeable_reg := Some ad9739a_reg_accessible;
     max_register := AD9739A_REG_ID |}.

(** [spi] identifies the device and the bus its register map sits on;
    [fw_back] is the backend the device's firmware node refers to, and
    [indet] the value the caller finds in [ret] when [ad9739a_init] ended
    without a [return] statement.  The result is the errno together with
    the driver state as it was filled in. *)
Definition ad9739a_probe (spi : Z) (fw_back : iio_backend) (indet : Z)
  : M (Z * ad9739a_state) :=
  let st := State None (Regmap spi ad9739a_regmap_config) 0 in
  r <- collab DevAlloc ;;
  if negb (r =? 0) then Return (- ENOMEM, st)
  else
    r <- collab ClkGetEnabled ;;
    if negb (r =? 0) then Return (r, st)
    else
      rate <- clk_get_rate ;;
      let st := State (back st) (st_regmap st) rate in
      if negb (in_range (sample_rate st) AD9739A_MIN_DAC_CLK
                        AD9739A_DAC_CLK_RANGE)
      then Return (- EINVAL, st)
      else
        r <- collab (RegmapInit spi) ;;
        if negb (r =? 0) then Return (r, st)
        else
          rd <- regmap_read (st_regmap st) AD9739A_REG_ID ;;
          if negb (fst rd =? 0) then Return (fst rd, st)
          else if negb (snd rd =? AD9739A_ID) then Return (- ENODEV, st)
          else
            ret <- ad9739a_reset st ;;
            if negb (ret =? 0) then Return (ret, st)
            else
              o <- ad9739a_init st ;;
              let ret := match o with Some ret => ret | None => indet end in
              if negb (ret =? 0) then Return (ret, st)
              else
                r <- collab BackendGet ;;
                if negb (r =? 0) then Return (r, st)
                else
                  let st := State (Some fw_back) (st_regmap st)
                                  (sample_rate st) in
                  ret <- collab RequestBuffer ;;
                  if negb (ret =? 0) then Return (ret, st)
                  else
                    r <- collab DeviceRegister ;;
                    Return (r, st).

End Ad9739a.

(** ** drivers/iio/dac/adi-axi-dac.c *)

Module AxiDac.
Import Bus Binder.

(* DAC controls *)
Definition AXI_REG_RSTN : Z := 0x0040.
Definition AXI_REG_RSTN_CE_N : Z := BIT 2.
Definition AXI_REG_RSTN_MMCM_RSTN : Z := BIT 1.
Definition AXI_REG_RSTN_RSTN : Z := BIT 0.

(* DAC Channel controls; [c] is an [unsigned int] *)
Definition AXI_REG_CHAN_CNTRL_7 (c : Z) : Z := u32 (0x0418 + c * 0x40).
Definition AXI_DAC_DATA_SEL_MASK : Z := GENMASK 3 0.

Definition AXI_DAC_DATA_INTERNAL_TONE : Z := 0.
Definition AXI_DAC_DATA_DMA : Z := 2.

Record axi_dac_state : Type := State {
  st_regmap : regmap;
  dev : Z
}.

Definition axi_dac_enable (st : axi_dac_state) : M Z :=
  ret <- regmap_set_bits (st_regmap st) AXI_REG_RSTN AXI_REG_RSTN_MMCM_RSTN ;;
  if negb (ret =? 0) then Return ret
  else
    fsleep 10 ;;;
    regmap_set_bits (st_regmap st) AXI_REG_RSTN
                    (Z.lor AXI_REG_RSTN_RSTN AXI_REG_RSTN_MMCM_RSTN).

Definition axi_dac_disable (st : axi_dac_state) : M unit :=
  regmap_write (st_regmap st) AXI_REG_RSTN 0 ;;;
  Return tt.

(** The result is the errno of [IS_ERR(buffer)], 0 for a buffer; the mode
    and direction flags set on the way are not part of the world. *)
Definition axi_dac_request_buffer (st : axi_dac_state) : M Z :=
  r <- collab PropertyReadString ;;
  (* if the property cannot be read, dma_name = "tx" *)
  r <- collab (DmaBufferAlloc (negb (r =? 0))) ;;
  if negb (r =? 0) then Return r
  else
    collab_void BufferSetDirOut ;;;
    ret <- collab AttachBuffer ;;
    if negb (ret =? 0) then Return ret
    else Return 0.

Definition axi_dac_free_buffer (st : axi_dac_state) : M unit :=
  collab_void DmaBufferFree.

Definition ad9739a_read_raw (st : axi_dac_state) (chan val val2 : Z)
    (mask : iio_chan_info_enum) : M (Z * (Z * Z)) :=
  match mask with
  | IIO_CHAN_INFO_SCALE => Return (0, (val, val2))
  | IIO_CHAN_INFO_FREQUENCY => Return (0, (val, val2))
  | IIO_CHAN_INFO_PHASE => Return (0, (val, val2))
  | _ => Return (- EINVAL, (val, val2))
  end.

Definition ad9739a_write_raw (st : axi_dac_state) (chan val val2 : Z)
    (mask : iio_chan_info_enum) : M Z :=
  match mask with
  | IIO_CHAN_INFO_SCALE => Return 0
  | IIO_CHAN_INFO_FREQUENCY => Return 0
  | IIO_CHAN_INFO_PHASE => Return 0
  | _ => Return (- EINVAL)
  end.

Definition axi_dac_data_source_set (st : axi_dac_state) (chan : Z)
    (data : iio_backend_data_source) : M Z :=
  match data with
  | IIO_BACKEND_INTERNAL_CW =>
      regmap_update_bits (st_regmap st) (AXI_REG_CHAN_CNTRL_7 chan)
                         AXI_DAC_DATA_SEL_MASK AXI_DAC_DATA_INTERNAL_TONE
  | IIO_BACKEND_EXTERNAL =>
      regmap_update_bits (st_regmap st) (AXI_REG_CHAN_CNTRL_7 chan)
                         AXI_DAC_DATA_SEL_MASK AXI_DAC_DATA_DMA
  | _ => Return (- EINVAL)
  end.

(** The table of the source names [axi_dac_read_raw] and
    [axi_dac_write_raw]; the two functions of the file that have these
    signatures are called [ad9739a_read_raw] and [ad9739a_write_raw], and
    they are the ones bound here. *)
Definition axi_dac_generic : iio_backend_ops axi_dac_state :=
  {| enable := Some axi_dac_enable;
     disable := Some axi_dac_disable;
     chan_enable := None;
     chan_disable := None;
     data_format_set := None;
     data_source_set := Some axi_dac_data_source_set;
     request_buffer := Some axi_dac_request_buffer;
     free_buffer := Some axi_dac_free_buffer;
     read_raw := Some ad9739a_read_raw;
     write_raw := Some ad9739a_write_raw |}.

Definition axi_dac_regmap_config : regmap_config :=
  {| val_bits := 32;
     reg_bits := 32;
     reg_stride := 4;
     readable_reg := None;
     writeable_reg := None;
     max_register := 0x0800 |}.

(** [pdev] identifies the device and the bus of its register block;
    [expected_ver] is the match data of the device, [None] when it has
    none.  The result is the errno together with the driver state. *)
Definition axi_dac_probe (pdev : Z) (expected_ver : option Z)
  : M (Z * axi_dac_state) :=
  let st := State (Regmap pdev axi_dac_regmap_config) pdev in
  r <- collab DevAlloc ;;
  if negb (r =? 0) then Return (- ENOMEM, st)
  else
    match expected_ver with
    | None => Return (- ENODEV, st)
    | Some expected_ver =>
        r <- collab ClkGetEnabled ;;
        if negb (r =? 0) then Return (r, st)
        else
          r <- collab Ioremap ;;
          if negb (r =? 0) then Return (r, st)
          else
            r <- collab (RegmapInit pdev) ;;
            if negb (r =? 0) then Return (r, st)
            else
              (*
               * Force disable the core. Up to the frontend to enable us.
               * And we can still read/write registers...
               *)
              ret <- regmap_write (st_regmap st) AXI_REG_RSTN 0 ;;
              if negb (ret =? 0) then Return (ret, st)
              else
                rd <- regmap_read (st_regmap st) ADI_AXI_REG_VERSION ;;
                if negb (fst rd =? 0) then Return (fst rd, st)
                else if negb (ADI_AXI_PCORE_VER_MAJOR (snd rd) =?
                              ADI_AXI_PCORE_VER_MAJOR expected_ver)
                then Return (- ENODEV, st)
                else
                  ret <- devm_iio_backend_register pdev (bus (st_regmap st)) ;;
                  if negb (ret =? 0) then Return (ret, st)
                  else Return (0, st)
    end.

Definition axi_dac_9_1_b_info : Z := ADI_AXI_PCORE_VER 9 1 98. (* 'b' *)

(** The handle a frontend gets for a registered core. *)
Definition handle (st : axi_dac_state) : iio_backend :=
  Backend axi_dac_state axi_dac_generic st.

End AxiDac.

(** ** Bench worlds used by the examples *)

(** The chip is device 0 (on its own bus), the core is device 1. *)
Definition chip : Z := 0.
Definition core : Z := 1.

(** A healthy board: no call fails, the clock runs at 2000 MHz, there is no
    reset line, the chip reports its ID and a locked Mu controller, and the
    core reports version 9.1.b. *)
Definition bench_regs : gmap (Z * Z) Z :=
  <[(chip, Ad9739a.AD9739A_REG_ID) := Ad9739a.AD9739A_ID]>
  (<[(chip, Ad9739a.AD9739A_REG_MU_STAT1) := 1]>
  (<[(core, ADI_AXI_REG_VERSION) := AxiDac.axi_dac_9_1_b_info]> ∅)).

Definition bench : world :=
  {| fault := fun _ => 0; latency := fun _ => 0%N;
     clk_rate := 2000 * MEGA; reset_gpio := false;
     tick := 0; now := 0; regs := bench_regs; registry := []; log := [] |}.

Definition with_clk_rate (rate : Z) (w : world) : world :=
  {| fault := fault w; latency := latency w; clk_rate := rate;
     reset_gpio := reset_gpio w; tick := tick w; now := now w;
     regs := regs w; registry := registry w; log := log w |}.

Definition with_fault (f : nat -> Z) (w : world) : world :=
  {| fault := f; latency := latency w; clk_rate := clk_rate w;
     reset_gpio := reset_gpio w; tick := tick w; now := now w;
     regs := regs w; registry := registry w; log := log w |}.

(** The same board with a Mu controller that never locks. *)
Definition unlocked : world :=
  set_regs (<[(chip, Ad9739a.AD9739A_REG_MU_STAT1) := 0]> bench_regs) bench.

Definition core_state : AxiDac.axi_dac_state :=
  AxiDac.State (Regmap core AxiDac.axi_dac_regmap_config) core.

Definition chip_state : Ad9739a.ad9739a_state :=
  Ad9739a.State (Some (AxiDac.handle core_state))
                (Regmap chip Ad9739a.ad9739a_regmap_config)
                (2000 * MEGA).

(** ** Stages of the frontend's probe sequence *)

Inductive stage : Type :=
  | Identify | Reset | ClockValidate | AnalogConfig
  | MuLock | SkewTrim | BackendBind | BufferReady.

Definition stage_eqb (a b : stage) : bool :=
  match a, b with
  | Identify, Identify | Reset, Reset | ClockValidate, ClockValidate
  | AnalogConfig, AnalogConfig | MuLock, MuLock | SkewTrim, SkewTrim
  | BackendBind, BackendBind | BufferReady, BufferReady => true
  | _, _ => false
  end.

(** The stage a call of [ad9739a_probe] belongs to; allocating the device,
    getting the clock and the register map, and registering the device
    belong to none. *)
Definition stage_of (c : call) : option stage :=
  match c with
  | ClkGetRate _ => Some ClockValidate
  | RegRead _ reg _ =>
      if reg =? Ad9739a.AD9739A_REG_ID then Some Identify else None
  | GpioGet _ | GpioSet _ | Ndelay _ => Some Reset
  | UpdateBits _ reg _ _ =>
      if reg =? Ad9739a.AD9739A_REG_MODE then Some Reset
      else if reg =? Ad9739a.AD9739A_REG_MU_CNT1 then Some MuLock
      else if reg =? Ad9739a.AD9739A_REG_LVDS_REC_CNT4 then Some SkewTrim
      else None
  | MultiRegWrite _ _ => Some AnalogConfig
  | RegWrite _ reg _ =>
      if reg =? Ad9739a.AD9739A_REG_MU_CNT4 then Some MuLock else None
  | ReadPoll _ reg _ _ =>
      if reg =? Ad9739a.AD9739A_REG_MU_STAT1 then Some MuLock else None
  | BackendGet => Some BackendBind
  | RequestBuffer => Some BufferReady
  | _ => None
  end.

(** Did the call go well: the clock rate is in range, the ID read returned
    the expected constant, any other call returned 0. *)
Definition entry_ok (e : entry) : bool :=
  match what e with
  | ClkGetRate rate =>
      in_range rate Ad9739a.AD9739A_MIN_DAC_CLK Ad9739a.AD9739A_DAC_CLK_RANGE
  | RegRead _ reg val =>
      (result e =? 0) &&
      (if reg =? Ad9739a.AD9739A_REG_ID then val =? Ad9739a.AD9739A_ID
       else true)
  | _ => result e =? 0
  end.

(** The calls of a trace, each with its stage and outcome. *)
Fixpoint staged (tr : list entry) : list (stage * bool) :=
  match tr with
  | [] => []
  | e :: tr' =>
      match stage_of (what e) with
      | Some s => (s, entry_ok e) :: staged tr'
      | None => staged tr'
      end
  end.

(** Position of a stage in an order (the length of the order if absent). *)
Fixpoint rank (order : list stage) (s : stage) : nat :=
  match order with
  | [] => O
  | s' :: order' => if stage_eqb s' s then O else S (rank order' s)
  end.

(** The stages appear in the given order: ranks never decrease. *)
Fixpoint ranks_sorted (order : list stage) (l : list (stage * bool)) : bool :=
  match l with
  | [] => true
  | (s, _) :: l' =>
      match l' with
      | [] => true
      | (s', _) :: _ => (rank order s <=? rank order s')%nat
      end && ranks_sorted order l'
  end.

Definition occurs (s : stage) (l : list (stage * bool)) : bool :=
  existsb (fun p => stage_eqb (fst p) s) l.

(** A stage succeeded when it ran and its last call went well. *)
Fixpoint succeeded (s : stage) (l : list (stage * bool)) (last : bool) : bool :=
  match l with
  | [] => last
  | (s', ok) :: l' => succeeded s l' (if stage_eqb s' s then ok else last)
  end.

(** Every stage that ran did so only after all the stages before it in the
    order had succeeded. *)
Fixpoint gated_from (before order : list stage) (l : list (stage * bool))
  : bool :=
  match order with
  | [] => true
  | s :: order' =>
      (negb (occurs s l) || forallb (fun p => succeeded p l false) before)
      && gated_from (before ++ [s]) order' l
  end.

Definition follows (order : list stage) (tr : list entry) : bool :=
  ranks_sorted order (staged tr) && gated_from [] order (staged tr).

(** The order of the stages as the specification lists them, and as
    [ad9739a_probe] runs them. *)
Definition spec_order : list stage :=
  [Identify; Reset; ClockValidate; AnalogConfig; MuLock; SkewTrim;
   BackendBind; BufferReady].

Definition probe_order : list stage :=
  [ClockValidate; Identify; Reset; AnalogConfig; MuLock; SkewTrim;
   BackendBind; BufferReady].

(** [ad9739a_probe] runs its stages in [order], each only if the stages
    before it succeeded, whatever the collaborators answer. *)
Definition probe_follows (order : list stage) : Prop :=
  forall spi fw_back indet w,
  exists tr,
    log (snd (Ad9739a.ad9739a_probe spi fw_back indet w)) = log w ++ tr /\
    follows order tr = true.

(** ** Properties the statements below are about *)

(** A computation that makes no call at all. *)
Definition served_locally {A} (c : M A) : Prop :=
  forall w, log (snd (c w)) = log w.

(** The write of the fine-delay-skew field done by [ad9739a_init]. *)
Definition is_skew_trim (e : entry) : bool :=
  match what e with
  | UpdateBits _ reg mask val =>
      (reg =? Ad9739a.AD9739A_REG_LVDS_REC_CNT4) &&
      (mask =? Ad9739a.AD9739A_FINE_DEL_SKW_MASK) && (val =? 2)
  | _ => false
  end.

Definition skew_trims (tr : list entry) : nat :=
  length (filter (fun e => is_skew_trim e = true) tr).

(** [axi_dac_data_source_set] fails for every channel index from [nchan]
    on and leaves the registers alone. *)
Definition channel_range_enforced (nchan : Z) : Prop :=
  forall st chan data w,
    nchan <= chan < 2 ^ 32 ->
    fst (AxiDac.axi_dac_data_source_set st chan data w) <> 0 /\
    regs (snd (AxiDac.axi_dac_data_source_set st chan data w)) = regs w.

(** What [ad9739a_reset] does when it takes the register path, as the
    answers of the collaborators decide it.  [e0] is the answer to the
    lookup of the reset line, [e1] and [e3] are the outcomes of the access
    that sets the reset bit and of the access that clears it (the answer of
    the bus when the register map lets the access through, -EIO when it
    does not).  When the lookup fails, its error is returned and nothing
    else is called.  When the bit cannot be set, the error of that access
    is returned and the bit is not cleared.  Otherwise the function sets
    the bit, waits and clears the bit, the access that clears it being
    issued at least 40 ns after the delay began, hence after the access
    that set it, and returns the outcome of that last access. *)
Definition soft_reset_shape (st : Ad9739a.ad9739a_state) (w : world) : Prop :=
  let r := Ad9739a.ad9739a_reset st w in
  let m := Ad9739a.st_regmap st in
  let set_bit :=
    UpdateBits (bus m) Ad9739a.AD9739A_REG_MODE Ad9739a.AD9739A_RESET_MASK
               Ad9739a.AD9739A_RESET_MASK in
  let clear_bit :=
    UpdateBits (bus m) Ad9739a.AD9739A_REG_MODE Ad9739a.AD9739A_RESET_MASK
               0 in
  let reached :=
    Bus.readable m Ad9739a.AD9739A_REG_MODE &&
    Bus.writeable m Ad9739a.AD9739A_REG_MODE in
  let e0 := fault w (tick w) in
  let e1 := if reached then fault w (S (tick w)) else - EIO in
  let e3 := if reached then fault w (S (S (S (tick w)))) else - EIO in
  (e0 <> 0 ->
   fst r = e0 /\
   log (snd r) = log w ++ [Entry (now w) (GpioGet false) e0]) /\
  (e0 = 0 -> e1 <> 0 ->
   exists t1,
     fst r = e1 /\
     log (snd r) =
       log w ++ [Entry (now w) (GpioGet false) 0; Entry t1 set_bit e1]) /\
  (e0 = 0 -> e1 = 0 ->
   exists t1 t2 t3,
     fst r = e3 /\
     log (snd r) =
       log w ++ [Entry (now w) (GpioGet false) 0; Entry t1 set_bit 0;
                 Entry t2 (Ndelay 40) 0; Entry t3 clear_bit e3] /\
     now w <= t1 /\ t1 <= t2 /\ t2 + 40 <= t3).

(** The calls of a log, without times and results. *)
Definition calls (tr : list entry) : list call := map what tr.

(** The next [n] calls all succeed. *)
Definition no_fault_for (n : nat) (w : world) : Prop :=
  forall k, (k < n)%nat -> fault w (k + tick w) = 0.

(** ** What the further statements are about *)

(** Modelled from the spec: "marks the owning streaming device as
    hardware-buffered"; the mode flag of linux/iio/iio.h is missing from
    the sources. *)
Definition INDIO_BUFFER_HARDWARE : Z := 0x08.

Module AxiDacDev.
Import AxiDac.

(** [axi_dac_request_buffer] with the mode flags of the streaming device it
    is given: [modes] is [indio_dev->modes] at the call, and the result is
    the errno of [IS_ERR(buffer)] with the flags at the return. *)
Definition axi_dac_request_buffer (st : axi_dac_state) (modes : Z)
  : M (Z * Z) :=
  r <- collab PropertyReadString ;;
  (* if the property cannot be read, dma_name = "tx" *)
  r <- collab (DmaBufferAlloc (negb (r =? 0))) ;;
  if negb (r =? 0) then Return (r, modes)
  else
    let modes := Z.lor modes INDIO_BUFFER_HARDWARE in
    collab_void BufferSetDirOut ;;;
    ret <- collab AttachBuffer ;;
    if negb (ret =? 0) then Return (ret, modes)
    else Return (0, modes).

End AxiDacDev.

(** The registers a call of the bus layer names, and its bus. *)
Definition accessed_regs (c : call) : list Z :=
  match c with
  | RegRead _ reg _ | RegWrite _ reg _ | UpdateBits _ reg _ _
  | ReadPoll _ reg _ _ => [reg]
  | MultiRegWrite _ seq => map fst seq
  | _ => []
  end.

Definition on_bus (b : Z) (c : call) : bool :=
  match c with
  | RegRead b' _ _ | RegWrite b' _ _ | UpdateBits b' _ _ _
  | ReadPoll b' _ _ _ | MultiRegWrite b' _ | RegmapInit b' => b' =? b
  | _ => true
  end.

(** Every register access of the trace is on bus [b] and names a register
    that the chip's register map lets through. *)
Definition chip_accesses_allowed (b : Z) (tr : list entry) : bool :=
  forallb
    (fun e =>
       on_bus b (what e) &&
       forallb (fun reg =>
                  (0 <=? reg) &&
                  (reg <=? max_register Ad9739a.ad9739a_regmap_config) &&
                  Ad9739a.ad9739a_reg_accessible reg)
               (accessed_regs (what e)))
    tr.

(** A poll of the Mu controller's lock bit. *)
Definition is_lock_poll (e : entry) : bool :=
  match what e with
  | ReadPoll _ reg mask _ =>
      (reg =? Ad9739a.AD9739A_REG_MU_STAT1) &&
      (mask =? Ad9739a.AD9739A_MU_LOCK_MASK)
  | _ => false
  end.

Definition lock_polls (tr : list entry) : nat :=
  length (filter (fun e => is_lock_poll e = true) tr).

(** No write of the skew field comes before a poll that saw the lock. *)
Fixpoint skew_after_lock (locked : bool) (tr : list entry) : bool :=
  match tr with
  | [] => true
  | e :: tr' =>
      (negb (is_skew_trim e) || locked) &&
      skew_after_lock (locked || (is_lock_poll e && (result e =? 0))) tr'
  end.


Definition last_ok (tr : list entry) : bool :=
  match last tr with
  | Some e => entry_ok e
  | None => true
  end.

(** A call that changes a register of some device. *)
Definition is_write (c : call) : bool :=
  match c with
  | RegWrite _ _ _ | UpdateBits _ _ _ _ | MultiRegWrite _ _ => true
  | _ => false
  end.

(** What [ad9739a_reset] does when there is a reset line, as the answer
    [e0] to the lookup of the line decides it: when the lookup fails, its
    error is returned and nothing else is called; otherwise the lookup
    (which drives the line active) is followed by the delay and by the
    release of the line, at least 40 ns after the delay began, and the
    result is 0.  No register changes. *)
Definition line_reset_shape (st : Ad9739a.ad9739a_state) (w : world) : Prop :=
  let r := Ad9739a.ad9739a_reset st w in
  let e0 := fault w (tick w) in
  regs (snd r) = regs w /\
  (e0 <> 0 ->
   fst r = e0 /\
   log (snd r) = log w ++ [Entry (now w) (GpioGet true) e0]) /\
  (e0 = 0 ->
   exists t1 t2,
     fst r = 0 /\
     log (snd r) =
       log w ++ [Entry (now w) (GpioGet true) 0; Entry t1 (Ndelay 40) 0;
                 Entry t2 (GpioSet 0) 0] /\
     now w <= t1 /\ t1 + 40 <= t2).

(** What [axi_dac_enable] does, as the outcomes [e1] and [e2] of its two
    accesses decide it (the answer of the bus when the register map lets
    the access through, -EIO when it does not): when the first access
    fails, its error is returned and nothing else is called; otherwise the
    access is followed by the sleep and by the access that sets the run bit
    as well, issued at least 10 us after the sleep began, and the result is
    the outcome of that access. *)
Definition enable_shape (st : AxiDac.axi_dac_state) (w : world) : Prop :=
  let r := AxiDac.axi_dac_enable st w in
  let m := AxiDac.st_regmap st in
  let reached :=
    Bus.readable m AxiDac.AXI_REG_RSTN &&
    Bus.writeable m AxiDac.AXI_REG_RSTN in
  let e1 := if reached then fault w (tick w) else - EIO in
  let e2 := if reached then fault w (S (S (tick w))) else - EIO in
  (e1 <> 0 ->
   fst r = e1 /\
   log (snd r) =
     log w ++ [Entry (now w) (UpdateBits (bus m) AxiDac.AXI_REG_RSTN 2 2) e1]) /\
  (e1 = 0 ->
   exists t1 t2,
     fst r = e2 /\
     log (snd r) =
       log w ++ [Entry (now w) (UpdateBits (bus m) AxiDac.AXI_REG_RSTN 2 2) 0;
                 Entry t1 (Fsleep 10) 0;
                 Entry t2 (UpdateBits (bus m) AxiDac.AXI_REG_RSTN 3 3) e2] /\
     now w <= t1 /\ t1 + 10000 <= t2).

(** The register field update of the bus layer, on [n]-bit registers. *)
Definition field_update (n orig mask val : Z) : Z :=
  Z.land (Z.lor (Z.land orig (Z.lnot mask)) (Z.land val mask)) (Z.ones n).

(** The states of the chip and of the core that the probes build. *)
Definition chip_at (spi : Z) (back : option iio_backend) (rate : Z)
  : Ad9739a.ad9739a_state :=
  Ad9739a.State back (Regmap spi Ad9739a.ad9739a_regmap_config) rate.

Definition core_at (pdev : Z) : AxiDac.axi_dac_state :=
  AxiDac.State (Regmap pdev AxiDac.axi_dac_regmap_config) pdev.

(** The same board with a reset line. *)
Definition bench_with_line : world :=
  {| fault := fault bench; latency := latency bench;
     clk_rate := clk_rate bench; reset_gpio := true;
     tick := 0; now := 0; regs := bench_regs; registry := []; log := [] |}.

(** The same board with another chip at the chip's address. *)
Definition wrong_chip : world :=
  set_regs (<[(chip, Ad9739a.AD9739A_REG_ID) := 0x25]> bench_regs) bench.

(** The value of the select field for a data source that the core takes. *)
Definition sel_of (data : iio_backend_data_source) : Z :=
  match data with
  | IIO_BACKEND_EXTERNAL => AxiDac.AXI_DAC_DATA_DMA
  | _ => AxiDac.AXI_DAC_DATA_INTERNAL_TONE
  end.

Module BinderOps.

(** Modelled from the spec: "BufferReady (call `request_buffer` through the
    bound handle)"; drivers/iio/industrialio-backend.c is missing from the
    sources.  As for the other calls through a handle, the call is logged
    and then handed to the operation of the handle's table; the result is
    the errno of the buffer that the operation returns, and a missing
    operation is -EOPNOTSUPP. *)
Definition devm_iio_backend_request_buffer (back : option iio_backend)
  : M Z :=
  match back with
  | None => r <- collab_void BadHandle ;; Return (- EFAULT)
  | Some b =>
      collab_void RequestBuffer ;;;
      match request_buffer (ops b) with
      | Some f => f (priv b)
      | None => Return (- EOPNOTSUPP)
      end
  end.

End BinderOps.

Module Ad9739aBound.
Import Bus Binder BinderOps Ad9739a.

(** [ad9739a_probe] with the buffer requested through the handle of the
    bound backend.  [Ad9739a.ad9739a_probe] takes the outcome of
    [devm_iio_backend_request_buffer] as one answer of the collaborators;
    here the call runs the [request_buffer] operation of [fw_back], so that
    the calls the backend makes are in the trace and the result of the
    stage is the result of the operation.  Everything else is the same
    function. *)
Definition ad9739a_probe (spi : Z) (fw_back : iio_backend) (indet : Z)
  : M (Z * ad9739a_state) :=
  let st := State None (Regmap spi ad9739a_regmap_config) 0 in
  r <- collab DevAlloc ;;
  if negb (r =? 0) then Return (- ENOMEM, st)
  else
    r <- collab ClkGetEnabled ;;
    if negb (r =? 0) then Return (r, st)
    else
      rate <- clk_get_rate ;;
      let st := State (back st) (st_regmap st) rate in
      if negb (in_range (sample_rate st) AD9739A_MIN_DAC_CLK
                        AD9739A_DAC_CLK_RANGE)
      then Return (- EINVAL, st)
      else
        r <- collab (RegmapInit spi) ;;
        if negb (r =? 0) then Return (r, st)
        else
          rd <- regmap_read (st_regmap st) AD9739A_REG_ID ;;
          if negb (fst rd =? 0) then Return (fst rd, st)
          else if negb (snd rd =? AD9739A_ID) then Return (- ENODEV, st)
          else
            ret <- ad9739a_reset st ;;
            if negb (ret =? 0) then Return (ret, st)
            else
              o <- ad9739a_init st ;;
              let ret := match o with Some ret => ret | None => indet end in
              if negb (ret =? 0) then Return (ret, st)
              else
                r <- collab BackendGet ;;
                if negb (r =? 0) then Return (r, st)
                else
                  let st := State (Some fw_back) (st_regmap st)
                                  (sample_rate st) in
                  ret <- devm_iio_backend_request_buffer (back st) ;;
                  if negb (ret =? 0) then Return (ret, st)
                  else
                    r <- collab DeviceRegister ;;
                    Return (r, st).

End Ad9739aBound.

(** The lookup of the name of the DMA channel, which may fail without
    harm: the default name is used then. *)
Definition is_property_read (e : entry) : bool :=
  match what e with
  | PropertyReadString => true
  | _ => false
  end.

(** Every call but the last went well, apart from polls of the lock bit
    and from the lookup of the name of the DMA channel. *)
Fixpoint stops_at_first_failure (tr : list entry) : bool :=
  match tr with
  | [] => true
  | e :: tr' =>
      match tr' with
      | [] => true
      | _ :: _ =>
          (entry_ok e || is_lock_poll e || is_property_read e) &&
          stops_at_first_failure tr'
      end
  end.


(** ** How the collaborators' calls show in the world *)

(** [p] makes exactly one call: it appends one entry to the log, stamped
    with the current time; time does not go back, and the oracles, the
    clock and the reset line are what they were. *)
Class Emits {A} (p : M A) (c : A -> call) (res : A -> Z) : Prop := {
  emits_log : forall w,
    log (snd (p w)) =
    log w ++ [Entry (now w) (c (fst (p w))) (res (fst (p w)))];
  emits_now : forall w, now w <= now (snd (p w));
  emits_fault : forall w, fault (snd (p w)) = fault w;
  emits_tick : forall w, tick (snd (p w)) = S (tick w);
  emits_clk : forall w, clk_rate (snd (p w)) = clk_rate w;
  emits_gpio : forall w, reset_gpio (snd (p w)) = reset_gpio w
}.

Lemma next_latency_nonneg w : 0 <= next_latency w.
Proof. unfold next_latency. lia. Qed.

Lemma poke_all_frame m seq w :
  log (Bus.poke_all m seq w) = log w /\
  now (Bus.poke_all m seq w) = now w /\
  fault (Bus.poke_all m seq w) = fault w /\
  tick (Bus.poke_all m seq w) = tick w /\
  clk_rate (Bus.poke_all m seq w) = clk_rate w /\
  reset_gpio (Bus.poke_all m seq w) = reset_gpio w /\
  registry (Bus.poke_all m seq w) = registry w.
Proof.
  unfold Bus.poke_all. revert w.
  induction seq as [|rv seq IH]; intros w; cbn [fold_left].
  - repeat split.
  - destruct (IH (poke (bus m) (fst rv)
                       (Z.land (snd rv) (Bus.val_mask m)) w))
      as (-> & -> & -> & -> & -> & -> & ->).
    repeat split.
Qed.

(** The usual proof: the call is one [emit], perhaps followed by a change
    of the registers. *)
Ltac emits_by_cases :=
  split; intros w; cbn [fst snd];
  try match goal with
      | |- context [if ?c then _ else _] => destruct c
      end;
  try reflexivity;
  cbn; pose proof (next_latency_nonneg w); lia.

#[global] Instance collab_emits c : Emits (collab c) (fun _ => c) (fun r => r).
Proof. emits_by_cases. Qed.

#[global] Instance collab_void_emits c :
  Emits (collab_void c) (fun _ => c) (fun _ => 0).
Proof. emits_by_cases. Qed.

#[global] Instance clk_get_rate_emits :
  Emits clk_get_rate (fun rate => ClkGetRate rate) (fun _ => 0).
Proof. emits_by_cases. Qed.

#[global] Instance gpiod_get_emits :
  Emits Ad9739a.devm_gpiod_get_optional (fun g => GpioGet (snd g)) fst.
Proof. emits_by_cases. Qed.

#[global] Instance regmap_read_emits m reg :
  Emits (Bus.regmap_read m reg) (fun rv => RegRead (bus m) reg (snd rv)) fst.
Proof. emits_by_cases. Qed.

#[global] Instance regmap_write_emits m reg val :
  Emits (Bus.regmap_write m reg val)
        (fun _ => RegWrite (bus m) reg val) (fun r => r).
Proof. unfold Bus.regmap_write. emits_by_cases. Qed.

#[global] Instance regmap_update_bits_emits m reg mask val :
  Emits (Bus.regmap_update_bits m reg mask val)
        (fun _ => UpdateBits (bus m) reg mask val) (fun r => r).
Proof. unfold Bus.regmap_update_bits. emits_by_cases. Qed.

#[global] Instance regmap_set_bits_emits m reg bits :
  Emits (Bus.regmap_set_bits m reg bits)
        (fun _ => UpdateBits (bus m) reg bits bits) (fun r => r).
Proof. unfold Bus.regmap_set_bits. apply _. Qed.

#[global] Instance regmap_clear_bits_emits m reg bits :
  Emits (Bus.regmap_clear_bits m reg bits)
        (fun _ => UpdateBits (bus m) reg bits 0) (fun r => r).
Proof. unfold Bus.regmap_clear_bits. apply _. Qed.

#[global] Instance regmap_multi_reg_write_emits m seq :
  Emits (Bus.regmap_multi_reg_write m seq)
        (fun _ => MultiRegWrite (bus m) seq) (fun r => r).
Proof.
  split; intros w; unfold Bus.regmap_multi_reg_write; cbn [fst snd];
    destruct (_ =? 0);
    try (destruct (poke_all_frame m seq
           (emit (MultiRegWrite (bus m) seq)
                 (Bus.access
                    (forallb (fun rv => Bus.writeable m (fst rv)) seq) w)
                 (next_latency w) w))
           as (E1 & E2 & E3 & E4 & E5 & E6 & _);
         rewrite ?E1, ?E2, ?E3, ?E4, ?E5, ?E6);
    try reflexivity; cbn; pose proof (next_latency_nonneg w); lia.
Qed.

#[global] Instance regmap_read_poll_timeout_emits m reg mask t :
  Emits (Bus.regmap_read_poll_timeout m reg mask t)
        (fun _ => ReadPoll (bus m) reg mask t) (fun r => r).
Proof. emits_by_cases. Qed.

#[global] Instance ndelay_40_emits :
  Emits (ndelay 40) (fun _ => Ndelay 40) (fun _ => 0).
Proof. emits_by_cases. Qed.

#[global] Instance fsleep_10_emits :
  Emits (fsleep 10) (fun _ => Fsleep 10) (fun _ => 0).
Proof. emits_by_cases. Qed.

#[global] Instance backend_register_emits dev b :
  Emits (Binder.devm_iio_backend_register dev b)
        (fun _ => BackendRegister dev) (fun r => r).
Proof. unfold Binder.devm_iio_backend_register, collab. emits_by_cases. Qed.

(** What the calls return, and what they do to the registers and to the
    registry. *)
Lemma collab_effect c w :
  fst (collab c w) = fault w (tick w) /\
  regs (snd (collab c w)) = regs w /\
  registry (snd (collab c w)) = registry w.
Proof. repeat split. Qed.

Lemma clk_get_rate_effect w :
  fst (clk_get_rate w) = ulong (clk_rate w) /\
  regs (snd (clk_get_rate w)) = regs w /\
  registry (snd (clk_get_rate w)) = registry w.
Proof. repeat split. Qed.

Lemma gpiod_get_effect w :
  fst (fst (Ad9739a.devm_gpiod_get_optional w)) = fault w (tick w) /\
  snd (fst (Ad9739a.devm_gpiod_get_optional w)) = reset_gpio w.
Proof. repeat split. Qed.

Lemma ndelay_effect ns w : now w + ns <= now (snd (ndelay ns w)).
Proof. cbn. pose proof (next_latency_nonneg w). lia. Qed.

Lemma regmap_read_effect m reg w :
  fst (fst (Bus.regmap_read m reg w)) = Bus.access (Bus.readable m reg) w /\
  snd (fst (Bus.regmap_read m reg w)) = peek w (bus m) reg /\
  regs (snd (Bus.regmap_read m reg w)) = regs w /\
  registry (snd (Bus.regmap_read m reg w)) = registry w.
Proof. repeat split. Qed.

Lemma regmap_write_effect m reg val w :
  fst (Bus.regmap_write m reg val w) = Bus.access (Bus.writeable m reg) w /\
  regs (snd (Bus.regmap_write m reg val w)) =
    (if fst (Bus.regmap_write m reg val w) =? 0
     then <[(bus m, reg) := Z.land val (Bus.val_mask m)]> (regs w)
     else regs w) /\
  registry (snd (Bus.regmap_write m reg val w)) = registry w.
Proof.
  unfold Bus.regmap_write. cbn [fst snd].
  destruct (_ =? 0); repeat split.
Qed.

Lemma regmap_update_bits_effect m reg mask val w :
  fst (Bus.regmap_update_bits m reg mask val w) =
    Bus.access (Bus.readable m reg && Bus.writeable m reg) w /\
  regs (snd (Bus.regmap_update_bits m reg mask val w)) =
    (if fst (Bus.regmap_update_bits m reg mask val w) =? 0
     then <[(bus m, reg) :=
              Z.land (Z.lor (Z.land (peek w (bus m) reg) (Z.lnot mask))
                            (Z.land val mask))
                     (Bus.val_mask m)]> (regs w)
     else regs w) /\
  registry (snd (Bus.regmap_update_bits m reg mask val w)) = registry w.
Proof.
  unfold Bus.regmap_update_bits. cbn [fst snd].
  destruct (_ =? 0); repeat split.
Qed.

Lemma backend_register_effect dev b w :
  fst (Binder.devm_iio_backend_register dev b w) = fault w (tick w) /\
  regs (snd (Binder.devm_iio_backend_register dev b w)) = regs w /\
  registry (snd (Binder.devm_iio_backend_register dev b w)) =
    (if fst (Binder.devm_iio_backend_register dev b w) =? 0
     then registry w ++ [Registered dev b]
     else registry w).
Proof.
  unfold Binder.devm_iio_backend_register. cbn [fst snd collab].
  destruct (_ =? 0); repeat split.
Qed.

(** ** Symbolic execution of the drivers *)

(** Name the result and the world of the next call, and record what it
    appended to the log; [note p w] may record more about the call. *)
Ltac exec_call_with note :=
  lazymatch goal with
  | |- context [match ?p ?w with pair _ _ => _ end] =>
      let L := fresh "L" in
      let a := fresh "a" in
      let w1 := fresh "w" in
      pose proof (emits_log (p:=p) w) as L;
      note p w;
      destruct (p w) as [a w1];
      lazymatch type of a with
      | prod _ _ => destruct a as [? ?]
      | unit => destruct a
      | _ => idtac
      end;
      cbn [fst snd Ad9739a.sample_rate Ad9739a.back Ad9739a.st_regmap
           AxiDac.st_regmap AxiDac.dev bus] in *
  end.

Ltac note_nothing p w := idtac.

(** The oracles, the clock and the reset line after the call. *)
Ltac note_frame p w :=
  pose proof (emits_fault (p:=p) w);
  pose proof (emits_tick (p:=p) w);
  pose proof (emits_clk (p:=p) w);
  pose proof (emits_gpio (p:=p) w);
  pose proof (emits_now (p:=p) w).

(** The result of the call, the registers and the registry after it. *)
Ltac note_effect p w :=
  lazymatch p with
  | collab ?c => pose proof (collab_effect c w)
  | clk_get_rate => pose proof (clk_get_rate_effect w)
  | Ad9739a.devm_gpiod_get_optional => pose proof (gpiod_get_effect w)
  | ndelay ?ns => pose proof (ndelay_effect ns w)
  | Bus.regmap_read ?m ?reg => pose proof (regmap_read_effect m reg w)
  | Bus.regmap_write ?m ?reg ?val =>
      pose proof (regmap_write_effect m reg val w)
  | Bus.regmap_update_bits ?m ?reg ?mask ?val =>
      pose proof (regmap_update_bits_effect m reg mask val w)
  | Bus.regmap_set_bits ?m ?reg ?bits =>
      let H := fresh "H" in
      pose proof (regmap_update_bits_effect m reg bits bits w) as H;
      change (Bus.regmap_update_bits m reg bits bits)
        with (Bus.regmap_set_bits m reg bits) in H
  | Bus.regmap_clear_bits ?m ?reg ?bits =>
      let H := fresh "H" in
      pose proof (regmap_update_bits_effect m reg bits 0 w) as H;
      change (Bus.regmap_update_bits m reg bits 0)
        with (Bus.regmap_clear_bits m reg bits) in H
  | Binder.devm_iio_backend_register ?d ?b =>
      pose proof (backend_register_effect d b w)
  | _ => idtac
  end.

Ltac note_all p w := note_frame p w; note_effect p w.

Ltac exec_call := exec_call_with note_nothing.

(** The same for a call in tail position, whose result is the result of
    the function. *)
Ltac exec_tail_with note :=
  lazymatch goal with
  | |- context [snd (?p ?w)] =>
      let L := fresh "L" in
      let a := fresh "a" in
      let w1 := fresh "w" in
      pose proof (emits_log (p:=p) w) as L;
      note p w;
      destruct (p w) as [a w1];
      cbn [fst snd] in *
  end.

(** A test that was seen to fail cannot succeed later. *)
Ltac absurd_test :=
  match goal with
  | H : (?a =? ?a) = false |- _ => rewrite Z.eqb_refl in H; discriminate H
  | H : true = false |- _ => discriminate H
  end.

(** Follow both sides of the next test. *)
Ltac exec_branch :=
  lazymatch goal with
  | |- context [if negb (?x =? ?y) then _ else _] =>
      let H := fresh "H" in
      destruct (Z.eqb_spec x y) as [H|H];
      [try subst x; try absurd_test
      | try congruence; apply Z.eqb_neq in H]
  | |- context [if negb ?c then _ else _] =>
      let H := fresh "H" in destruct c eqn:H
  | |- context [if (?x =? ?y) then _ else _] =>
      let H := fresh "H" in
      destruct (Z.eqb_spec x y) as [H|H];
      [try subst x; try absurd_test
      | try congruence; apply Z.eqb_neq in H]
  | |- context [if ?c then _ else _] =>
      let H := fresh "H" in destruct c eqn:H
  end;
  cbn [negb fst snd Ad9739a.sample_rate Ad9739a.back Ad9739a.st_regmap].

Ltac exec := repeat (first [exec_call | exec_branch]).
Ltac exec_noting note :=
  repeat (first [exec_call_with note | exec_branch]).

(** Put the entries appended by the calls together. *)
Ltac collect_log :=
  cbn [fst snd];
  repeat match goal with L : log _ = _ |- _ => rewrite L; clear L end;
  rewrite <- ?app_assoc; cbn [app].

Ltac split_hyps :=
  repeat match goal with H : _ /\ _ |- _ => destruct H end.

Ltac use_tests :=
  repeat match goal with H : _ = _ |- _ => rewrite H end.

Lemma lock_n_tries : Z.to_nat Ad9739a.AD9739A_LOCK_N_TRIES = 3%nat.
Proof. reflexivity. Qed.

Ltac unfold_init :=
  unfold Ad9739a.ad9739a_init;
  rewrite lock_n_tries;
  cbn [Ad9739a.mu_lock_loop Ad9739a.skew_loop];
  unfold bind, Return;
  cbn [fst snd Ad9739a.sample_rate Ad9739a.back Ad9739a.st_regmap].

(** ** The drivers on the bench *)

Example bench_probe_trace :
  let r := Ad9739a.ad9739a_probe chip (AxiDac.handle core_state) 0 bench in
  fst (fst r) = 0 /\
  calls (log (snd r)) =
    [DevAlloc; ClkGetEnabled; ClkGetRate 2000000000; RegmapInit 0;
     RegRead 0 0x35 0x24;
     GpioGet false; UpdateBits 0 0 0x20 0x20; Ndelay 40; UpdateBits 0 0 0x20 0;
     MultiRegWrite 0 [(0x22, 0x0f); (0x23, 0x0f); (0x24, 0x30);
                      (0x25, 0x80); (0x27, 0x44); (0x28, 0x6c)];
     RegWrite 0 0x29 0xcb; UpdateBits 0 0x26 1 1; ReadPoll 0 0x2A 1 1000;
     UpdateBits 0 0x13 0xF 2; UpdateBits 0 0x13 0xF 2; UpdateBits 0 0x13 0xF 2;
     BackendGet; RequestBuffer; DeviceRegister].
Proof. vm_compute. split; reflexivity. Qed.

Example unlocked_chip_times_out :
  let r := Ad9739a.ad9739a_init chip_state unlocked in
  fst r = Some (- ETIMEDOUT) /\
  map result (log (snd r)) =
    [0; 0; 0; - ETIMEDOUT; 0; 0; - ETIMEDOUT; 0; 0; - ETIMEDOUT].
Proof. vm_compute. split; reflexivity. Qed.

Example lock_at_the_second_try :
  let w := with_fault (fun n => if Nat.eqb n 3 then - EIO else 0) bench in
  let r := Ad9739a.ad9739a_init chip_state w in
  fst r = None /\
  map result (log (snd r)) = [0; 0; 0; - EIO; 0; 0; 0; 0; 0; 0].
Proof. vm_compute. split; reflexivity. Qed.

Example reset_line_pulse :
  let w := World (fault bench) (latency bench) (clk_rate bench) true
                 0 0 bench_regs [] [] in
  log (snd (Ad9739a.ad9739a_reset chip_state w)) =
    [Entry 0 (GpioGet true) 0; Entry 0 (Ndelay 40) 0; Entry 40 (GpioSet 0) 0].
Proof. vm_compute. reflexivity. Qed.

Example reserved_registers_are_rejected :
  fst (Bus.regmap_write (Ad9739a.st_regmap chip_state) 0x2B 1 bench) = - EIO /\
  fst (Bus.regmap_write (Ad9739a.st_regmap chip_state) 0x30 1 bench) = - EIO /\
  fst (Bus.regmap_write (Ad9739a.st_regmap chip_state) 0x36 1 bench) = - EIO /\
  fst (Bus.regmap_write (Ad9739a.st_regmap chip_state) 0x32 1 bench) = 0.
Proof. vm_compute. repeat split; reflexivity. Qed.

Example core_enable_then_disable :
  let r := AxiDac.axi_dac_enable core_state bench in
  fst r = 0 /\
  calls (log (snd r)) =
    [UpdateBits 1 0x40 2 2; Fsleep 10; UpdateBits 1 0x40 3 3] /\
  peek (snd r) core AxiDac.AXI_REG_RSTN = 3 /\
  peek (snd (AxiDac.axi_dac_disable core_state (snd r)))
       core AxiDac.AXI_REG_RSTN = 0.
Proof. vm_compute. repeat split; reflexivity. Qed.

Example streaming_switches_the_source :
  let r := Ad9739a.ad9739a_buffer_preenable chip_state bench in
  fst r = 0 /\
  peek (snd r) core (AxiDac.AXI_REG_CHAN_CNTRL_7 0) = 2 /\
  peek (snd (Ad9739a.ad9739a_buffer_postdisable chip_state (snd r)))
       core (AxiDac.AXI_REG_CHAN_CNTRL_7 0) = 0.
Proof. vm_compute. repeat split; reflexivity. Qed.

Example core_probe_registers :
  let r := AxiDac.axi_dac_probe core (Some AxiDac.axi_dac_9_1_b_info) bench in
  fst (fst r) = 0 /\ registry (snd r) = [Registered core core].
Proof. vm_compute. split; reflexivity. Qed.

(** [follows] rejects a stage that runs after a failed one, and stages out
    of order. *)
Example follows_checks_the_gates :
  follows probe_order
    [Entry 0 (ClkGetRate 5) 0; Entry 0 (RegRead 0 0x35 0x24) 0] = false.
Proof. vm_compute. reflexivity. Qed.

Example follows_checks_the_order :
  follows probe_order
    [Entry 0 (RegRead 0 0x35 0x24) 0; Entry 0 (ClkGetRate 2000000000) 0]
    = false.
Proof. vm_compute. reflexivity. Qed.

(** ** The probe sequence of the frontend *)

(** C1, as the specification states it: the stages do not run in the order
    Identify, Reset, ClockValidate, ...; on the healthy board the clock is
    validated before the chip ID is read. *)
Lemma probe_order_not_as_specified : ~ probe_follows spec_order.
Proof.
  intros H.
  destruct (H chip (AxiDac.handle core_state) 0 bench) as [tr [Hlog Hf]].
  vm_compute in Hlog. subst tr.
  vm_compute in Hf. discriminate Hf.
Qed.

(** C1, amended: whatever the collaborators answer, and whatever value the
    caller reads when [ad9739a_init] ends without a [return], the stages of
    [ad9739a_probe] run in the order ClockValidate, Identify, Reset,
    AnalogConfig, MuLock, SkewTrim, BackendBind, BufferReady, and a stage
    runs only if the stages before it succeeded. *)
Theorem probe_stage_order : probe_follows probe_order.
Proof.
  intros spi fw_back indet w.
  unfold Ad9739a.ad9739a_probe, Ad9739a.ad9739a_reset.
  unfold_init.
  exec; collect_log; (eexists; split; [reflexivity|]);
    cbn; use_tests; reflexivity.
Qed.

(** ** The calibration function *)

(** C6: [ad9739a_init] never returns 0: it returns an errno on a failure,
    and when every call succeeds (as on the healthy board) control reaches
    the end of the function, which has no [return] statement there. *)
Theorem init_ends_without_return :
  (forall st w, fst (Ad9739a.ad9739a_init st w) <> Some 0) /\
  fst (Ad9739a.ad9739a_init chip_state bench) = None.
Proof.
  split; [|vm_compute; reflexivity].
  intros st w. unfold_init.
  exec; cbn [fst snd]; intros E; try discriminate E;
    injection E as ->; absurd_test.
Qed.

(** C5, as the specification states it: on the healthy board the skew
    field is not written twice. *)
Lemma skew_trim_not_twice :
  skew_trims (log (snd (Ad9739a.ad9739a_init chip_state bench))) <> 2%nat.
Proof. vm_compute. discriminate. Qed.

(** C5, amended: when [ad9739a_init] runs to its end, the last three calls
    it made are three successful writes of the value 2 to the
    fine-delay-skew field, one right after the other (no delay and no
    status read in between), and it wrote that field at no other time. *)
Theorem skew_trim_three_writes st w :
  fst (Ad9739a.ad9739a_init st w) = None ->
  exists tr t1 t2 t3,
    let skew :=
      UpdateBits (bus (Ad9739a.st_regmap st))
                 Ad9739a.AD9739A_REG_LVDS_REC_CNT4
                 Ad9739a.AD9739A_FINE_DEL_SKW_MASK 2 in
    log (snd (Ad9739a.ad9739a_init st w)) =
      log w ++ tr ++ [Entry t1 skew 0; Entry t2 skew 0; Entry t3 skew 0] /\
    skew_trims tr = 0%nat /\
    Z.to_nat Ad9739a.AD9739A_LOCK_N_TRIES = 3%nat.
Proof.
  unfold_init.
  exec; cbn [fst snd]; intros Hret; try discriminate Hret; collect_log.
  - (* locked at the first try *)
    eexists [_; _; _; _], _, _, _. cbn [app]. split; [reflexivity|].
    split; reflexivity.
  - (* locked at the second try *)
    eexists [_; _; _; _; _; _; _], _, _, _. cbn [app].
    split; [reflexivity|]. split; reflexivity.
  - (* locked at the third try *)
    eexists [_; _; _; _; _; _; _; _; _; _], _, _, _. cbn [app].
    split; [reflexivity|]. split; reflexivity.
Qed.

Lemma skew_trim_three_writes_witness :
  fst (Ad9739a.ad9739a_init chip_state bench) = None /\
  exists tr t1 t2 t3,
    let skew :=
      UpdateBits (bus (Ad9739a.st_regmap chip_state))
                 Ad9739a.AD9739A_REG_LVDS_REC_CNT4
                 Ad9739a.AD9739A_FINE_DEL_SKW_MASK 2 in
    log (snd (Ad9739a.ad9739a_init chip_state bench)) =
      log bench ++ tr ++ [Entry t1 skew 0; Entry t2 skew 0; Entry t3 skew 0] /\
    skew_trims tr = 0%nat /\
    Z.to_nat Ad9739a.AD9739A_LOCK_N_TRIES = 3%nat.
Proof.
  split; [vm_compute; reflexivity|].
  apply (skew_trim_three_writes chip_state bench). vm_compute. reflexivity.
Defined.

(** ** Scalar attributes *)

(** C2: for scale, frequency and phase, which the backend does not
    implement, its [read_raw] and [write_raw] return 0 and do nothing: no
    register is accessed and [*val], [*val2] keep their contents; only the
    other attributes get -EINVAL.  Read through the frontend on the healthy
    board, the scale comes back as 0 with the caller's values untouched. *)
Theorem backend_raw_stubs_return_zero :
  (forall st chan val val2 w,
     AxiDac.ad9739a_read_raw st chan val val2 IIO_CHAN_INFO_SCALE w
       = ((0, (val, val2)), w) /\
     AxiDac.ad9739a_read_raw st chan val val2 IIO_CHAN_INFO_FREQUENCY w
       = ((0, (val, val2)), w) /\
     AxiDac.ad9739a_read_raw st chan val val2 IIO_CHAN_INFO_PHASE w
       = ((0, (val, val2)), w) /\
     AxiDac.ad9739a_write_raw st chan val val2 IIO_CHAN_INFO_SCALE w
       = (0, w) /\
     AxiDac.ad9739a_write_raw st chan val val2 IIO_CHAN_INFO_FREQUENCY w
       = (0, w) /\
     AxiDac.ad9739a_write_raw st chan val val2 IIO_CHAN_INFO_PHASE w
       = (0, w) /\
     AxiDac.ad9739a_read_raw st chan val val2 IIO_CHAN_INFO_SAMP_FREQ w
       = ((- EINVAL, (val, val2)), w) /\
     forall n,
       AxiDac.ad9739a_read_raw st chan val val2 (IIO_CHAN_INFO_OTHER n) w
         = ((- EINVAL, (val, val2)), w) /\
       AxiDac.ad9739a_write_raw st chan val val2 (IIO_CHAN_INFO_OTHER n) w
         = (- EINVAL, w)) /\
  fst (Ad9739a.ad9739a_read_raw chip_state 0 7 9 IIO_CHAN_INFO_SCALE bench)
    = (0, (7, 9)) /\
  regs (snd (Ad9739a.ad9739a_write_raw chip_state 0 5 0
                                       IIO_CHAN_INFO_SCALE bench))
    = regs bench /\
  fst (Ad9739a.ad9739a_write_raw chip_state 0 5 0 IIO_CHAN_INFO_SCALE bench)
    = 0.
Proof.
  split; [|vm_compute; auto].
  intros st chan val val2 w. repeat split; reflexivity.
Qed.

(** C4, as the specification states it: a write of the sample-rate
    attribute is not served locally; on the healthy board it goes through
    the backend handle. *)
Lemma write_sample_rate_not_local :
  ~ served_locally
      (Ad9739a.ad9739a_write_raw chip_state 0 (2000 * MEGA) 0
                                 IIO_CHAN_INFO_SAMP_FREQ).
Proof.
  intros H. specialize (H bench). vm_compute in H. discriminate H.
Qed.

(** The range test of the probe accepts the closed interval of the two
    bounds, and nothing else. *)
Lemma ulong_bounds x : 0 <= ulong x < 2 ^ BITS_PER_LONG.
Proof. apply Z.mod_pos_bound. reflexivity. Qed.

Lemma in_range_dac_clk val :
  0 <= val < 2 ^ BITS_PER_LONG ->
  in_range val Ad9739a.AD9739A_MIN_DAC_CLK Ad9739a.AD9739A_DAC_CLK_RANGE
    = true <->
  Ad9739a.AD9739A_MIN_DAC_CLK <= val <= Ad9739a.AD9739A_MAX_DAC_CLK.
Proof.
  intros Hb. unfold in_range, ulong. rewrite Z.ltb_lt.
  unfold Ad9739a.AD9739A_DAC_CLK_RANGE, Ad9739a.AD9739A_MIN_DAC_CLK,
    Ad9739a.AD9739A_MAX_DAC_CLK, MEGA, BITS_PER_LONG in *.
  destruct (Z_lt_le_dec val 1600000000) as [Hlt|Hge].
  - assert ((val - 1600 * 1000000) mod 2 ^ 64
            = val - 1600 * 1000000 + 2 ^ 64) as ->
      by (symmetry; apply Z.mod_unique with (q := -1); lia).
    lia.
  - rewrite Z.mod_small by lia. lia.
Qed.

(** What a successful probe leaves in the driver state. *)
Lemma probe_success_state spi fw_back indet w :
  fst (fst (Ad9739a.ad9739a_probe spi fw_back indet w)) = 0 ->
  snd (fst (Ad9739a.ad9739a_probe spi fw_back indet w)) =
    Ad9739a.State (Some fw_back)
                  (Regmap spi Ad9739a.ad9739a_regmap_config)
                  (ulong (clk_rate w)) /\
  in_range (ulong (clk_rate w)) Ad9739a.AD9739A_MIN_DAC_CLK
           Ad9739a.AD9739A_DAC_CLK_RANGE = true.
Proof.
  unfold Ad9739a.ad9739a_probe, Ad9739a.ad9739a_reset.
  unfold_init.
  exec_noting ltac:(fun p w =>
                      pose proof (emits_clk (p:=p) w); note_effect p w).
  all: cbn [fst snd]; intros E;
    try (exfalso; vm_compute in E; discriminate E);
    try (rewrite E in *; absurd_test).
  all: split_hyps; split; congruence.
Qed.

(** C4, amended: after a successful probe, a read of the sample-rate
    attribute makes no call and returns [IIO_VAL_INT] with the clock rate
    cached by the probe (which passed the range check), as stored in the
    [int] result; a read of any other attribute, and a write of every
    attribute, the sample rate included, is the bound backend's call with
    the same arguments and the same result. *)
Theorem raw_attribute_dispatch spi fw_back indet w chan val val2 mask w2 :
  fst (fst (Ad9739a.ad9739a_probe spi fw_back indet w)) = 0 ->
  let st := snd (fst (Ad9739a.ad9739a_probe spi fw_back indet w)) in
  Ad9739a.ad9739a_read_raw st chan val val2 IIO_CHAN_INFO_SAMP_FREQ w2
    = ((IIO_VAL_INT, (to_int (ulong (clk_rate w)), val2)), w2) /\
  Ad9739a.AD9739A_MIN_DAC_CLK <= ulong (clk_rate w)
    <= Ad9739a.AD9739A_MAX_DAC_CLK /\
  match mask with
  | IIO_CHAN_INFO_SAMP_FREQ => True
  | _ =>
      Ad9739a.ad9739a_read_raw st chan val val2 mask w2
        = Binder.iio_backend_read_raw (Some fw_back) chan val val2 mask w2
  end /\
  Ad9739a.ad9739a_write_raw st chan val val2 mask w2
    = Binder.iio_backend_write_raw (Some fw_back) chan val val2 mask w2.
Proof.
  intros H st. subst st.
  destruct (probe_success_state _ _ _ _ H) as [-> Hrange].
  split; [reflexivity|]. split.
  - apply in_range_dac_clk; [apply ulong_bounds | exact Hrange].
  - split; [destruct mask; exact I || reflexivity | reflexivity].
Qed.

Lemma raw_attribute_dispatch_witness :
  fst (fst (Ad9739a.ad9739a_probe chip (AxiDac.handle core_state) 0 bench))
    = 0 /\
  Ad9739a.ad9739a_read_raw
    (snd (fst (Ad9739a.ad9739a_probe chip (AxiDac.handle core_state) 0 bench)))
    0 0 0 IIO_CHAN_INFO_SAMP_FREQ bench
    = ((IIO_VAL_INT, (to_int (ulong (clk_rate bench)), 0)), bench).
Proof.
  split; [vm_compute; reflexivity|].
  apply (raw_attribute_dispatch chip (AxiDac.handle core_state) 0 bench
           0 0 0 IIO_CHAN_INFO_SCALE bench).
  vm_compute. reflexivity.
Defined.

(** ** The data source of a channel *)

(** C3, as the specification states it: channel indices from 16 on, which
    lie beyond any channel of the core, are not all rejected; with the
    index 2^26 the register address wraps around to the one of channel 0,
    the call returns 0 and the register is written. *)
Lemma data_source_set_no_channel_check : ~ channel_range_enforced 16.
Proof.
  intros H.
  destruct (H core_state (2 ^ 26) IIO_BACKEND_EXTERNAL bench) as [Hr _].
  - lia.
  - apply Hr. vm_compute. reflexivity.
Qed.

(** C3, amended: [axi_dac_data_source_set] checks the data source only.  A
    source other than the internal tone and the external one gets -EINVAL
    and nothing is touched.  For the two legal sources there is no check of
    the channel index: the call updates the 4-bit select field of the
    register at (0x418 + chan * 0x40) mod 2^32; when that address lies in
    the register window of the core the outcome is the one of the bus
    access, and the register changes exactly when it succeeds; beyond the
    window the bus layer rejects the access with -EIO and no register is
    written.  The operations table of the core has no [chan_enable] and no
    [chan_disable]. *)
Theorem data_source_set_any_channel b d chan data w :
  let st := AxiDac.State (Regmap b AxiDac.axi_dac_regmap_config) d in
  let reg := AxiDac.AXI_REG_CHAN_CNTRL_7 chan in
  let r := AxiDac.axi_dac_data_source_set st chan data w in
  match data with
  | IIO_BACKEND_DATA_SOURCE_MAX => r = (- EINVAL, w)
  | _ =>
      let sel := match data with
                 | IIO_BACKEND_EXTERNAL => AxiDac.AXI_DAC_DATA_DMA
                 | _ => AxiDac.AXI_DAC_DATA_INTERNAL_TONE
                 end in
      calls (log (snd r)) = calls (log w) ++ [UpdateBits b reg 0xF sel] /\
      fst r = (if reg <=? 0x0800 then fault w (tick w) else - EIO) /\
      regs (snd r) =
        (if fst r =? 0
         then <[(b, reg) :=
                  Z.land (Z.lor (Z.land (peek w b reg) (Z.lnot 0xF)) sel)
                         0xFFFFFFFF]> (regs w)
         else regs w)
  end /\
  chan_enable AxiDac.axi_dac_generic = None /\
  chan_disable AxiDac.axi_dac_generic = None.
Proof.
  intros st reg r. split; [|split; reflexivity].
  destruct data; [| |reflexivity]; subst r;
    unfold AxiDac.axi_dac_data_source_set; cbn [AxiDac.st_regmap st].
  all: match goal with
       | |- context [Bus.regmap_update_bits ?m ?rg ?mk ?v ?w0] =>
           destruct (regmap_update_bits_effect m rg mk v w0) as (E1 & E2 & _);
           pose proof (emits_log (p:=Bus.regmap_update_bits m rg mk v) w0) as L
       end.
  all: split; [unfold calls; rewrite L, map_app; reflexivity|].
  all: split; [rewrite E1; unfold Bus.access, Bus.readable, Bus.writeable,
                 Bus.in_window; cbn [config AxiDac.axi_dac_regmap_config
                 max_register readable_reg writeable_reg];
               fold reg; destruct (reg <=? 2048); reflexivity
              | rewrite E2; reflexivity].
Qed.

(** ** Probing the core *)

Lemma axi_rstn_access b w :
  Bus.access (Bus.writeable (Regmap b AxiDac.axi_dac_regmap_config)
                            AxiDac.AXI_REG_RSTN) w = fault w (tick w).
Proof. reflexivity. Qed.

Lemma axi_version_access b w :
  Bus.access (Bus.readable (Regmap b AxiDac.axi_dac_regmap_config)
                           ADI_AXI_REG_VERSION) w = fault w (tick w).
Proof. reflexivity. Qed.

Ltac unfold_axi_probe :=
  unfold AxiDac.axi_dac_probe, bind, Return;
  cbn [fst snd AxiDac.st_regmap AxiDac.dev bus].

(** Express what is known of the later worlds in terms of the first. *)
Ltac chain_worlds :=
  rewrite ?axi_rstn_access, ?axi_version_access in *;
  unfold peek in *;
  repeat match goal with
         | H : regs ?a = _ |- _ => try rewrite H in *; clear H
         | H : registry ?a = _ |- _ => try rewrite H in *; clear H
         | H : fault ?a = _ |- _ => try rewrite H in *; clear H
         | H : tick ?a = _ |- _ => try rewrite H in *; clear H
         end.

Ltac use_no_fault H n :=
  let rec go k :=
    lazymatch k with
    | O => idtac
    | S ?k' => pose proof (H k' ltac:(lia)); go k'
    end in
  go n; cbn [Nat.add] in *.

Ltac failed_test :=
  match goal with
  | H : (?a =? 0) = false, E : ?a = 0 |- _ =>
      rewrite E in H; discriminate H
  | H : (?a =? 0) = false, E : 0 = ?a |- _ =>
      rewrite <- E in H; discriminate H
  | H : (?a =? 0) = false, E : ?a = ?f, E' : ?f = 0 |- _ =>
      rewrite E, E' in H; discriminate H
  end.

(** C7: when the major version the core reports differs from the one of
    its match entry, [axi_dac_probe] fails, the registry is what it was and
    [devm_iio_backend_register] is not called; when no call before the
    comparison fails, the error is the one of the comparison, -ENODEV. *)
Theorem version_mismatch_not_registered pdev expected w :
  ADI_AXI_PCORE_VER_MAJOR (peek w pdev ADI_AXI_REG_VERSION)
    <> ADI_AXI_PCORE_VER_MAJOR expected ->
  let r := AxiDac.axi_dac_probe pdev (Some expected) w in
  fst (fst r) <> 0 /\
  registry (snd r) = registry w /\
  (exists tr, log (snd r) = log w ++ tr /\
              ~ In (BackendRegister pdev) (calls tr)) /\
  (no_fault_for 6 w -> fst (fst r) = - ENODEV).
Proof.
  intros Hver r. subst r. unfold_axi_probe.
  exec_noting note_all.
  all: split_hyps; cbn [fst snd]; chain_worlds.
  all: try (exfalso; subst;
            match goal with
            | H : ADI_AXI_PCORE_VER_MAJOR _ = _ |- _ =>
                rewrite lookup_insert_ne in H by (intros E; inversion E);
                exact (Hver H)
            end).
  all: split; [first [apply Z.eqb_neq; assumption
                     | intros E; vm_compute in E; discriminate E]|].
  all: split; [reflexivity|].
  all: split; [collect_log; eexists; split; [reflexivity|];
               cbn; intuition discriminate|].
  all: intros Hnf; use_no_fault Hnf 6%nat; try reflexivity; exfalso.
  all: failed_test.
Qed.

Lemma version_mismatch_not_registered_witness :
  ADI_AXI_PCORE_VER_MAJOR (peek bench core ADI_AXI_REG_VERSION)
    <> ADI_AXI_PCORE_VER_MAJOR (ADI_AXI_PCORE_VER 10 0 97) /\
  fst (fst (AxiDac.axi_dac_probe core (Some (ADI_AXI_PCORE_VER 10 0 97))
                                 bench)) <> 0.
Proof.
  assert (ADI_AXI_PCORE_VER_MAJOR (peek bench core ADI_AXI_REG_VERSION)
          <> ADI_AXI_PCORE_VER_MAJOR (ADI_AXI_PCORE_VER 10 0 97)) as H
    by (vm_compute; discriminate).
  split; [exact H|].
  exact (proj1 (version_mismatch_not_registered core _ bench H)).
Defined.

(** ** Disabling the core *)

Lemma axi_probe_success pdev expected w :
  fst (fst (AxiDac.axi_dac_probe pdev (Some expected) w)) = 0 ->
  snd (fst (AxiDac.axi_dac_probe pdev (Some expected) w)) =
    AxiDac.State (Regmap pdev AxiDac.axi_dac_regmap_config) pdev /\
  regs (snd (AxiDac.axi_dac_probe pdev (Some expected) w))
    !! (pdev, AxiDac.AXI_REG_RSTN) = Some 0.
Proof.
  unfold_axi_probe.
  exec_noting note_effect.
  all: split_hyps; cbn [fst snd]; intros E;
    try (exfalso; vm_compute in E; discriminate E);
    try (rewrite E in *; absurd_test).
  chain_worlds. split; [reflexivity|]. apply lookup_insert_eq.
Qed.

Lemma disable_at_rest st w :
  regs w !! (bus (AxiDac.st_regmap st), AxiDac.AXI_REG_RSTN) = Some 0 ->
  regs (snd (AxiDac.axi_dac_disable st w)) = regs w.
Proof.
  intros H0. unfold AxiDac.axi_dac_disable, bind, Return.
  destruct (regmap_write_effect (AxiDac.st_regmap st) AxiDac.AXI_REG_RSTN 0 w)
    as (_ & E & _).
  destruct (Bus.regmap_write _ _ _ w) as [r w1]. cbn [fst snd] in *.
  rewrite E. destruct (r =? 0); [|reflexivity].
  apply insert_id. exact H0.
Qed.

Lemma disable_calls st w :
  calls (log (snd (AxiDac.axi_dac_disable st w))) =
  calls (log w) ++
  [RegWrite (bus (AxiDac.st_regmap st)) AxiDac.AXI_REG_RSTN 0].
Proof.
  unfold AxiDac.axi_dac_disable, bind, Return.
  pose proof (emits_log (p:=Bus.regmap_write (AxiDac.st_regmap st)
                                             AxiDac.AXI_REG_RSTN 0) w) as L.
  destruct (Bus.regmap_write _ _ _ w) as [r w1]. cbn [fst snd] in *.
  unfold calls. rewrite L, map_app. reflexivity.
Qed.

(** C10: after a successful probe, and before any [enable], the control
    register of the core holds 0; [axi_dac_disable] then writes 0 to it
    again and leaves every register as it is, and so does a second
    [axi_dac_disable].  The function
    returns nothing, so it reports no failure.  In general, once a
    [disable] has left the control register at 0, another [disable]
    changes no register. *)
Theorem disable_never_enabled_noop pdev expected w :
  fst (fst (AxiDac.axi_dac_probe pdev (Some expected) w)) = 0 ->
  let st := snd (fst (AxiDac.axi_dac_probe pdev (Some expected) w)) in
  let w1 := snd (AxiDac.axi_dac_probe pdev (Some expected) w) in
  let w2 := snd (AxiDac.axi_dac_disable st w1) in
  let w3 := snd (AxiDac.axi_dac_disable st w2) in
  peek w1 pdev AxiDac.AXI_REG_RSTN = 0 /\
  calls (log w2) = calls (log w1) ++ [RegWrite pdev AxiDac.AXI_REG_RSTN 0] /\
  regs w2 = regs w1 /\
  regs w3 = regs w2 /\
  fst (AxiDac.axi_dac_disable st w1) = tt /\
  (forall st' w',
     regs (snd (AxiDac.axi_dac_disable st' w'))
       !! (bus (AxiDac.st_regmap st'), AxiDac.AXI_REG_RSTN) = Some 0 ->
     regs (snd (AxiDac.axi_dac_disable st' (snd (AxiDac.axi_dac_disable st' w'))))
       = regs (snd (AxiDac.axi_dac_disable st' w'))).
Proof.
  intros H st w1 w2 w3.
  destruct (axi_probe_success _ _ _ H) as [Est Hrst].
  fold st in Est. fold w1 in Hrst.
  assert (regs w2 = regs w1) as E12.
  { apply disable_at_rest. rewrite Est. exact Hrst. }
  split; [|split; [|split; [|split; [|split]]]].
  - unfold peek. rewrite Hrst. reflexivity.
  - subst w2. rewrite disable_calls, Est. reflexivity.
  - exact E12.
  - apply disable_at_rest. rewrite E12, Est. exact Hrst.
  - destruct (AxiDac.axi_dac_disable st w1) as [[] ?]. reflexivity.
  - intros st' w'. apply disable_at_rest.
Qed.

Lemma disable_never_enabled_noop_witness :
  fst (fst (AxiDac.axi_dac_probe core (Some AxiDac.axi_dac_9_1_b_info) bench))
    = 0 /\
  peek (snd (AxiDac.axi_dac_probe core (Some AxiDac.axi_dac_9_1_b_info) bench))
       core AxiDac.AXI_REG_RSTN = 0.
Proof.
  assert (fst (fst (AxiDac.axi_dac_probe core
                      (Some AxiDac.axi_dac_9_1_b_info) bench)) = 0) as H
    by (vm_compute; reflexivity).
  split; [exact H|].
  exact (proj1 (disable_never_enabled_noop core _ bench H)).
Defined.

(** ** The clock range *)

Lemma in_range_dac_clk_b val :
  0 <= val < 2 ^ BITS_PER_LONG ->
  in_range val Ad9739a.AD9739A_MIN_DAC_CLK Ad9739a.AD9739A_DAC_CLK_RANGE =
  (Ad9739a.AD9739A_MIN_DAC_CLK <=? val) && (val <=? Ad9739a.AD9739A_MAX_DAC_CLK).
Proof.
  intros Hb. apply eq_true_iff_eq.
  rewrite (in_range_dac_clk val Hb), andb_true_iff, !Z.leb_le. reflexivity.
Qed.

Ltac exec_clock_validate :=
  unfold Ad9739a.ad9739a_probe, Ad9739a.ad9739a_reset;
  unfold_init;
  exec_noting ltac:(fun p w =>
    lazymatch p with
    | collab DevAlloc => note_all p w
    | collab ClkGetEnabled => note_all p w
    | clk_get_rate => note_all p w
    | _ => idtac
    end);
  split_hyps; cbn [fst snd]; chain_worlds;
  try (exfalso; failed_test);
  subst;
  repeat match goal with
         | H : clk_rate _ = _ |- _ => rewrite H in *; clear H
         end;
  try (exfalso; congruence).

Lemma clock_in_range_goes_on spi fw_back indet w :
  no_fault_for 2 w ->
  in_range (ulong (clk_rate w)) Ad9739a.AD9739A_MIN_DAC_CLK
           Ad9739a.AD9739A_DAC_CLK_RANGE = true ->
  exists tr,
    log (snd (Ad9739a.ad9739a_probe spi fw_back indet w)) = log w ++ tr /\
    In (RegmapInit spi) (calls tr).
Proof.
  intros Hnf Hin. use_no_fault Hnf 2%nat.
  exec_clock_validate.
  all: collect_log; eexists; (split; [reflexivity|]); cbn; auto 10.
Qed.

Lemma clock_out_of_range_stops spi fw_back indet w :
  no_fault_for 2 w ->
  in_range (ulong (clk_rate w)) Ad9739a.AD9739A_MIN_DAC_CLK
           Ad9739a.AD9739A_DAC_CLK_RANGE = false ->
  fst (fst (Ad9739a.ad9739a_probe spi fw_back indet w)) = - EINVAL /\
  calls (log (snd (Ad9739a.ad9739a_probe spi fw_back indet w))) =
    calls (log w) ++ [DevAlloc; ClkGetEnabled; ClkGetRate (ulong (clk_rate w))].
Proof.
  intros Hnf Hin. use_no_fault Hnf 2%nat.
  exec_clock_validate.
  collect_log. split; [reflexivity|].
  unfold calls. rewrite map_app. reflexivity.
Qed.

(** C8: when the device and its clock are obtained, [ad9739a_probe] goes
    on to set up the register map exactly when the clock rate lies in the
    closed interval from 1600 MHz to 2500 MHz, and otherwise stops with
    -EINVAL right after reading the rate.  The two bounds pass the range
    test; one unit below the lower bound and one unit above the upper bound
    do not. *)
Theorem clock_range_closed_interval spi fw_back indet w :
  no_fault_for 2 w ->
  let r := Ad9739a.ad9739a_probe spi fw_back indet w in
  let rate := ulong (clk_rate w) in
  (if (Ad9739a.AD9739A_MIN_DAC_CLK <=? rate) &&
      (rate <=? Ad9739a.AD9739A_MAX_DAC_CLK)
   then exists tr, log (snd r) = log w ++ tr /\
                   In (RegmapInit spi) (calls tr)
   else fst (fst r) = - EINVAL /\
        calls (log (snd r)) =
          calls (log w) ++ [DevAlloc; ClkGetEnabled; ClkGetRate rate]) /\
  in_range (1600 * MEGA) Ad9739a.AD9739A_MIN_DAC_CLK
           Ad9739a.AD9739A_DAC_CLK_RANGE = true /\
  in_range (2500 * MEGA) Ad9739a.AD9739A_MIN_DAC_CLK
           Ad9739a.AD9739A_DAC_CLK_RANGE = true /\
  in_range (1600 * MEGA - 1) Ad9739a.AD9739A_MIN_DAC_CLK
           Ad9739a.AD9739A_DAC_CLK_RANGE = false /\
  in_range (2500 * MEGA + 1) Ad9739a.AD9739A_MIN_DAC_CLK
           Ad9739a.AD9739A_DAC_CLK_RANGE = false.
Proof.
  intros Hnf r rate.
  split; [|repeat split; vm_compute; reflexivity].
  rewrite <- (in_range_dac_clk_b rate (ulong_bounds _)).
  subst r rate.
  destruct (in_range _ _ _) eqn:Hin.
  - apply clock_in_range_goes_on; assumption.
  - apply clock_out_of_range_stops; assumption.
Qed.

Lemma clock_range_closed_interval_witness :
  no_fault_for 2 (with_clk_rate (1600 * MEGA - 1) bench) /\
  fst (fst (Ad9739a.ad9739a_probe chip (AxiDac.handle core_state) 0
              (with_clk_rate (1600 * MEGA - 1) bench))) = - EINVAL.
Proof.
  assert (no_fault_for 2 (with_clk_rate (1600 * MEGA - 1) bench)) as H
    by (intros k _; reflexivity).
  split; [exact H|].
  exact (proj1 (proj1 (clock_range_closed_interval
                         chip (AxiDac.handle core_state) 0 _ H))).
Defined.

(** ** The reset pulse *)

(** C9: without a reset line, [ad9739a_reset] sets the reset bit, waits,
    and only then clears the bit: when the lookup of the line and the
    access that sets the bit succeed, the function makes exactly these
    calls in this order, the access that clears the bit being issued at
    least 40 ns after the one that set it; and the bit is cleared only
    when the access that set it succeeded. *)
Theorem soft_reset_pulse st w :
  reset_gpio w = false -> soft_reset_shape st w.
Proof.
  intros Hgpio.
  unfold soft_reset_shape. cbv zeta.
  set (e1 := if _ && _ then fault w (S (tick w)) else - EIO).
  set (e3 := if _ && _ then fault w (S (S (S (tick w)))) else - EIO).
  unfold Ad9739a.ad9739a_reset, bind, Return.
  exec_noting note_all.
  all: try exec_tail_with note_all.
  all: split_hyps; cbn [fst snd]; try (exfalso; congruence).
  all: unfold Bus.access, next_fault in *.
  all: repeat match goal with
              | H : fault ?a = _ |- _ => try rewrite H in *; clear H
              | H : tick ?a = _ |- _ => try rewrite H in *; clear H
              end.
  all: subst e1 e3; subst; collect_log; rewrite ?Hgpio.
  - (* the lookup and the access that sets the bit succeeded *)
    split; [intros E; exfalso; apply E; symmetry; assumption|].
    split; [intros _ E; exfalso; apply E; symmetry; assumption|].
    intros _ _. eexists _, _, _. split; [reflexivity|].
    split; [reflexivity|]. lia.
  - (* setting the bit failed *)
    match goal with H : (_ =? 0) = false |- _ => apply Z.eqb_neq in H end.
    split; [intros E; exfalso; apply E; symmetry; assumption|].
    split; [|intros _ E; exfalso; auto].
    intros _ _. eexists. split; reflexivity.
  - (* the lookup of the reset line failed *)
    match goal with H : (_ =? 0) = false |- _ => apply Z.eqb_neq in H end.
    split; [intros _; split; reflexivity|].
    split; intros E; exfalso; auto.
Qed.

Lemma soft_reset_pulse_witness :
  reset_gpio bench = false /\
  exists t1 t2 t3,
    fst (Ad9739a.ad9739a_reset chip_state bench) = 0 /\
    log (snd (Ad9739a.ad9739a_reset chip_state bench)) =
      [Entry 0 (GpioGet false) 0; Entry t1 (UpdateBits chip 0 0x20 0x20) 0;
       Entry t2 (Ndelay 40) 0; Entry t3 (UpdateBits chip 0 0x20 0) 0] /\
    0 <= t1 /\ t1 <= t2 /\ t2 + 40 <= t3.
Proof.
  split; [reflexivity|].
  destruct (soft_reset_pulse chip_state bench eq_refl) as (_ & _ & H).
  exact (H eq_refl eq_refl).
Defined.

(** * Further properties *)

(** ** More about the calls: registers and time *)

Lemma collab_void_effect c w :
  regs (snd (collab_void c w)) = regs w /\
  registry (snd (collab_void c w)) = registry w.
Proof. repeat split. Qed.

Lemma ndelay_regs ns w :
  regs (snd (ndelay ns w)) = regs w /\
  registry (snd (ndelay ns w)) = registry w.
Proof. repeat split. Qed.

Lemma fsleep_effect us w :
  now w + 1000 * us <= now (snd (fsleep us w)) /\
  regs (snd (fsleep us w)) = regs w /\
  registry (snd (fsleep us w)) = registry w.
Proof.
  repeat split. cbn. pose proof (next_latency_nonneg w). lia.
Qed.

Lemma gpiod_get_regs w :
  regs (snd (Ad9739a.devm_gpiod_get_optional w)) = regs w /\
  registry (snd (Ad9739a.devm_gpiod_get_optional w)) = registry w.
Proof. repeat split. Qed.

Lemma regs_poke_all m seq w :
  regs (Bus.poke_all m seq w) =
  fold_left (fun rs rv =>
               <[(bus m, fst rv) := Z.land (snd rv) (Bus.val_mask m)]> rs)
            seq (regs w).
Proof.
  unfold Bus.poke_all. revert w.
  induction seq as [|rv seq IH]; intros w; cbn [fold_left]; [reflexivity|].
  rewrite IH. reflexivity.
Qed.

Lemma regmap_multi_reg_write_effect m seq w :
  fst (Bus.regmap_multi_reg_write m seq w) =
    Bus.access (forallb (fun rv => Bus.writeable m (fst rv)) seq) w /\
  regs (snd (Bus.regmap_multi_reg_write m seq w)) =
    (if fst (Bus.regmap_multi_reg_write m seq w) =? 0
     then fold_left
            (fun rs rv =>
               <[(bus m, fst rv) := Z.land (snd rv) (Bus.val_mask m)]> rs)
            seq (regs w)
     else regs w) /\
  registry (snd (Bus.regmap_multi_reg_write m seq w)) = registry w.
Proof.
  unfold Bus.regmap_multi_reg_write. cbn [fst snd].
  destruct (_ =? 0).
  - rewrite regs_poke_all.
    destruct (poke_all_frame m seq
                (emit (MultiRegWrite (bus m) seq)
                   (Bus.access
                      (forallb (fun rv => Bus.writeable m (fst rv)) seq) w)
                   (next_latency w) w)) as (_ & _ & _ & _ & _ & _ & ->).
    repeat split.
  - repeat split.
Qed.

Lemma regmap_read_poll_timeout_effect m reg mask t w :
  fst (Bus.regmap_read_poll_timeout m reg mask t w) =
    (if Bus.access (Bus.readable m reg) w =? 0
     then (if Z.land (peek w (bus m) reg) mask =? 0 then - ETIMEDOUT else 0)
     else Bus.access (Bus.readable m reg) w) /\
  regs (snd (Bus.regmap_read_poll_timeout m reg mask t w)) = regs w /\
  registry (snd (Bus.regmap_read_poll_timeout m reg mask t w)) = registry w.
Proof. repeat split. Qed.

(** The result of a call, the registers and the registry after it, for
    every call of the two drivers. *)
Ltac note_regs p w :=
  lazymatch p with
  | collab_void ?c => pose proof (collab_void_effect c w)
  | ndelay ?ns => pose proof (ndelay_effect ns w);
                  pose proof (ndelay_regs ns w)
  | fsleep ?us => pose proof (fsleep_effect us w)
  | Ad9739a.devm_gpiod_get_optional =>
      pose proof (gpiod_get_effect w); pose proof (gpiod_get_regs w)
  | Bus.regmap_multi_reg_write ?m ?seq =>
      pose proof (regmap_multi_reg_write_effect m seq w)
  | Bus.regmap_read_poll_timeout ?m ?reg ?mask ?t =>
      pose proof (regmap_read_poll_timeout_effect m reg mask t w)
  | _ => note_effect p w
  end.

Ltac note_state p w := note_frame p w; note_regs p w.

(** Accesses of the chip's and of the core's register map reach the bus. *)
Lemma chip_readable b reg :
  Ad9739a.ad9739a_reg_accessible reg = true ->
  (reg <=? Ad9739a.AD9739A_REG_ID) = true ->
  Bus.readable (Regmap b Ad9739a.ad9739a_regmap_config) reg = true.
Proof.
  intros Ha Hm. unfold Bus.readable, Bus.in_window.
  cbn [config Ad9739a.ad9739a_regmap_config max_register readable_reg].
  rewrite Ha, Hm. reflexivity.
Qed.

Lemma chip_writeable b reg :
  Ad9739a.ad9739a_reg_accessible reg = true ->
  (reg <=? Ad9739a.AD9739A_REG_ID) = true ->
  Bus.writeable (Regmap b Ad9739a.ad9739a_regmap_config) reg = true.
Proof.
  intros Ha Hm. unfold Bus.writeable, Bus.in_window.
  cbn [config Ad9739a.ad9739a_regmap_config max_register writeable_reg].
  rewrite Ha, Hm. reflexivity.
Qed.

Lemma core_readable b reg :
  Bus.readable (Regmap b AxiDac.axi_dac_regmap_config) reg = (reg <=? 0x0800).
Proof.
  unfold Bus.readable, Bus.in_window. cbn. apply andb_true_r.
Qed.

Lemma core_writeable b reg :
  Bus.writeable (Regmap b AxiDac.axi_dac_regmap_config) reg = (reg <=? 0x0800).
Proof.
  unfold Bus.writeable, Bus.in_window. cbn. apply andb_true_r.
Qed.

(** ** More about the probe of the chip *)

Ltac unfold_probe :=
  unfold Ad9739a.ad9739a_probe, Ad9739a.ad9739a_reset; unfold_init.

(** X1: whatever happens, every register access [ad9739a_probe] makes is on
    the chip's own bus and names a register that [ad9739a_reg_accessible]
    lets through, at or below [max_register]: the driver never asks for a
    reserved register. *)
Theorem probe_accesses_allowed spi fw_back indet w :
  exists tr,
    log (snd (Ad9739a.ad9739a_probe spi fw_back indet w)) = log w ++ tr /\
    chip_accesses_allowed spi tr = true.
Proof.
  unfold_probe.
  exec; collect_log; (eexists; split; [reflexivity|]);
    cbn; rewrite ?Z.eqb_refl; reflexivity.
Qed.



Lemma core_readable_in b reg :
  (reg <=? 0x0800) = true ->
  Bus.readable (Regmap b AxiDac.axi_dac_regmap_config) reg = true.
Proof. intros H. rewrite core_readable. exact H. Qed.

Lemma core_writeable_in b reg :
  (reg <=? 0x0800) = true ->
  Bus.writeable (Regmap b AxiDac.axi_dac_regmap_config) reg = true.
Proof. intros H. rewrite core_writeable. exact H. Qed.

(** Resolve the accessibility tests of accesses at known registers, and
    read the outcome of the accesses off the oracle. *)
Ltac reach_bus :=
  repeat match goal with
         | H : context [Bus.readable
                          (Regmap ?b Ad9739a.ad9739a_regmap_config) ?r] |- _ =>
             rewrite (chip_readable b r eq_refl eq_refl) in H
         | H : context [Bus.writeable
                          (Regmap ?b Ad9739a.ad9739a_regmap_config) ?r] |- _ =>
             rewrite (chip_writeable b r eq_refl eq_refl) in H
         | H : context [Bus.readable
                          (Regmap ?b AxiDac.axi_dac_regmap_config) ?r] |- _ =>
             rewrite (core_readable_in b r eq_refl) in H
         | H : context [Bus.writeable
                          (Regmap ?b AxiDac.axi_dac_regmap_config) ?r] |- _ =>
             rewrite (core_writeable_in b r eq_refl) in H
         | |- context [Bus.readable
                         (Regmap ?b Ad9739a.ad9739a_regmap_config) ?r] =>
             rewrite (chip_readable b r eq_refl eq_refl)
         | |- context [Bus.writeable
                         (Regmap ?b Ad9739a.ad9739a_regmap_config) ?r] =>
             rewrite (chip_writeable b r eq_refl eq_refl)
         | |- context [Bus.readable
                         (Regmap ?b AxiDac.axi_dac_regmap_config) ?r] =>
             rewrite (core_readable_in b r eq_refl)
         | |- context [Bus.writeable
                         (Regmap ?b AxiDac.axi_dac_regmap_config) ?r] =>
             rewrite (core_writeable_in b r eq_refl)
         end;
  cbn [andb forallb map fst snd Ad9739a.ad9739a_clk_mu_ctrl] in *;
  unfold Bus.access, next_fault in *.

Ltac note_until_identify p w :=
  lazymatch p with
  | collab DevAlloc => note_state p w
  | collab ClkGetEnabled => note_state p w
  | clk_get_rate => note_state p w
  | collab (RegmapInit _) => note_state p w
  | Bus.regmap_read _ _ => note_state p w
  | _ => idtac
  end.

(** X4: a chip that does not report the expected ID is left alone: the
    probe fails, no register of any device has changed, and the trace has
    no write access and no call of the reset stage.  When the five calls
    up to the ID read succeed and the clock is in range, the error is
    -ENODEV. *)
Theorem unrecognized_chip_untouched spi fw_back indet w :
  peek w spi Ad9739a.AD9739A_REG_ID <> Ad9739a.AD9739A_ID ->
  let r := Ad9739a.ad9739a_probe spi fw_back indet w in
  fst (fst r) <> 0 /\
  regs (snd r) = regs w /\
  (exists tr, log (snd r) = log w ++ tr /\
              forallb (fun c => negb (is_write c) &&
                                match stage_of c with
                                | Some Reset => false
                                | _ => true
                                end) (calls tr) = true) /\
  (no_fault_for 5 w ->
   in_range (ulong (clk_rate w)) Ad9739a.AD9739A_MIN_DAC_CLK
            Ad9739a.AD9739A_DAC_CLK_RANGE = true ->
   fst (fst r) = - ENODEV).
Proof.
  intros Hid r. subst r. unfold_probe.
  exec_noting note_until_identify.
  all: split_hyps; cbn [fst snd]; reach_bus; chain_worlds.
  all: try (exfalso; subst; apply Hid; symmetry; assumption).
  all: split; [first [apply Z.eqb_neq; assumption
                     | intros E; vm_compute in E; discriminate E]|].
  all: split; [reflexivity|].
  all: split; [collect_log; eexists; split; [reflexivity|];
               cbn; rewrite ?Z.eqb_refl; reflexivity|].
  all: intros Hnf Hin; use_no_fault Hnf 5%nat; try reflexivity; exfalso.
  all: subst;
       repeat match goal with
              | H : clk_rate _ = _ |- _ => rewrite H in *; clear H
              end.
  all: try congruence.
  all: failed_test.
Qed.

Lemma unrecognized_chip_untouched_witness :
  peek wrong_chip chip Ad9739a.AD9739A_REG_ID <> Ad9739a.AD9739A_ID /\
  regs (snd (Ad9739a.ad9739a_probe chip (AxiDac.handle core_state) 0
                                   wrong_chip)) = regs wrong_chip.
Proof.
  assert (peek wrong_chip chip Ad9739a.AD9739A_REG_ID <> Ad9739a.AD9739A_ID)
    as H by (vm_compute; discriminate).
  split; [exact H|].
  exact (proj1 (proj2 (unrecognized_chip_untouched
                         chip (AxiDac.handle core_state) 0 wrong_chip H))).
Defined.

(** ** More about the reset and the calibration of the chip *)

(** X5: with a reset line, [ad9739a_reset] goes through the line only: no
    register of any device changes; when the lookup of the line succeeds,
    the line, driven active by the lookup, is released at least 40 ns
    after the delay began and the result is 0; when the lookup fails its
    error is returned and nothing else is called. *)
Theorem line_reset_pulse st w :
  reset_gpio w = true -> line_reset_shape st w.
Proof.
  intros Hgpio.
  unfold line_reset_shape, Ad9739a.ad9739a_reset, bind, Return.
  exec_noting note_state.
  all: try exec_tail_with note_state.
  all: split_hyps; cbn [fst snd]; try (exfalso; congruence).
  all: subst; collect_log; rewrite ?Hgpio; chain_worlds.
  - (* the lookup succeeded *)
    split; [reflexivity|].
    split; [intros E; exfalso; apply E; symmetry; assumption|].
    intros _. eexists _, _. split; [reflexivity|].
    split; [reflexivity|]. lia.
  - (* the lookup failed *)
    match goal with H : (_ =? 0) = false |- _ => apply Z.eqb_neq in H end.
    split; [reflexivity|].
    split; [intros _; split; reflexivity|].
    intros E; exfalso; auto.
Qed.

Lemma line_reset_pulse_witness :
  reset_gpio bench_with_line = true /\
  exists t1 t2,
    fst (Ad9739a.ad9739a_reset chip_state bench_with_line) = 0 /\
    log (snd (Ad9739a.ad9739a_reset chip_state bench_with_line)) =
      [Entry 0 (GpioGet true) 0; Entry t1 (Ndelay 40) 0;
       Entry t2 (GpioSet 0) 0] /\
    0 <= t1 /\ t1 + 40 <= t2.
Proof.
  split; [reflexivity|].
  destruct (line_reset_pulse chip_state bench_with_line eq_refl)
    as (_ & _ & H).
  exact (H eq_refl).
Defined.

(** X6: whatever the bus answers, [ad9739a_init] polls the lock bit at most
    three times, writes the skew field at most three times and makes at
    most thirteen calls; it writes the skew field only after a poll has
    seen the lock; and when it runs to its end it has written the skew
    field three times. *)
Theorem init_attempts_bounded st w :
  exists tr,
    log (snd (Ad9739a.ad9739a_init st w)) = log w ++ tr /\
    (lock_polls tr <= 3)%nat /\
    (skew_trims tr <= 3)%nat /\
    (length tr <= 13)%nat /\
    skew_after_lock false tr = true /\
    (fst (Ad9739a.ad9739a_init st w) = None -> skew_trims tr = 3%nat).
Proof.
  unfold_init.
  exec; collect_log; (eexists; split; [reflexivity|]).
  all: cbn [fst snd].
  all: split; [vm_compute; lia|].
  all: split; [vm_compute; lia|].
  all: split; [cbn [length]; lia|].
  all: split; [cbn; use_tests; reflexivity|].
  all: intros E; try discriminate E; reflexivity.
Qed.

Ltac unfold_chip_init :=
  unfold chip_at; unfold_init.

(** Express the oracle and the call count of the later worlds in terms of
    the first; the registers stay as each call left them. *)
Ltac chain_env :=
  repeat match goal with
         | H : fault ?a = _ |- _ => try rewrite H in *; clear H
         | H : tick ?a = _ |- _ => try rewrite H in *; clear H
         | H : registry ?a = _ |- _ => try rewrite H in *; clear H
         end.

Ltac distinct_keys :=
  let E := fresh in intros E; injection E; vm_compute; discriminate.

(** Look a register up, going back through the calls one at a time. *)
Ltac lookup_back_with tac :=
  unfold peek;
  repeat first
    [ rewrite lookup_insert_eq
    | rewrite lookup_insert_ne by tac
    | match goal with
      | H : regs ?a = _ |- context [regs ?a !! _] =>
          rewrite H; cbn [fold_left Ad9739a.ad9739a_clk_mu_ctrl fst snd];
          unfold peek
      end ].

Ltac lookup_back := lookup_back_with distinct_keys.

Ltac lookup_back_in H :=
  unfold peek in H;
  repeat first
    [ rewrite lookup_insert_eq in H
    | rewrite lookup_insert_ne in H by distinct_keys
    | match goal with
      | E : regs ?a = _ |- _ =>
          match type of H with
          | context [regs a !! _] =>
              rewrite E in H;
              cbn [fold_left Ad9739a.ad9739a_clk_mu_ctrl fst snd] in H;
              unfold peek in H
          end
      end ].

Ltac use_oracle :=
  repeat match goal with
         | E : fault ?w ?k = 0, H : context [fault ?w ?k =? 0] |- _ =>
             rewrite E in H
         end;
  change (0 =? 0) with true in *;
  cbv iota in *.

(** What the polls of the lock bit saw. *)
Ltac settle_polls Hbit :=
  repeat match goal with
         | H : _ = (if Z.land (peek _ _ _) _ =? 0 then _ else _) |- _ =>
             lookup_back_in H; rewrite Hbit in H; cbv iota in H
         end.

(** X7: on a chip whose lock bit reads 0, with a bus that does not fail,
    [ad9739a_init] writes the configuration, makes three attempts (tuning
    byte, enable bit, poll) and returns -ETIMEDOUT; it makes no further
    call and the skew register keeps its content. *)
Theorem unlocked_chip_fails spi back rate w :
  no_fault_for 10 w ->
  Z.land (peek w spi Ad9739a.AD9739A_REG_MU_STAT1)
         Ad9739a.AD9739A_MU_LOCK_MASK = 0 ->
  let r := Ad9739a.ad9739a_init (chip_at spi back rate) w in
  let attempt :=
    [RegWrite spi Ad9739a.AD9739A_REG_MU_CNT4 Ad9739a.AD9739A_MU_CNT4_DEFAULT;
     UpdateBits spi Ad9739a.AD9739A_REG_MU_CNT1 1 1;
     ReadPoll spi Ad9739a.AD9739A_REG_MU_STAT1 1 1000] in
  fst r = Some (- ETIMEDOUT) /\
  regs (snd r) !! (spi, Ad9739a.AD9739A_REG_LVDS_REC_CNT4)
    = regs w !! (spi, Ad9739a.AD9739A_REG_LVDS_REC_CNT4) /\
  calls (log (snd r)) =
    calls (log w) ++
    MultiRegWrite spi Ad9739a.ad9739a_clk_mu_ctrl
      :: attempt ++ attempt ++ attempt.
Proof.
  intros Hnf Hbit r attempt. subst r attempt.
  use_no_fault Hnf 10%nat.
  unfold peek in Hbit. apply Z.eqb_eq in Hbit.
  unfold_chip_init.
  exec_noting note_state.
  all: split_hyps; cbn [fst snd]; reach_bus; reach_bus; chain_env.
  all: try (exfalso; failed_test).
  all: use_oracle; settle_polls Hbit.
  all: try (exfalso; subst; discriminate).
  all: subst.
  all: split; [reflexivity|].
  all: split; [lookup_back; reflexivity|].
  all: collect_log; unfold calls; rewrite map_app; reflexivity.
Qed.

Lemma unlocked_chip_fails_witness :
  no_fault_for 10 unlocked /\
  Z.land (peek unlocked chip Ad9739a.AD9739A_REG_MU_STAT1)
         Ad9739a.AD9739A_MU_LOCK_MASK = 0 /\
  fst (Ad9739a.ad9739a_init (chip_at chip None 0) unlocked)
    = Some (- ETIMEDOUT).
Proof.
  assert (no_fault_for 10 unlocked) as H by (intros k _; reflexivity).
  assert (Z.land (peek unlocked chip Ad9739a.AD9739A_REG_MU_STAT1)
                 Ad9739a.AD9739A_MU_LOCK_MASK = 0) as H0
    by (vm_compute; reflexivity).
  split; [exact H|]. split; [exact H0|].
  exact (proj1 (unlocked_chip_fails chip None 0 unlocked H H0)).
Defined.

(** Bitwise facts about the field update. *)
Ltac bitblast :=
  apply Z.bits_inj'; intros k Hk;
  repeat rewrite ?Z.land_spec, ?Z.lor_spec, ?Z.lnot_spec by assumption;
  repeat match goal with
         | |- context [Z.testbit ?x k] => destruct (Z.testbit x k)
         end;
  reflexivity.

Lemma field_update_idem n o m v :
  field_update n (field_update n o m v) m v = field_update n o m v.
Proof. unfold field_update. bitblast. Qed.

(** X8: on a chip whose lock bit reads 1, with a bus that does not fail,
    [ad9739a_init] runs to its end and leaves the six configuration
    registers and the tuning byte at their recommended values, the enable
    bit of the Mu controller set and the skew field at 2, the other bits of
    these two registers being kept; no other register of the chip and no
    register of another device changes. *)
Theorem calibrated_registers spi back rate w :
  no_fault_for 7 w ->
  Z.land (peek w spi Ad9739a.AD9739A_REG_MU_STAT1)
         Ad9739a.AD9739A_MU_LOCK_MASK <> 0 ->
  let r := Ad9739a.ad9739a_init (chip_at spi back rate) w in
  fst r = None /\
  map (peek (snd r) spi)
      [Ad9739a.AD9739A_REG_CROSS_CNT1; Ad9739a.AD9739A_REG_CROSS_CNT2;
       Ad9739a.AD9739A_REG_PHS_DET; Ad9739a.AD9739A_REG_MU_DUTY;
       Ad9739a.AD9739A_REG_MU_CNT2; Ad9739a.AD9739A_REG_MU_CNT3;
       Ad9739a.AD9739A_REG_MU_CNT4]
    = [0x0f; 0x0f; 0x30; 0x80; 0x44; 0x6c; 0xcb] /\
  peek (snd r) spi Ad9739a.AD9739A_REG_MU_CNT1 =
    field_update 8 (peek w spi Ad9739a.AD9739A_REG_MU_CNT1) 1 1 /\
  peek (snd r) spi Ad9739a.AD9739A_REG_LVDS_REC_CNT4 =
    field_update 8 (peek w spi Ad9739a.AD9739A_REG_LVDS_REC_CNT4) 0xF 2 /\
  (forall reg,
     ~ In reg [0x13; 0x22; 0x23; 0x24; 0x25; 0x26; 0x27; 0x28; 0x29] ->
     peek (snd r) spi reg = peek w spi reg) /\
  (forall b reg, b <> spi -> peek (snd r) b reg = peek w b reg).
Proof.
  intros Hnf Hbit r. subst r.
  use_no_fault Hnf 7%nat.
  unfold peek in Hbit. apply Z.eqb_neq in Hbit.
  unfold_chip_init.
  exec_noting note_state.
  all: split_hyps; cbn [fst snd]; reach_bus; reach_bus; chain_env.
  all: try (exfalso; failed_test).
  all: use_oracle; settle_polls Hbit.
  all: try (exfalso; subst; absurd_test).
  split; [reflexivity|].
  split; [cbn [map];
          repeat (apply (f_equal2 cons); [lookup_back; reflexivity|]);
          reflexivity|].
  split; [lookup_back; reflexivity|].
  split.
  - lookup_back.
    change (default 0 (regs w !! (spi, Ad9739a.AD9739A_REG_LVDS_REC_CNT4)))
      with (peek w spi Ad9739a.AD9739A_REG_LVDS_REC_CNT4).
    transitivity
      (field_update 8
         (field_update 8
            (field_update 8 (peek w spi Ad9739a.AD9739A_REG_LVDS_REC_CNT4)
                          0xF 2) 0xF 2) 0xF 2); [reflexivity|].
    rewrite !field_update_idem. reflexivity.
  - split.
    + intros reg Hreg.
      lookup_back_with
        ltac:(let E := fresh in
              intros E; injection E as E; apply Hreg; rewrite <- E;
              vm_compute; tauto).
      reflexivity.
    + intros b reg Hb.
      lookup_back_with ltac:(let E := fresh in
                             intros E; injection E; congruence).
      reflexivity.
Qed.

Lemma calibrated_registers_witness :
  no_fault_for 7 bench /\
  Z.land (peek bench chip Ad9739a.AD9739A_REG_MU_STAT1)
         Ad9739a.AD9739A_MU_LOCK_MASK <> 0 /\
  fst (Ad9739a.ad9739a_init (chip_at chip None 0) bench) = None.
Proof.
  assert (no_fault_for 7 bench) as H by (intros k _; reflexivity).
  assert (Z.land (peek bench chip Ad9739a.AD9739A_REG_MU_STAT1)
                 Ad9739a.AD9739A_MU_LOCK_MASK <> 0) as H0
    by (vm_compute; discriminate).
  split; [exact H|]. split; [exact H0|].
  exact (proj1 (calibrated_registers chip None 0 bench H H0)).
Defined.

(** ** More about the attributes and the streaming of the chip *)

Lemma field_update_over n o m v v' :
  field_update n (field_update n o m v) m v' = field_update n o m v'.
Proof. unfold field_update. bitblast. Qed.

Lemma field_update_field n o m v :
  Z.land (field_update n o m v) m = Z.land (Z.land v m) (Z.ones n).
Proof. unfold field_update. bitblast. Qed.

Lemma field_update_rest n o m v :
  Z.land (field_update n o m v) (Z.lnot m) =
  Z.land (Z.land o (Z.ones n)) (Z.lnot m).
Proof. unfold field_update. bitblast. Qed.

Lemma to_int_wraps x :
  0 <= x < 2 ^ 32 ->
  to_int x = if x <=? 2147483647 then x else x - 2 ^ 32.
Proof.
  intros Hx. unfold to_int. destruct (Z.leb_spec x 2147483647).
  - rewrite Z.mod_small; lia.
  - replace (x + 2 ^ 31) with (x - 2 ^ 31 + 1 * 2 ^ 32) by lia.
    rewrite Z.mod_add by lia. rewrite Z.mod_small; lia.
Qed.

(** X9: the sample rate is an [unsigned long] stored into an [int]: after a
    successful probe a read of the attribute gives the clock rate itself up
    to 2147483647 Hz, and the rate minus 2^32, a negative number, for the
    rates above, which the range check of the probe lets through (up to
    2500 MHz). *)
Theorem sample_rate_read_wraps spi fw_back indet w chan val val2 w2 :
  fst (fst (Ad9739a.ad9739a_probe spi fw_back indet w)) = 0 ->
  let st := snd (fst (Ad9739a.ad9739a_probe spi fw_back indet w)) in
  let r := Ad9739a.ad9739a_read_raw st chan val val2
                                    IIO_CHAN_INFO_SAMP_FREQ w2 in
  let rate := ulong (clk_rate w) in
  snd r = w2 /\
  fst r = (IIO_VAL_INT,
           (if rate <=? 2147483647 then rate else rate - 2 ^ 32, val2)) /\
  (2147483647 < rate -> fst (snd (fst r)) < 0).
Proof.
  intros H st r rate. subst st r rate.
  destruct (probe_success_state _ _ _ _ H) as [-> Hin].
  apply in_range_dac_clk in Hin; [|apply ulong_bounds].
  unfold Ad9739a.AD9739A_MIN_DAC_CLK, Ad9739a.AD9739A_MAX_DAC_CLK, MEGA in Hin.
  cbn [Ad9739a.ad9739a_read_raw Ad9739a.sample_rate Return fst snd].
  rewrite to_int_wraps by lia.
  split; [reflexivity|]. split; [reflexivity|].
  intros Hbig. destruct (Z.leb_spec (ulong (clk_rate w)) 2147483647); lia.
Qed.

Lemma sample_rate_read_wraps_witness :
  fst (fst (Ad9739a.ad9739a_probe chip (AxiDac.handle core_state) 0
              (with_clk_rate (2500 * MEGA) bench))) = 0 /\
  fst (Ad9739a.ad9739a_read_raw
         (snd (fst (Ad9739a.ad9739a_probe chip (AxiDac.handle core_state) 0
                      (with_clk_rate (2500 * MEGA) bench))))
         0 0 0 IIO_CHAN_INFO_SAMP_FREQ bench)
    = (IIO_VAL_INT, (-1794967296, 0)).
Proof.
  assert (fst (fst (Ad9739a.ad9739a_probe chip (AxiDac.handle core_state) 0
                      (with_clk_rate (2500 * MEGA) bench))) = 0) as H
    by (vm_compute; reflexivity).
  split; [exact H|].
  exact (proj1 (proj2 (sample_rate_read_wraps
                         chip (AxiDac.handle core_state) 0
                         (with_clk_rate (2500 * MEGA) bench) 0 0 0 bench H))).
Defined.

(** X10: no access to an attribute through the chip's driver reaches the
    hardware when the backend is the AXI core.  A write of any attribute,
    and a read of any attribute but the sample rate, is handed to the core,
    where no register of any device is accessed and no other call is made.
    The result is 0 for scale, frequency and phase, a read leaving the
    caller's two values as they were, and -EINVAL for every other
    attribute, a write of the sample rate included. *)
Theorem attribute_access_changes_nothing spi cst rate chan val val2 mask w :
  let st := chip_at spi (Some (AxiDac.handle cst)) rate in
  let r := Ad9739a.ad9739a_write_raw st chan val val2 mask w in
  let rr := Ad9739a.ad9739a_read_raw st chan val val2 mask w in
  let res := match mask with
             | IIO_CHAN_INFO_SCALE | IIO_CHAN_INFO_FREQUENCY
             | IIO_CHAN_INFO_PHASE => 0
             | _ => - EINVAL
             end in
  (regs (snd r) = regs w /\
   registry (snd r) = registry w /\
   calls (log (snd r)) = calls (log w) ++ [BackendWriteRaw mask val val2] /\
   fst r = res) /\
  match mask with
  | IIO_CHAN_INFO_SAMP_FREQ => calls (log (snd rr)) = calls (log w)
  | _ =>
      regs (snd rr) = regs w /\
      registry (snd rr) = registry w /\
      calls (log (snd rr)) = calls (log w) ++ [BackendReadRaw mask] /\
      fst rr = (res, (val, val2))
  end.
Proof.
  intros st r rr res. subst st r rr res.
  unfold Ad9739a.ad9739a_write_raw, Ad9739a.ad9739a_read_raw, chip_at,
    Binder.iio_backend_write_raw, Binder.iio_backend_read_raw,
    AxiDac.handle, bind.
  cbn [Ad9739a.back ops priv write_raw read_raw AxiDac.axi_dac_generic
       collab_void].
  destruct mask;
    cbn [AxiDac.ad9739a_write_raw AxiDac.ad9739a_read_raw Return fst snd
         regs registry log emit];
    unfold calls; rewrite ?map_app; repeat split.
Qed.

Ltac unfold_streaming :=
  unfold Ad9739a.ad9739a_buffer_preenable, Ad9739a.ad9739a_buffer_postdisable,
    chip_at, core_at, Binder.iio_backend_data_source_set, AxiDac.handle,
    bind, Return;
  cbn [Ad9739a.back ops priv data_source_set AxiDac.axi_dac_generic
       AxiDac.axi_dac_data_source_set AxiDac.st_regmap fst snd].

(** X11: with a bus that does not fail, starting a stream and stopping it
    again switches the data source of channel 0 of the core to the DMA (2)
    and back to the internal tone (0): both calls return 0, only the 4-bit
    select field of the channel's register changes, and no other register
    of any device is touched. *)
Theorem streaming_round_trip spi pdev rate w :
  no_fault_for 4 w ->
  let st := chip_at spi (Some (AxiDac.handle (core_at pdev))) rate in
  let r1 := Ad9739a.ad9739a_buffer_preenable st w in
  let r2 := Ad9739a.ad9739a_buffer_postdisable st (snd r1) in
  let reg := AxiDac.AXI_REG_CHAN_CNTRL_7 0 in
  fst r1 = 0 /\ fst r2 = 0 /\
  peek (snd r1) pdev reg = field_update 32 (peek w pdev reg) 0xF 2 /\
  peek (snd r2) pdev reg = field_update 32 (peek w pdev reg) 0xF 0 /\
  Z.land (peek (snd r1) pdev reg) 0xF = 2 /\
  Z.land (peek (snd r2) pdev reg) 0xF = 0 /\
  (forall b r, (b, r) <> (pdev, reg) ->
               peek (snd r1) b r = peek w b r /\
               peek (snd r2) b r = peek w b r) /\
  calls (log (snd r2)) =
    calls (log w) ++
    [BackendDataSourceSet 0 IIO_BACKEND_EXTERNAL;
     UpdateBits pdev reg 0xF 2;
     BackendDataSourceSet 0 IIO_BACKEND_INTERNAL_CW;
     UpdateBits pdev reg 0xF 0].
Proof.
  intros Hnf st r1 r2 reg. subst st r1 r2 reg.
  use_no_fault Hnf 4%nat.
  unfold_streaming.
  exec_call_with note_state. exec_tail_with note_state.
  exec_call_with note_state. exec_tail_with note_state.
  split_hyps; reach_bus; chain_env; subst; use_oracle.
  cbn [bus] in *.
  assert (peek w1 pdev (AxiDac.AXI_REG_CHAN_CNTRL_7 0) =
          field_update 32 (peek w pdev (AxiDac.AXI_REG_CHAN_CNTRL_7 0)) 15 2)
    as E1 by (lookup_back; reflexivity).
  assert (peek w3 pdev (AxiDac.AXI_REG_CHAN_CNTRL_7 0) =
          field_update 32 (peek w pdev (AxiDac.AXI_REG_CHAN_CNTRL_7 0)) 15 0)
    as E3.
  { rewrite <- (field_update_over 32 _ 15 2 0). lookup_back. reflexivity. }
  split; [assumption|]. split; [assumption|].
  split; [exact E1|]. split; [exact E3|].
  split; [rewrite E1; apply field_update_field|].
  split; [rewrite E3; apply field_update_field|].
  split.
  - intros b r Hne.
    split;
      lookup_back_with
        ltac:(let E := fresh in intros E; apply Hne; symmetry; exact E);
      reflexivity.
  - collect_log. unfold calls. rewrite map_app. reflexivity.
Qed.

Lemma streaming_round_trip_witness :
  no_fault_for 4 bench /\
  fst (Ad9739a.ad9739a_buffer_preenable
         (chip_at chip (Some (AxiDac.handle (core_at core))) 0) bench) = 0.
Proof.
  assert (no_fault_for 4 bench) as H by (intros k _; reflexivity).
  split; [exact H|].
  exact (proj1 (streaming_round_trip chip core 0 bench H)).
Defined.

(** ** More about the core *)

Lemma field_update_set n o m :
  field_update n o m m = Z.land (Z.lor o m) (Z.ones n).
Proof. unfold field_update. bitblast. Qed.

Lemma field_update_widen n o m m' v v' :
  Z.land m m' = m ->
  field_update n (field_update n o m v) m' v' = field_update n o m' v'.
Proof.
  intros Hm. unfold field_update.
  apply Z.bits_inj'; intros k Hk.
  assert (Z.testbit m k = Z.testbit m k && Z.testbit m' k) as Hk'
    by (rewrite <- Z.land_spec, Hm; reflexivity).
  repeat rewrite ?Z.land_spec, ?Z.lor_spec, ?Z.lnot_spec by assumption.
  destruct (Z.testbit m k), (Z.testbit m' k), (Z.testbit o k),
    (Z.testbit v k), (Z.testbit v' k), (Z.testbit (Z.ones n) k);
    cbn in *; congruence.
Qed.

Ltac unfold_enable :=
  unfold AxiDac.axi_dac_enable, core_at, bind, Return;
  cbn [AxiDac.st_regmap bus fst snd].

(** X12: [axi_dac_enable] releases the reset of the clock domain, sleeps
    and then sets the run bit together with it: when the first access
    succeeds, the function makes exactly these three calls in this order,
    the second access being issued at least 10 us after the sleep began,
    and returns the outcome of the second access; when the first access
    fails, its error is returned and nothing else is called. *)
Theorem enable_sequence st w : enable_shape st w.
Proof.
  unfold enable_shape. cbv zeta.
  set (e1 := if _ && _ then fault w (tick w) else - EIO).
  set (e2 := if _ && _ then fault w (S (S (tick w))) else - EIO).
  unfold AxiDac.axi_dac_enable, bind, Return.
  exec_noting note_state.
  all: try exec_tail_with note_state.
  all: split_hyps; cbn [fst snd].
  all: unfold Bus.access, next_fault in *; chain_env.
  all: subst e1 e2; subst; collect_log.
  - (* the first access succeeded *)
    split; [intros E; exfalso; apply E; symmetry; assumption|].
    intros _. eexists _, _. split; [reflexivity|].
    split; [reflexivity|]. lia.
  - (* the first access failed *)
    match goal with H : (_ =? 0) = false |- _ => apply Z.eqb_neq in H end.
    split; [intros _; split; reflexivity|].
    intros E; exfalso; auto.
Qed.

Lemma enable_sequence_witness :
  exists t1 t2,
    fst (AxiDac.axi_dac_enable core_state bench) = 0 /\
    log (snd (AxiDac.axi_dac_enable core_state bench)) =
      [Entry 0 (UpdateBits core AxiDac.AXI_REG_RSTN 2 2) 0;
       Entry t1 (Fsleep 10) 0;
       Entry t2 (UpdateBits core AxiDac.AXI_REG_RSTN 3 3) 0] /\
    0 <= t1 /\ t1 + 10000 <= t2.
Proof.
  exact (proj2 (enable_sequence core_state bench) eq_refl).
Defined.

Ltac other_key Hne :=
  let E := fresh in intros E; apply Hne; symmetry; exact E.

(** All that [axi_dac_enable] does to the world. *)
Lemma enable_effect pdev w :
  let r := AxiDac.axi_dac_enable (core_at pdev) w in
  let orig := peek w pdev AxiDac.AXI_REG_RSTN in
  let e1 := fault w (tick w) in
  let e2 := fault w (S (S (tick w))) in
  fault (snd r) = fault w /\
  tick (snd r) = (if e1 =? 0 then S (S (S (tick w))) else S (tick w)) /\
  registry (snd r) = registry w /\
  fst r = (if e1 =? 0 then e2 else e1) /\
  peek (snd r) pdev AxiDac.AXI_REG_RSTN =
    (if e1 =? 0
     then if e2 =? 0
          then Z.land (Z.lor orig 3) (Z.ones 32)
          else Z.land (Z.lor orig 2) (Z.ones 32)
     else orig) /\
  (forall b reg, (b, reg) <> (pdev, AxiDac.AXI_REG_RSTN) ->
                 peek (snd r) b reg = peek w b reg).
Proof.
  intros r orig e1 e2.
  set (res := if e1 =? 0 then e2 else e1).
  set (val := if e1 =? 0
              then if e2 =? 0
                   then Z.land (Z.lor orig 3) (Z.ones 32)
                   else Z.land (Z.lor orig 2) (Z.ones 32)
              else orig).
  set (tk := if e1 =? 0 then S (S (S (tick w))) else S (tick w)).
  subst r. unfold_enable.
  exec_noting note_state.
  all: try exec_tail_with note_state.
  all: split_hyps; reach_bus; chain_env; cbn [bus] in *.
  all: subst res val tk e1 e2 orig.
  - (* the first access went through *)
    repeat match goal with
           | H : 0 = fault _ _ |- _ => rewrite <- H in *
           end.
    change (0 =? 0) with true in *. cbv iota in *.
    subst a.
    do 3 (split; [reflexivity|]).
    destruct (fault w (S (S (tick w))) =? 0) eqn:E2.
    + split; [reflexivity|]. split.
      * rewrite <- field_update_set.
        rewrite <- (field_update_widen 32 _ 2 3 2 3 eq_refl).
        lookup_back. reflexivity.
      * intros b reg Hne.
        lookup_back_with ltac:(other_key Hne). reflexivity.
    + split; [reflexivity|]. split.
      * rewrite <- field_update_set. lookup_back. reflexivity.
      * intros b reg Hne.
        lookup_back_with ltac:(other_key Hne). reflexivity.
  - (* the first access failed *)
    subst a.
    match goal with
    | H : (fault w (tick w) =? 0) = false |- _ => rewrite H
    end.
    do 3 (split; [reflexivity|]).
    split; [reflexivity|]. split.
    + lookup_back. reflexivity.
    + intros b reg Hne. lookup_back. reflexivity.
Qed.

(** X13: what [axi_dac_enable] leaves in the control register of the core:
    the old content when the first access fails; the old content with the
    clock-domain reset released, and the core not running, when the second
    access fails (nothing is undone); the old content with both bits set
    otherwise.  The result is the error of the access that failed, else 0,
    and no other register of any device changes. *)
Theorem enable_register_effect pdev w :
  let r := AxiDac.axi_dac_enable (core_at pdev) w in
  let orig := peek w pdev AxiDac.AXI_REG_RSTN in
  let e1 := fault w (tick w) in
  let e2 := fault w (S (S (tick w))) in
  fst r = (if e1 =? 0 then e2 else e1) /\
  peek (snd r) pdev AxiDac.AXI_REG_RSTN =
    (if e1 =? 0
     then if e2 =? 0
          then Z.land (Z.lor orig 3) (Z.ones 32)
          else Z.land (Z.lor orig 2) (Z.ones 32)
     else orig) /\
  (forall b reg, (b, reg) <> (pdev, AxiDac.AXI_REG_RSTN) ->
                 peek (snd r) b reg = peek w b reg).
Proof.
  intros r orig e1 e2.
  destruct (enable_effect pdev w) as (_ & _ & _ & Hr & Hv & Hf).
  split; [exact Hr|]. split; [exact Hv | exact Hf].
Qed.

Ltac unfold_disable :=
  unfold AxiDac.axi_dac_disable, core_at, bind, Return;
  cbn [AxiDac.st_regmap bus fst snd].

(** All that [axi_dac_disable] does to the world. *)
Lemma disable_effect_on pdev w :
  let r := AxiDac.axi_dac_disable (core_at pdev) w in
  fault (snd r) = fault w /\
  tick (snd r) = S (tick w) /\
  registry (snd r) = registry w /\
  peek (snd r) pdev AxiDac.AXI_REG_RSTN =
    (if fault w (tick w) =? 0 then 0 else peek w pdev AxiDac.AXI_REG_RSTN) /\
  (forall b reg, (b, reg) <> (pdev, AxiDac.AXI_REG_RSTN) ->
                 peek (snd r) b reg = peek w b reg).
Proof.
  intros r.
  set (val := if fault w (tick w) =? 0
              then 0 else peek w pdev AxiDac.AXI_REG_RSTN).
  subst r. unfold_disable.
  exec_call_with note_state.
  split_hyps; reach_bus; cbn [bus fst snd] in *; subst val; subst.
  do 3 (split; [assumption|]).
  destruct (fault w (tick w) =? 0).
  - split; [lookup_back; reflexivity|].
    intros b reg Hne. lookup_back_with ltac:(other_key Hne). reflexivity.
  - split; [lookup_back; reflexivity|].
    intros b reg Hne. lookup_back. reflexivity.
Qed.

(** X14: [axi_dac_disable] has no result: when its write goes through, the
    control register of the core holds 0 whatever it held; when the write
    fails, the error is dropped and the register keeps its content, so
    that a running core keeps running.  No other register changes. *)
Theorem disable_effect pdev w :
  let r := AxiDac.axi_dac_disable (core_at pdev) w in
  peek (snd r) pdev AxiDac.AXI_REG_RSTN =
    (if fault w (tick w) =? 0 then 0 else peek w pdev AxiDac.AXI_REG_RSTN) /\
  (forall b reg, (b, reg) <> (pdev, AxiDac.AXI_REG_RSTN) ->
                 peek (snd r) b reg = peek w b reg) /\
  registry (snd r) = registry w.
Proof.
  intros r.
  destruct (disable_effect_on pdev w) as (_ & _ & Hg & Hv & Hf).
  split; [exact Hv|]. split; [exact Hf | exact Hg].
Qed.

(** X15: with a bus that does not fail, [axi_dac_disable] undoes
    [axi_dac_enable], and a core that was disabled and is enabled again
    holds exactly 3 in its control register: both resets released and
    nothing else set.  The three calls leave every other register as it
    was. *)
Theorem enable_disable_round_trip pdev w :
  no_fault_for 7 w ->
  let st := core_at pdev in
  let r1 := AxiDac.axi_dac_enable st w in
  let r2 := AxiDac.axi_dac_disable st (snd r1) in
  let r3 := AxiDac.axi_dac_enable st (snd r2) in
  fst r1 = 0 /\ fst r3 = 0 /\
  peek (snd r1) pdev AxiDac.AXI_REG_RSTN =
    Z.land (Z.lor (peek w pdev AxiDac.AXI_REG_RSTN) 3) (Z.ones 32) /\
  peek (snd r2) pdev AxiDac.AXI_REG_RSTN = 0 /\
  peek (snd r3) pdev AxiDac.AXI_REG_RSTN = 3 /\
  (forall b reg, (b, reg) <> (pdev, AxiDac.AXI_REG_RSTN) ->
                 peek (snd r3) b reg = peek w b reg).
Proof.
  intros Hnf st r1 r2 r3. subst st.
  use_no_fault Hnf 7%nat.
  destruct (enable_effect pdev w) as (F1 & T1 & _ & R1 & V1 & O1).
  fold r1 in F1, T1, R1, V1, O1.
  destruct (disable_effect_on pdev (snd r1)) as (F2 & T2 & _ & V2 & O2).
  fold r2 in F2, T2, V2, O2.
  destruct (enable_effect pdev (snd r2)) as (F3 & T3 & _ & R3 & V3 & O3).
  fold r3 in F3, T3, R3, V3, O3.
  cbv zeta in *.
  rewrite F2, T2, F1, T1 in *.
  do 4 use_oracle.
  repeat match goal with
         | E : fault w ?k = 0, X : _ = fault w ?k |- _ => rewrite E in X
         end.
  rewrite V2 in V3.
  split; [exact R1|]. split; [exact R3|]. split; [exact V1|].
  split; [exact V2|]. split; [exact V3|].
  intros b reg Hne. rewrite (O3 b reg Hne), (O2 b reg Hne). apply O1, Hne.
Qed.

Lemma enable_disable_round_trip_witness :
  no_fault_for 7 bench /\
  peek (snd (AxiDac.axi_dac_enable
               (core_at core)
               (snd (AxiDac.axi_dac_disable
                       (core_at core)
                       (snd (AxiDac.axi_dac_enable (core_at core) bench))))))
       core AxiDac.AXI_REG_RSTN = 3.
Proof.
  assert (no_fault_for 7 bench) as H by (intros k _; reflexivity).
  split; [exact H|].
  exact (proj1 (proj2 (proj2 (proj2 (proj2
           (enable_disable_round_trip core bench H)))))).
Defined.

(** ** More about the probe of the core *)

Ltac regs_back :=
  repeat match goal with
         | H : regs ?a = _ |- context [regs ?a] => rewrite H
         end.

(** X16: [axi_dac_probe] adds the core to the registry exactly when it
    returns 0, as the last thing it does; on every other path the registry
    is what it was.  Whatever happens, the only register it may change is
    the control register of the core, which then holds 0, and without
    match data it fails right after the allocation. *)
Theorem axi_probe_registers_iff_success pdev expected w :
  let r := AxiDac.axi_dac_probe pdev expected w in
  (fst (fst r) = 0 ->
   registry (snd r) = registry w ++ [Registered pdev pdev] /\
   last (calls (log (snd r))) = Some (BackendRegister pdev)) /\
  (fst (fst r) <> 0 -> registry (snd r) = registry w) /\
  (forall b reg, (b, reg) <> (pdev, AxiDac.AXI_REG_RSTN) ->
                 peek (snd r) b reg = peek w b reg) /\
  (regs (snd r) = regs w \/ peek (snd r) pdev AxiDac.AXI_REG_RSTN = 0) /\
  (expected = None ->
   fst (fst r) <> 0 /\ calls (log (snd r)) = calls (log w) ++ [DevAlloc]).
Proof.
  intros r. subst r. unfold_axi_probe.
  destruct expected as [expected|].
  all: exec_noting note_state.
  all: split_hyps; cbn [fst snd]; reach_bus; chain_env; cbn [bus] in *.
  all: split;
    [intros E; try (exfalso; vm_compute in E; discriminate E);
     try (exfalso; rewrite E in *; absurd_test)|].
  all: try (split; [reflexivity|]; collect_log; unfold calls;
            rewrite map_app, last_app; reflexivity).
  all: split; [intros Hn;
               first [reflexivity | exfalso; apply Hn; reflexivity]|].
  all: split; [intros b reg Hne;
               lookup_back_with ltac:(other_key Hne); reflexivity|].
  all: split; [first [left; regs_back; reflexivity
                     | right; lookup_back; reflexivity]|].
  all: intros E; try discriminate E.
  all: split; [first [apply Z.eqb_neq; assumption
                     | intros E'; vm_compute in E'; discriminate E']|].
  all: collect_log; unfold calls; rewrite map_app; reflexivity.
Qed.

(** X17: only the major number of the version counts: on a bus that does
    not fail, a core that reports the major number of its match entry is
    probed with success whatever its minor number and patch letter are; the
    probe makes seven calls, the registration being the last, leaves 0 in
    the control register and adds the core to the registry. *)
Theorem axi_probe_succeeds pdev expected w :
  no_fault_for 7 w ->
  ADI_AXI_PCORE_VER_MAJOR (peek w pdev ADI_AXI_REG_VERSION)
    = ADI_AXI_PCORE_VER_MAJOR expected ->
  let r := AxiDac.axi_dac_probe pdev (Some expected) w in
  fst (fst r) = 0 /\
  snd (fst r) = core_at pdev /\
  calls (log (snd r)) =
    calls (log w) ++
    [DevAlloc; ClkGetEnabled; Ioremap; RegmapInit pdev;
     RegWrite pdev AxiDac.AXI_REG_RSTN 0;
     RegRead pdev ADI_AXI_REG_VERSION (peek w pdev ADI_AXI_REG_VERSION);
     BackendRegister pdev] /\
  registry (snd r) = registry w ++ [Registered pdev pdev] /\
  peek (snd r) pdev AxiDac.AXI_REG_RSTN = 0.
Proof.
  intros Hnf Hver r. subst r.
  use_no_fault Hnf 7%nat.
  unfold_axi_probe.
  exec_noting note_state.
  all: split_hyps; cbn [fst snd]; reach_bus; chain_env; cbn [bus] in *.
  all: try (exfalso; failed_test).
  all: use_oracle.
  all: try (exfalso;
            match goal with
            | E : ?z = peek _ _ _,
              N : (ADI_AXI_PCORE_VER_MAJOR ?z =? _) = false |- _ =>
                apply Z.eqb_neq in N; apply N; rewrite E; lookup_back;
                exact Hver
            end).
  split; [reflexivity|]. split; [reflexivity|].
  split.
  - collect_log. unfold calls. rewrite map_app. cbn [map what].
    repeat f_equal.
    match goal with E : ?z = peek _ _ _ |- ?z = _ => rewrite E end.
    lookup_back. reflexivity.
  - split; [reflexivity|]. lookup_back. reflexivity.
Qed.

Lemma axi_probe_succeeds_witness :
  no_fault_for 7 bench /\
  ADI_AXI_PCORE_VER_MAJOR (peek bench core ADI_AXI_REG_VERSION)
    = ADI_AXI_PCORE_VER_MAJOR (ADI_AXI_PCORE_VER 9 0 97) /\
  fst (fst (AxiDac.axi_dac_probe core (Some (ADI_AXI_PCORE_VER 9 0 97))
                                 bench)) = 0.
Proof.
  assert (no_fault_for 7 bench) as H by (intros k _; reflexivity).
  assert (ADI_AXI_PCORE_VER_MAJOR (peek bench core ADI_AXI_REG_VERSION)
          = ADI_AXI_PCORE_VER_MAJOR (ADI_AXI_PCORE_VER 9 0 97)) as H0
    by (vm_compute; reflexivity).
  split; [exact H|]. split; [exact H0|].
  exact (proj1 (axi_probe_succeeds core (ADI_AXI_PCORE_VER 9 0 97) bench
                                   H H0)).
Defined.

(** ** More about the buffer of the core *)

Lemma flag_set_keeps_others m h :
  Z.land (Z.lor m h) (Z.lnot h) = Z.land m (Z.lnot h).
Proof. bitblast. Qed.

(** X18: [axi_dac_request_buffer] asks for the DMA channel named by the
    property, or for the default one when the property cannot be read.
    When the allocation fails, its error is returned and the mode flags of
    the device are as they were.  Once the buffer is allocated the device
    is flagged as hardware-buffered, whether the attachment then succeeds
    or not, and no other flag changes; when the attachment fails its error
    is returned and the buffer is not freed: the function never calls
    [iio_dmaengine_buffer_free].  No register is accessed. *)
Theorem request_buffer_paths st modes w :
  let r := AxiDacDev.axi_dac_request_buffer st modes w in
  let e0 := fault w (tick w) in
  let e1 := fault w (S (tick w)) in
  let e3 := fault w (S (S (S (tick w)))) in
  AxiDac.axi_dac_request_buffer st w = (fst (fst r), snd r) /\
  fst r = (if e1 =? 0
           then (e3, Z.lor modes INDIO_BUFFER_HARDWARE)
           else (e1, modes)) /\
  Z.land (snd (fst r)) (Z.lnot INDIO_BUFFER_HARDWARE) =
    Z.land modes (Z.lnot INDIO_BUFFER_HARDWARE) /\
  calls (log (snd r)) =
    calls (log w) ++
    PropertyReadString :: DmaBufferAlloc (negb (e0 =? 0)) ::
    (if e1 =? 0 then [BufferSetDirOut; AttachBuffer] else []) /\
  regs (snd r) = regs w.
Proof.
  intros r e0 e1 e3.
  split.
  { subst r.
    unfold AxiDacDev.axi_dac_request_buffer, AxiDac.axi_dac_request_buffer,
      bind, Return.
    destruct (collab PropertyReadString w) as [a w1].
    destruct (collab (DmaBufferAlloc (negb (a =? 0))) w1) as [b w2].
    destruct (negb (b =? 0)); [reflexivity|].
    destruct (collab_void BufferSetDirOut w2) as [[] w3].
    destruct (collab AttachBuffer w3) as [c w4].
    destruct (negb (c =? 0)); reflexivity. }
  set (res := if e1 =? 0
              then (e3, Z.lor modes INDIO_BUFFER_HARDWARE)
              else (e1, modes)).
  set (tl := if e1 =? 0 then [BufferSetDirOut; AttachBuffer] else []).
  subst r.
  unfold AxiDacDev.axi_dac_request_buffer, bind, Return.
  exec_noting note_state.
  all: split_hyps; cbn [fst snd]; chain_env; subst; subst res tl e0 e1 e3.
  all: repeat match goal with
              | H : (_ =? 0) = _ |- _ => rewrite H
              | H : 0 = fault _ _ |- _ => rewrite <- H
              end.
  all: change (0 =? 0) with true; cbv iota.
  all: split; [reflexivity|].
  all: split; [first [apply flag_set_keeps_others | reflexivity]|].
  all: split; [|regs_back; reflexivity].
  all: collect_log; unfold calls; rewrite map_app; reflexivity.
Qed.

(** ** More about the data source of a channel *)

Lemma chan_cntrl_7_low chan :
  0 <= chan <= 15 ->
  AxiDac.AXI_REG_CHAN_CNTRL_7 chan = 0x418 + chan * 0x40.
Proof.
  intros H. unfold AxiDac.AXI_REG_CHAN_CNTRL_7, u32.
  apply Z.mod_small. lia.
Qed.

Lemma chan_cntrl_7_wraps chan :
  0 <= chan < 2 ^ 32 ->
  AxiDac.AXI_REG_CHAN_CNTRL_7 chan =
    (if chan mod 2 ^ 26 <? 2 ^ 26 - 16
     then 0x418 + (chan mod 2 ^ 26) * 0x40
     else 0x418 + (chan mod 2 ^ 26) * 0x40 - 2 ^ 32).
Proof.
  intros H. unfold AxiDac.AXI_REG_CHAN_CNTRL_7, u32.
  pose proof (Z.mod_pos_bound chan (2 ^ 26) ltac:(lia)) as Hm.
  rewrite (Z.div_mod chan (2 ^ 26)) at 1 by lia.
  replace (0x418 + (2 ^ 26 * (chan / 2 ^ 26) + chan mod 2 ^ 26) * 0x40)
    with (0x418 + (chan mod 2 ^ 26) * 0x40 + (chan / 2 ^ 26) * 2 ^ 32)
    by lia.
  rewrite Z.mod_add by lia.
  destruct (Z.ltb_spec (chan mod 2 ^ 26) (2 ^ 26 - 16)).
  - apply Z.mod_small. lia.
  - symmetry. apply Z.mod_unique with (q := 1); [left; lia | lia].
Qed.

Lemma chan_cntrl_7_offset chan :
  AxiDac.AXI_REG_CHAN_CNTRL_7 chan mod 0x40 = 0x18.
Proof.
  unfold AxiDac.AXI_REG_CHAN_CNTRL_7, u32.
  change (2 ^ 32) with (0x40 * 2 ^ 26).
  rewrite Z.rem_mul_r by lia.
  rewrite (Z.mul_comm 0x40), Z.mod_add, Z.mod_mod by lia.
  replace (0x418 + chan * 0x40) with (0x18 + (16 + chan) * 0x40) by lia.
  rewrite Z.mod_add by lia. reflexivity.
Qed.


(** What [axi_dac_data_source_set] does for a source that the core takes. *)
Lemma data_source_set_effect b d chan data w :
  data <> IIO_BACKEND_DATA_SOURCE_MAX ->
  let st := AxiDac.State (Regmap b AxiDac.axi_dac_regmap_config) d in
  let reg := AxiDac.AXI_REG_CHAN_CNTRL_7 chan in
  let r := AxiDac.axi_dac_data_source_set st chan data w in
  fst r = (if reg <=? 0x0800 then fault w (tick w) else - EIO) /\
  regs (snd r) =
    (if fst r =? 0
     then <[(b, reg) := field_update 32 (peek w b reg) 0xF (sel_of data)]>
            (regs w)
     else regs w).
Proof.
  intros Hd st reg r. subst r.
  destruct data; [| |congruence];
    unfold AxiDac.axi_dac_data_source_set; cbn [AxiDac.st_regmap st].
  all: match goal with
       | |- context [Bus.regmap_update_bits ?m ?rg ?mk ?v ?w0] =>
           destruct (regmap_update_bits_effect m rg mk v w0) as (E1 & E2 & _)
       end.
  all: split; [rewrite E1; unfold Bus.access, Bus.readable, Bus.writeable,
                 Bus.in_window; cbn [config AxiDac.axi_dac_regmap_config
                 max_register readable_reg writeable_reg];
               fold reg; destruct (reg <=? 2048); reflexivity
              | rewrite E2; reflexivity].
Qed.

Lemma data_source_set_frame b d chan data w :
  let st := AxiDac.State (Regmap b AxiDac.axi_dac_regmap_config) d in
  let r := AxiDac.axi_dac_data_source_set st chan data w in
  forall b' reg, (b', reg) <> (b, AxiDac.AXI_REG_CHAN_CNTRL_7 chan) ->
                 peek (snd r) b' reg = peek w b' reg.
Proof.
  intros st r b' reg Hne. subst r.
  destruct data; [| |reflexivity].
  all: match goal with
       | |- context [AxiDac.axi_dac_data_source_set ?s ?c ?dt ?w0] =>
           destruct (data_source_set_effect b d c dt w0 ltac:(discriminate))
             as (_ & E2)
       end.
  all: cbv zeta in E2; fold st in E2; unfold peek; rewrite E2.
  all: destruct (_ =? 0); [|reflexivity].
  all: rewrite lookup_insert_ne by (other_key Hne); reflexivity.
Qed.

Lemma chan_cntrl_7_not_control chan :
  AxiDac.AXI_REG_CHAN_CNTRL_7 chan <> AxiDac.AXI_REG_RSTN /\
  AxiDac.AXI_REG_CHAN_CNTRL_7 chan <> ADI_AXI_REG_VERSION.
Proof.
  pose proof (chan_cntrl_7_offset chan) as Hoff.
  split; intros E; rewrite E in Hoff; vm_compute in Hoff; discriminate Hoff.
Qed.

(** X19: whatever the channel index, the register that
    [axi_dac_data_source_set] may change lies 0x18 above a multiple of
    0x40: it is never the control register nor the version register of the
    core, so that no choice of a data source starts, stops or resets the
    core; and no register but that one changes. *)
Theorem data_source_set_keeps_control b d chan data w :
  let st := AxiDac.State (Regmap b AxiDac.axi_dac_regmap_config) d in
  let r := AxiDac.axi_dac_data_source_set st chan data w in
  AxiDac.AXI_REG_CHAN_CNTRL_7 chan mod 0x40 = 0x18 /\
  (forall b' reg, (b', reg) <> (b, AxiDac.AXI_REG_CHAN_CNTRL_7 chan) ->
                  peek (snd r) b' reg = peek w b' reg) /\
  (forall b', peek (snd r) b' AxiDac.AXI_REG_RSTN
              = peek w b' AxiDac.AXI_REG_RSTN) /\
  (forall b', peek (snd r) b' ADI_AXI_REG_VERSION
              = peek w b' ADI_AXI_REG_VERSION).
Proof.
  intros st r.
  destruct (chan_cntrl_7_not_control chan) as [Hc Hv].
  split; [apply chan_cntrl_7_offset|].
  split; [apply data_source_set_frame|].
  split; intros b'; apply data_source_set_frame; intros E;
    injection E as _ E; congruence.
Qed.

(** X20: the channels 0 to 15 of the core have registers of their own:
    when the bus access goes through, choosing the source of one of them
    returns 0, leaves the value of the source in the 4-bit select field of
    its register, keeps the other bits of the register and leaves the
    register of every other channel as it was. *)
Theorem data_source_set_one_channel b d chan chan' data w :
  0 <= chan <= 15 -> 0 <= chan' <= 15 -> chan' <> chan ->
  data <> IIO_BACKEND_DATA_SOURCE_MAX ->
  fault w (tick w) = 0 ->
  let st := AxiDac.State (Regmap b AxiDac.axi_dac_regmap_config) d in
  let r := AxiDac.axi_dac_data_source_set st chan data w in
  let reg := 0x418 + chan * 0x40 in
  fst r = 0 /\
  Z.land (peek (snd r) b reg) 0xF = sel_of data /\
  Z.land (peek (snd r) b reg) (Z.lnot 0xF) =
    Z.land (Z.land (peek w b reg) (Z.ones 32)) (Z.lnot 0xF) /\
  peek (snd r) b (0x418 + chan' * 0x40) = peek w b (0x418 + chan' * 0x40).
Proof.
  intros Hc Hc' Hne Hd Hf st r reg.
  destruct (data_source_set_effect b d chan data w Hd) as (E1 & E2).
  cbv zeta in E1, E2. fold st in E1, E2. fold r in E1, E2.
  rewrite (chan_cntrl_7_low chan Hc) in E1, E2. fold reg in E1, E2.
  assert ((reg <=? 0x800) = true) as Hin by (apply Z.leb_le; subst reg; lia).
  rewrite Hin, Hf in E1. rewrite E1 in E2. change (0 =? 0) with true in E2.
  cbv iota in E2.
  split; [exact E1|].
  assert (peek (snd r) b reg = field_update 32 (peek w b reg) 0xF (sel_of data))
    as Ev by (unfold peek at 1; rewrite E2, lookup_insert_eq; reflexivity).
  rewrite Ev.
  split; [rewrite field_update_field; destruct data;
          [reflexivity | reflexivity | congruence]|].
  split; [apply field_update_rest|].
  unfold peek. rewrite E2, lookup_insert_ne; [reflexivity|].
  intros E. injection E as E. subst reg. lia.
Qed.

Lemma data_source_set_one_channel_witness :
  0 <= 3 <= 15 /\ 0 <= 4 <= 15 /\ 4 <> 3 /\
  IIO_BACKEND_EXTERNAL <> IIO_BACKEND_DATA_SOURCE_MAX /\
  fault bench (tick bench) = 0 /\
  fst (AxiDac.axi_dac_data_source_set core_state 3 IIO_BACKEND_EXTERNAL
                                      bench) = 0.
Proof.
  assert (0 <= 3 <= 15) as H1 by lia.
  assert (0 <= 4 <= 15) as H2 by lia.
  assert (4 <> 3) as H3 by lia.
  assert (IIO_BACKEND_EXTERNAL <> IIO_BACKEND_DATA_SOURCE_MAX) as H4
    by discriminate.
  assert (fault bench (tick bench) = 0) as H5 by reflexivity.
  repeat (split; [assumption|]).
  exact (proj1 (data_source_set_one_channel core core 3 4
                  IIO_BACKEND_EXTERNAL bench H1 H2 H3 H4 H5)).
Defined.

(** X21: which channel indices reach a register: over the [unsigned int]
    range, with a bus that does not fail, [axi_dac_data_source_set]
    returns 0 exactly for the indices that are, modulo 2^26, at most 15 or
    at least 2^26 - 16, and -EIO for all the others; the first ones comprise
    the channels 0 to 15 and indices such as 2^32 - 1, whose register
    address wraps around to one below the registers of the channels. *)
Theorem data_source_set_index_window b d chan data w :
  0 <= chan < 2 ^ 32 ->
  data <> IIO_BACKEND_DATA_SOURCE_MAX ->
  fault w (tick w) = 0 ->
  let st := AxiDac.State (Regmap b AxiDac.axi_dac_regmap_config) d in
  let r := AxiDac.axi_dac_data_source_set st chan data w in
  let m := chan mod 2 ^ 26 in
  fst r = (if (m <=? 15) || (2 ^ 26 - 16 <=? m) then 0 else - EIO) /\
  (2 ^ 26 - 16 <= m ->
   AxiDac.AXI_REG_CHAN_CNTRL_7 chan = 0x418 - (2 ^ 26 - m) * 0x40 /\
   AxiDac.AXI_REG_CHAN_CNTRL_7 chan < AxiDac.AXI_REG_CHAN_CNTRL_7 0).
Proof.
  intros Hc Hd Hf st r m.
  destruct (data_source_set_effect b d chan data w Hd) as (E1 & _).
  cbv zeta in E1. fold st in E1. fold r in E1.
  pose proof (chan_cntrl_7_wraps chan Hc) as Hw. fold m in Hw.
  pose proof (Z.mod_pos_bound chan (2 ^ 26) ltac:(lia)) as Hm. fold m in Hm.
  split.
  - rewrite E1, Hf, Hw.
    destruct (Z.ltb_spec m (2 ^ 26 - 16)) as [Hlt|Hge].
    + destruct (Z.leb_spec m 15) as [Hl|Hg]; cbn [orb].
      * replace (0x418 + m * 0x40 <=? 0x800) with true
          by (symmetry; apply Z.leb_le; lia). reflexivity.
      * replace (2 ^ 26 - 16 <=? m) with false
          by (symmetry; apply Z.leb_gt; lia).
        replace (0x418 + m * 0x40 <=? 0x800) with false
          by (symmetry; apply Z.leb_gt; lia). reflexivity.
    + replace (2 ^ 26 - 16 <=? m) with true
        by (symmetry; apply Z.leb_le; lia).
      rewrite orb_true_r.
      replace (0x418 + m * 0x40 - 2 ^ 32 <=? 0x800) with true
        by (symmetry; apply Z.leb_le; lia). reflexivity.
  - intros Hge. rewrite Hw.
    destruct (Z.ltb_spec m (2 ^ 26 - 16)) as [Hlt|_]; [lia|].
    split; [lia|]. change (AxiDac.AXI_REG_CHAN_CNTRL_7 0) with 0x418. lia.
Qed.

Lemma data_source_set_index_window_witness :
  0 <= 2 ^ 32 - 1 < 2 ^ 32 /\
  IIO_BACKEND_EXTERNAL <> IIO_BACKEND_DATA_SOURCE_MAX /\
  fault bench (tick bench) = 0 /\
  fst (AxiDac.axi_dac_data_source_set core_state (2 ^ 32 - 1)
                                      IIO_BACKEND_EXTERNAL bench) = 0.
Proof.
  assert (0 <= 2 ^ 32 - 1 < 2 ^ 32) as H1 by lia.
  assert (IIO_BACKEND_EXTERNAL <> IIO_BACKEND_DATA_SOURCE_MAX) as H2
    by discriminate.
  assert (fault bench (tick bench) = 0) as H3 by reflexivity.
  repeat (split; [assumption|]).
  exact (proj1 (data_source_set_index_window core core (2 ^ 32 - 1)
                  IIO_BACKEND_EXTERNAL bench H1 H2 H3)).
Defined.

(** What [ad9739a_probe] leaves alone, up to the request of the buffer. *)
Lemma probe_frame spi fw_back indet w :
  let r := Ad9739a.ad9739a_probe spi fw_back indet w in
  (forall b reg, b <> spi -> peek (snd r) b reg = peek w b reg) /\
  registry (snd r) = registry w.
Proof.
  intros r. subst r. unfold_probe.
  exec_noting note_state.
  all: try exec_tail_with note_state.
  all: split_hyps; cbn [fst snd]; reach_bus; reach_bus.
  all: repeat match goal with
              | H : registry ?a = _ |- _ => try rewrite H in *; clear H
              end.
  all: split; [|reflexivity].
  all: intros dv reg Hb.
  all: repeat match goal with
              | H : regs ?a = (if ?c then _ else _) |- _ =>
                  destruct c
              end.
  all: lookup_back_with ltac:(let E := fresh in
                              intros E; injection E; congruence).
  all: reflexivity.
Qed.

(** ** More about the register map of the chip *)

(** X24: the registers of the chip that the driver lets nobody access are
    the seven reserved ones and the gap between the Mu status register and
    the analog control register, twelve in all; through the register map
    of the chip a write or a read of one of them, or of a register above
    the ID register, gets -EIO and changes nothing, whatever the bus would
    have answered. *)
Theorem inaccessible_registers_rejected b reg val w :
  let m := Regmap b Ad9739a.ad9739a_regmap_config in
  let hidden := [0x05; 0x09; 0x0D; 0x0E; 0x2B; 0x2C; 0x2D; 0x2E; 0x2F;
                 0x30; 0x31; 0x34] in
  (Ad9739a.ad9739a_reg_accessible reg = false <-> In reg hidden) /\
  (In reg hidden \/ Ad9739a.AD9739A_REG_ID < reg ->
   fst (Bus.regmap_write m reg val w) = - EIO /\
   regs (snd (Bus.regmap_write m reg val w)) = regs w /\
   fst (fst (Bus.regmap_read m reg w)) = - EIO /\
   fst (Bus.regmap_update_bits m reg val val w) = - EIO /\
   regs (snd (Bus.regmap_update_bits m reg val val w)) = regs w).
Proof.
  intros m hidden.
  assert (Ad9739a.ad9739a_reg_accessible reg = false <-> In reg hidden)
    as Hiff.
  { subst hidden. unfold Ad9739a.ad9739a_reg_accessible,
      Ad9739a.AD9739A_REG_IS_RESERVED, Ad9739a.AD9739A_REG_MU_STAT1,
      Ad9739a.AD9739A_REG_ANA_CNT_1.
    cbn [In]. split.
    - intros H.
      destruct (Z.eqb_spec reg 0x5); [lia|].
      destruct (Z.eqb_spec reg 0x9); [lia|].
      destruct (Z.eqb_spec reg 0x0E); [lia|].
      destruct (Z.eqb_spec reg 0x0D); [lia|].
      destruct (Z.eqb_spec reg 0x2B); [lia|].
      destruct (Z.eqb_spec reg 0x2C); [lia|].
      destruct (Z.eqb_spec reg 0x34); [lia|].
      cbn [orb] in H.
      destruct (Z.ltb_spec 0x2A reg); [|discriminate H].
      destruct (Z.ltb_spec reg 0x32); [|discriminate H].
      lia.
    - intros H.
      repeat (destruct H as [<-|H]; [reflexivity|]). destruct H. }
  split; [exact Hiff|].
  intros H.
  assert (Bus.readable m reg = false /\ Bus.writeable m reg = false)
    as [Hr Hw].
  { unfold Bus.readable, Bus.writeable, Bus.in_window. subst m.
    cbn [config Ad9739a.ad9739a_regmap_config max_register readable_reg
         writeable_reg].
    destruct H as [H|H].
    - apply Hiff in H. rewrite H, !andb_false_r. split; reflexivity.
    - replace (reg <=? Ad9739a.AD9739A_REG_ID) with false
        by (symmetry; apply Z.leb_gt; exact H).
      split; reflexivity. }
  destruct (regmap_write_effect m reg val w) as (W1 & W2 & _).
  destruct (regmap_read_effect m reg w) as (R1 & _).
  destruct (regmap_update_bits_effect m reg val val w) as (U1 & U2 & _).
  rewrite Hw in W1. rewrite Hr in R1. rewrite Hr in U1.
  cbn [andb Bus.access] in W1, R1, U1.
  rewrite W1 in W2. rewrite U1 in U2.
  repeat split; assumption.
Qed.

(** ** More about the calibration loop *)

(** X25: an error of the bus while the lock bit is polled is handled like a
    missing lock: when the first poll fails with any error and the later
    accesses succeed on a chip whose lock bit is set, [ad9739a_init] makes
    a second attempt (tuning byte, enable bit, poll), goes on to the skew
    field and reaches its end; the error of the first poll is dropped. *)
Theorem poll_error_is_retried spi back rate w e :
  (forall k, (k < 10)%nat -> k <> 3%nat -> fault w (k + tick w) = 0) ->
  fault w (3 + tick w) = e -> e <> 0 ->
  Z.land (peek w spi Ad9739a.AD9739A_REG_MU_STAT1)
         Ad9739a.AD9739A_MU_LOCK_MASK <> 0 ->
  let r := Ad9739a.ad9739a_init (chip_at spi back rate) w in
  let attempt :=
    [RegWrite spi Ad9739a.AD9739A_REG_MU_CNT4 Ad9739a.AD9739A_MU_CNT4_DEFAULT;
     UpdateBits spi Ad9739a.AD9739A_REG_MU_CNT1 1 1;
     ReadPoll spi Ad9739a.AD9739A_REG_MU_STAT1 1 1000] in
  let skew := UpdateBits spi Ad9739a.AD9739A_REG_LVDS_REC_CNT4 0xF 2 in
  fst r = None /\
  calls (log (snd r)) =
    calls (log w) ++
    MultiRegWrite spi Ad9739a.ad9739a_clk_mu_ctrl
      :: attempt ++ attempt ++ [skew; skew; skew] /\
  map result (skipn (length (log w)) (log (snd r))) =
    [0; 0; 0; e; 0; 0; 0; 0; 0; 0].
Proof.
  intros Hnf He Hne Hbit r attempt skew. subst r attempt skew.
  pose proof (Hnf 0%nat ltac:(lia) ltac:(lia)) as F0.
  pose proof (Hnf 1%nat ltac:(lia) ltac:(lia)) as F1.
  pose proof (Hnf 2%nat ltac:(lia) ltac:(lia)) as F2.
  pose proof (Hnf 4%nat ltac:(lia) ltac:(lia)) as F4.
  pose proof (Hnf 5%nat ltac:(lia) ltac:(lia)) as F5.
  pose proof (Hnf 6%nat ltac:(lia) ltac:(lia)) as F6.
  pose proof (Hnf 7%nat ltac:(lia) ltac:(lia)) as F7.
  pose proof (Hnf 8%nat ltac:(lia) ltac:(lia)) as F8.
  pose proof (Hnf 9%nat ltac:(lia) ltac:(lia)) as F9.
  cbn [Nat.add] in *.
  subst e. apply Z.eqb_neq in Hne.
  unfold peek in Hbit. apply Z.eqb_neq in Hbit.
  unfold_chip_init.
  exec_noting note_state.
  all: split_hyps; cbn [fst snd]; reach_bus; reach_bus; chain_env.
  all: try (exfalso; failed_test).
  all: use_oracle.
  all: repeat match goal with
              | H : context [fault _ (S (S (S (tick _)))) =? 0] |- _ =>
                  lazymatch type of H with
                  | (_ =? 0) = false => fail
                  | _ => rewrite Hne in H
                  end
              end.
  all: cbv iota in *.
  all: settle_polls Hbit.
  all: try (exfalso; subst; absurd_test).
  all: try (exfalso; subst; congruence).
  all: try (exfalso;
            match goal with
            | H : 0 = fault _ (S (S (S (tick _)))) |- _ =>
                rewrite <- H in Hne; discriminate Hne
            end).
  subst.
  split; [reflexivity|].
  collect_log.
  split; [unfold calls; rewrite map_app; reflexivity|].
  rewrite drop_app_length. reflexivity.
Qed.

Lemma poll_error_is_retried_witness :
  fst (Ad9739a.ad9739a_init
         (chip_at chip None 0)
         (with_fault (fun n => if Nat.eqb n 3 then - EIO else 0) bench))
    = None.
Proof.
  refine (proj1 (poll_error_is_retried
                   chip None 0
                   (with_fault (fun n => if Nat.eqb n 3 then - EIO else 0)
                               bench)
                   (- EIO) _ _ _ _)).
  - intros k Hk Hk3. cbn. destruct k as [|[|[|[|k]]]]; try reflexivity.
    exfalso. apply Hk3. reflexivity.
  - reflexivity.
  - discriminate.
  - vm_compute. discriminate.
Defined.

(** ** The two loops, for any number of tries *)

Lemma skew_entry_is_skew_trim t b r :
  is_skew_trim
    (Entry t (UpdateBits b Ad9739a.AD9739A_REG_LVDS_REC_CNT4
                         Ad9739a.AD9739A_FINE_DEL_SKW_MASK
                         (FIELD_PREP Ad9739a.AD9739A_FINE_DEL_SKW_MASK 2)) r)
  = true.
Proof. reflexivity. Qed.

(** X26: the loop that writes the skew field, for any number [n] of tries:
    every call it makes is a write of the value 2 to the skew field; it
    leaves at its end exactly when all [n] writes succeeded, and it
    returns from the function at the first write that fails, with the
    error of that write and without a further call. *)
Theorem skew_loop_writes st n ret w :
  let r := Ad9739a.skew_loop st n ret w in
  exists tr,
    log (snd r) = log w ++ tr /\
    forallb is_skew_trim tr = true /\
    match fst r with
    | Ad9739a.Left ret' =>
        length tr = n /\ forallb entry_ok tr = true /\
        ret' = match n with O => ret | S _ => 0 end
    | Ad9739a.Returned e =>
        e <> 0 /\ (length tr <= n)%nat /\
        exists tr0 c, tr = tr0 ++ [c] /\ result c = e /\
                      forallb entry_ok tr0 = true
    end.
Proof.
  revert ret w. induction n as [|n IH]; intros ret w r; subst r.
  - exists []. cbn. rewrite app_nil_r. repeat split.
  - cbn [Ad9739a.skew_loop]. unfold bind, Return.
    exec_call. exec_branch.
    + (* this write succeeded *)
      specialize (IH 0 w0). cbv zeta in IH.
      destruct IH as (tr & Hlog & Hsk & Hres).
      eexists (_ :: tr). rewrite Hlog, L, <- app_assoc. cbn [app].
      split; [reflexivity|].
      split; [cbn [forallb]; rewrite Hsk; reflexivity|].
      destruct (fst (Ad9739a.skew_loop st n 0 w0)) as [e|ret'].
      * destruct Hres as (He & Hlen & tr0 & c & -> & Hc & Hok).
        split; [exact He|]. split; [cbn [length]; lia|].
        eexists (_ :: tr0), c. cbn [app]. split; [reflexivity|].
        split; [exact Hc|]. cbn [forallb]. rewrite Hok. reflexivity.
      * destruct Hres as (Hlen & Hok & Hret).
        split; [cbn [length]; lia|].
        split; [cbn [forallb]; rewrite Hok; reflexivity|].
        destruct n; congruence.
    + (* this write failed *)
      eexists [_]. rewrite L. split; [reflexivity|].
      split; [reflexivity|]. cbn [fst].
      split; [apply Z.eqb_neq; assumption|].
      split; [cbn [length]; lia|].
      eexists [], _. cbn [app]. repeat split.
Qed.

Lemma lock_polls_cons e tr :
  lock_polls (e :: tr) =
  (if is_lock_poll e then S (lock_polls tr) else lock_polls tr).
Proof.
  unfold lock_polls. rewrite filter_cons.
  destruct (decide (is_lock_poll e = true)) as [H|H].
  - rewrite H. reflexivity.
  - destruct (is_lock_poll e); [congruence | reflexivity].
Qed.

Ltac count_polls :=
  rewrite ?lock_polls_cons;
  change (lock_polls []) with 0%nat;
  cbn [is_lock_poll what];
  rewrite ?Z.eqb_refl; cbn [andb].

(** X27: the loop that waits for the lock, for any number [n] of tries: it
    polls the lock bit at most [n] times and makes at most [3 n] calls; it
    returns from the function only when a write of an attempt fails, with
    the error of that write; when it leaves with 0, its last call is a poll
    that saw the lock (or there was no try at all); and it leaves with an
    error only after [n] full attempts of three calls each. *)
Theorem mu_lock_loop_bounded st n ret w :
  let r := Ad9739a.mu_lock_loop st n ret w in
  exists tr,
    log (snd r) = log w ++ tr /\
    (lock_polls tr <= n)%nat /\
    (length tr <= 3 * n)%nat /\
    match fst r with
    | Ad9739a.Left e =>
        if e =? 0
        then (n = O /\ ret = 0) \/
             exists tr0 p, tr = tr0 ++ [p] /\ is_lock_poll p = true /\
                           result p = 0
        else lock_polls tr = n /\ length tr = (3 * n)%nat
    | Ad9739a.Returned e =>
        e <> 0 /\
        exists tr0 c, tr = tr0 ++ [c] /\ is_lock_poll c = false /\
                      result c = e
    end.
Proof.
  revert ret w. induction n as [|n IH]; intros ret w r; subst r.
  - exists []. cbn [Ad9739a.mu_lock_loop Return fst snd].
    rewrite app_nil_r. split; [reflexivity|].
    split; [count_polls; lia|]. split; [cbn [length]; lia|].
    destruct (Z.eqb_spec ret 0); [left; split; [reflexivity | assumption]
                                 | split; reflexivity].
  - cbn [Ad9739a.mu_lock_loop]. unfold bind, Return.
    exec_call. exec_branch; [|].
    2: { (* the tuning byte could not be written *)
      eexists [_]. rewrite L. split; [reflexivity|].
      split; [count_polls; lia|]. split; [cbn [length]; lia|]. cbn [fst].
      split; [apply Z.eqb_neq; assumption|].
      eexists [], _. cbn [app]. repeat split. }
    exec_call. exec_branch; [|].
    2: { (* the enable bit could not be set *)
      eexists [_; _]. rewrite L0, L, <- app_assoc. cbn [app].
      split; [reflexivity|].
      split; [count_polls; lia|]. split; [cbn [length]; lia|]. cbn [fst].
      split; [apply Z.eqb_neq; assumption|].
      eexists [_], _. cbn [app]. repeat split. }
    exec_call. exec_branch.
    + (* the poll saw the lock *)
      eexists [_; _; _]. rewrite L1, L0, L, <- !app_assoc. cbn [app].
      split; [reflexivity|].
      split; [count_polls; lia|]. split; [cbn [length]; lia|]. cbn [fst].
      change (0 =? 0) with true. cbv iota. right.
      eexists [_; _], _. cbn [app]. repeat split.
    + (* the poll failed: next try *)
      specialize (IH a w2). cbv zeta in IH.
      destruct IH as (tr & Hlog & Hp & Hlen & Hres).
      eexists (_ :: _ :: _ :: tr).
      rewrite Hlog, L1, L0, L, <- !app_assoc. cbn [app].
      split; [reflexivity|].
      count_polls.
      split; [lia|]. split; [cbn [length]; lia|].
      destruct (fst (Ad9739a.mu_lock_loop st n a w2)) as [e|e].
      * destruct Hres as (He & tr0 & c & -> & Hc & Hr).
        split; [exact He|].
        eexists (_ :: _ :: _ :: tr0), c. cbn [app]. repeat split; assumption.
      * destruct (e =? 0) eqn:Ee.
        -- destruct Hres as [[_ Ha]|(tr0 & p & -> & Hp' & Hr)].
           ++ (* no try is left: the error of the poll stays *)
              rewrite Ha in *. absurd_test.
           ++ right. eexists (_ :: _ :: _ :: tr0), p. cbn [app].
              repeat split; assumption.
        -- destruct Hres as [Hn Hl]. split; [lia|]. cbn [length]. lia.
Qed.

(** ** The two drivers together *)

Lemma probe_back_cases spi fw_back indet w :
  let st := snd (fst (Ad9739a.ad9739a_probe spi fw_back indet w)) in
  Ad9739a.back st = None \/ Ad9739a.back st = Some fw_back.
Proof.
  cbv zeta. unfold_probe.
  exec; cbn [fst snd Ad9739a.back]; auto.
Qed.

(** A choice of the data source through a handle of the core, or through
    no handle, keeps the control register of every device. *)
Lemma source_choice_keeps_control back b d chan data w :
  back = None \/
  back = Some (AxiDac.handle
                 (AxiDac.State (Regmap b AxiDac.axi_dac_regmap_config) d)) ->
  forall b',
    peek (snd (Binder.iio_backend_data_source_set back chan data w))
         b' AxiDac.AXI_REG_RSTN
    = peek w b' AxiDac.AXI_REG_RSTN.
Proof.
  intros [->| ->] b'; unfold Binder.iio_backend_data_source_set, bind, Return.
  - reflexivity.
  - unfold AxiDac.handle.
    cbn [ops priv data_source_set AxiDac.axi_dac_generic collab_void].
    destruct (chan_cntrl_7_not_control chan) as [Hc _].
    rewrite data_source_set_frame
      by (intros E; injection E as _ E; congruence).
    reflexivity.
Qed.

(** X28: nothing in the two drivers starts the core.  After a successful
    [axi_dac_probe] the control register of the core holds 0; it still
    does after [ad9739a_probe] on a chip bound to that core, whatever that
    probe returns, and after the stream has been started and stopped by
    the chip's driver: the drivers never call the [enable] operation of the
    core. *)
Theorem core_stays_disabled pdev expected spi indet w :
  pdev <> spi ->
  fst (fst (AxiDac.axi_dac_probe pdev (Some expected) w)) = 0 ->
  let r1 := AxiDac.axi_dac_probe pdev (Some expected) w in
  let r2 := Ad9739a.ad9739a_probe spi (AxiDac.handle (snd (fst r1))) indet
                                  (snd r1) in
  let r3 := Ad9739a.ad9739a_buffer_preenable (snd (fst r2)) (snd r2) in
  let r4 := Ad9739a.ad9739a_buffer_postdisable (snd (fst r2)) (snd r3) in
  peek (snd r1) pdev AxiDac.AXI_REG_RSTN = 0 /\
  peek (snd r2) pdev AxiDac.AXI_REG_RSTN = 0 /\
  peek (snd r3) pdev AxiDac.AXI_REG_RSTN = 0 /\
  peek (snd r4) pdev AxiDac.AXI_REG_RSTN = 0.
Proof.
  intros Hdev H r1 r2 r3 r4.
  destruct (axi_probe_success _ _ _ H) as [Est Hrst].
  fold r1 in Est, Hrst.
  assert (peek (snd r1) pdev AxiDac.AXI_REG_RSTN = 0) as H1
    by (unfold peek; rewrite Hrst; reflexivity).
  destruct (probe_frame spi (AxiDac.handle (snd (fst r1))) indet (snd r1))
    as [F2 G2].
  fold r2 in F2, G2.
  assert (peek (snd r2) pdev AxiDac.AXI_REG_RSTN = 0) as H2
    by (rewrite F2 by exact Hdev; exact H1).
  assert (Ad9739a.back (snd (fst r2)) = None \/
          Ad9739a.back (snd (fst r2)) =
            Some (AxiDac.handle
                    (AxiDac.State (Regmap pdev AxiDac.axi_dac_regmap_config)
                                  pdev))) as Hback.
  { rewrite <- Est. apply probe_back_cases. }
  assert (peek (snd r3) pdev AxiDac.AXI_REG_RSTN = 0) as H3.
  { subst r3. unfold Ad9739a.ad9739a_buffer_preenable.
    rewrite (source_choice_keeps_control _ pdev pdev _ _ _ Hback). exact H2. }
  assert (peek (snd r4) pdev AxiDac.AXI_REG_RSTN = 0) as H4.
  { subst r4. unfold Ad9739a.ad9739a_buffer_postdisable.
    rewrite (source_choice_keeps_control _ pdev pdev _ _ _ Hback). exact H3. }
  repeat (split; [assumption|]). assumption.
Qed.

Lemma core_stays_disabled_witness :
  core <> chip /\
  fst (fst (AxiDac.axi_dac_probe core (Some AxiDac.axi_dac_9_1_b_info) bench))
    = 0 /\
  peek (snd (Ad9739a.ad9739a_probe
               chip
               (AxiDac.handle
                  (snd (fst (AxiDac.axi_dac_probe
                               core (Some AxiDac.axi_dac_9_1_b_info) bench))))
               0
               (snd (AxiDac.axi_dac_probe
                       core (Some AxiDac.axi_dac_9_1_b_info) bench))))
       core AxiDac.AXI_REG_RSTN = 0.
Proof.
  assert (core <> chip) as H by discriminate.
  assert (fst (fst (AxiDac.axi_dac_probe core
                      (Some AxiDac.axi_dac_9_1_b_info) bench)) = 0) as H0
    by (vm_compute; reflexivity).
  split; [exact H|]. split; [exact H0|].
  exact (proj1 (proj2 (core_stays_disabled
                         core AxiDac.axi_dac_9_1_b_info chip 0 bench H H0))).
Defined.

(** ** The probe of the chip with the buffer requested through the core *)

Ltac unfold_bound_probe :=
  unfold Ad9739aBound.ad9739a_probe, Ad9739a.ad9739a_reset,
    BinderOps.devm_iio_backend_request_buffer, AxiDac.handle,
    AxiDac.axi_dac_request_buffer;
  unfold_init;
  cbn [Ad9739a.back ops priv request_buffer AxiDac.axi_dac_generic].

(** Run the probe, the operation of the core included. *)
Ltac exec_bound note :=
  repeat first
    [ exec_call_with note
    | exec_branch
    | progress (cbn [Ad9739a.back ops priv request_buffer
                     AxiDac.axi_dac_generic])
    | progress (unfold AxiDac.axi_dac_request_buffer, bind, Return) ].

(** X23: whatever happens, [ad9739a_probe] on a chip whose backend is
    the AXI core changes no register of another device, the core
    included, the calls that the core makes for the buffer being part of
    the probe: it neither enables the core nor chooses a data source; and
    it leaves the registry of the backends alone. *)
Theorem probe_keeps_other_devices spi cst indet w :
  let r := Ad9739aBound.ad9739a_probe spi (AxiDac.handle cst) indet w in
  (forall b reg, b <> spi -> peek (snd r) b reg = peek w b reg) /\
  registry (snd r) = registry w.
Proof.
  intros r. subst r. unfold_bound_probe.
  exec_bound note_state.
  all: try exec_tail_with note_state.
  all: split_hyps; cbn [fst snd]; reach_bus; reach_bus.
  all: repeat match goal with
              | H : registry ?a = _ |- _ => try rewrite H in *; clear H
              end.
  all: split; [|reflexivity].
  all: intros dv reg Hb.
  all: repeat match goal with
              | H : regs ?a = (if ?c then _ else _) |- _ =>
                  destruct c
              end.
  all: lookup_back_with ltac:(let E := fresh in
                              intros E; injection E; congruence).
  all: reflexivity.
Qed.

(** X3: when [ad9739a_probe], bound to the AXI core, returns 0, every
    one of its stages ran and succeeded: the only calls that failed on the
    way were polls of the lock bit and the lookup of the name of the DMA
    channel, which the core answers with the default name; the core
    allocated the buffer, set its direction and attached it, and the last
    call is the registration of the device. *)
Theorem probe_success_means_all_stages spi cst indet w :
  let r := Ad9739aBound.ad9739a_probe spi (AxiDac.handle cst) indet w in
  fst (fst r) = 0 ->
  exists tr,
    log (snd r) = log w ++ tr /\
    forallb (fun s => succeeded s (staged tr) false) probe_order = true /\
    forallb (fun e => entry_ok e || is_lock_poll e || is_property_read e) tr
      = true /\
    exists tr0 t1 t2 e t3 d t4 t5 t6,
      tr = tr0 ++ [Entry t1 RequestBuffer 0; Entry t2 PropertyReadString e;
                   Entry t3 (DmaBufferAlloc d) 0; Entry t4 BufferSetDirOut 0;
                   Entry t5 AttachBuffer 0; Entry t6 DeviceRegister 0] /\
      d = negb (e =? 0).
Proof.
  intros r. subst r. unfold_bound_probe.
  exec_bound note_nothing; cbn [fst snd]; intros E;
    try (exfalso; vm_compute in E; discriminate E);
    try (rewrite E in *; absurd_test).
  all: subst; collect_log; (eexists; split; [reflexivity|]).
  all: split; [cbn; use_tests; reflexivity|].
  all: split; [cbn; use_tests; rewrite ?orb_true_r; reflexivity|].
  all: match goal with
       | |- exists tr0 : list entry, _ =>
           match goal with
           | |- context [?tr = _ ++ _] =>
               exists (firstn (length tr - 6) tr)
           end
       end.
  all: cbn [length Nat.sub firstn app].
  all: eexists _, _, _, _, _, _, _, _; split; reflexivity.
Qed.

Lemma probe_success_means_all_stages_witness :
  fst (fst (Ad9739aBound.ad9739a_probe chip (AxiDac.handle core_state) 0
                                       bench)) = 0 /\
  exists tr,
    log (snd (Ad9739aBound.ad9739a_probe chip (AxiDac.handle core_state) 0
                                         bench)) = log bench ++ tr /\
    forallb (fun s => succeeded s (staged tr) false) probe_order = true /\
    forallb (fun e => entry_ok e || is_lock_poll e || is_property_read e) tr
      = true /\
    exists tr0 t1 t2 e t3 d t4 t5 t6,
      tr = tr0 ++ [Entry t1 RequestBuffer 0; Entry t2 PropertyReadString e;
                   Entry t3 (DmaBufferAlloc d) 0; Entry t4 BufferSetDirOut 0;
                   Entry t5 AttachBuffer 0; Entry t6 DeviceRegister 0] /\
      d = negb (e =? 0).
Proof.
  split; [vm_compute; reflexivity|].
  apply (probe_success_means_all_stages chip core_state 0 bench).
  vm_compute. reflexivity.
Defined.

(** X22: on a healthy board (a bus and collaborators that do not fail, a
    clock in range, the expected ID, no reset line, the lock bit set)
    [ad9739a_probe], bound to the AXI core, returns the very value that
    the caller of [ad9739a_init] finds after the function ended without a
    [return]: when that value is 0 the probe gets the backend, requests
    the buffer through it (the core looks the name of the DMA channel up,
    allocates the buffer, sets its direction and attaches it) and
    registers the device, 23 calls in all; when it is not, the probe stops
    after the 16 calls of the calibration with that value as its error,
    and no backend is bound. *)
Theorem healthy_probe_result spi cst indet w :
  no_fault_for 23 w ->
  in_range (ulong (clk_rate w)) Ad9739a.AD9739A_MIN_DAC_CLK
           Ad9739a.AD9739A_DAC_CLK_RANGE = true ->
  peek w spi Ad9739a.AD9739A_REG_ID = Ad9739a.AD9739A_ID ->
  reset_gpio w = false ->
  Z.land (peek w spi Ad9739a.AD9739A_REG_MU_STAT1)
         Ad9739a.AD9739A_MU_LOCK_MASK <> 0 ->
  let r := Ad9739aBound.ad9739a_probe spi (AxiDac.handle cst) indet w in
  fst (fst r) = indet /\
  Ad9739a.sample_rate (snd (fst r)) = ulong (clk_rate w) /\
  Ad9739a.back (snd (fst r)) =
    (if indet =? 0 then Some (AxiDac.handle cst) else None) /\
  calls (log (snd r)) =
    calls (log w) ++
    [DevAlloc; ClkGetEnabled; ClkGetRate (ulong (clk_rate w));
     RegmapInit spi; RegRead spi 0x35 0x24;
     GpioGet false; UpdateBits spi 0 0x20 0x20; Ndelay 40;
     UpdateBits spi 0 0x20 0;
     MultiRegWrite spi Ad9739a.ad9739a_clk_mu_ctrl;
     RegWrite spi 0x29 0xcb; UpdateBits spi 0x26 1 1;
     ReadPoll spi 0x2A 1 1000;
     UpdateBits spi 0x13 0xF 2; UpdateBits spi 0x13 0xF 2;
     UpdateBits spi 0x13 0xF 2] ++
    (if indet =? 0
     then [BackendGet; RequestBuffer; PropertyReadString;
           DmaBufferAlloc false; BufferSetDirOut; AttachBuffer;
           DeviceRegister]
     else []).
Proof.
  intros Hnf Hin Hid Hgpio Hbit r.
  set (tl := if indet =? 0
             then [BackendGet; RequestBuffer; PropertyReadString;
                   DmaBufferAlloc false; BufferSetDirOut; AttachBuffer;
                   DeviceRegister]
             else []).
  set (bk := if indet =? 0 then Some (AxiDac.handle cst) else None).
  subst r.
  use_no_fault Hnf 23%nat.
  unfold peek in Hbit. apply Z.eqb_neq in Hbit.
  unfold_bound_probe.
  exec_bound note_state.
  all: try exec_tail_with note_state.
  all: split_hyps; cbn [fst snd]; reach_bus; reach_bus; chain_env.
  all: try (exfalso; failed_test).
  all: repeat match goal with
              | H : reset_gpio ?a = _ |- _ => try rewrite H in *; clear H
              | H : clk_rate ?a = _ |- _ => try rewrite H in *; clear H
              end.
  all: try (exfalso; congruence).
  all: use_oracle; settle_polls Hbit.
  all: try (exfalso; subst; absurd_test).
  all: try (exfalso;
            match goal with
            | E : ?z = peek _ _ _,
              N : (?z =? Ad9739a.AD9739A_ID) = false |- _ =>
                apply Z.eqb_neq in N; apply N; rewrite E; lookup_back;
                exact Hid
            end).
  all: split; [congruence|].
  all: split; [assumption|].
  all: subst tl bk;
       try match goal with
           | H : (?i =? 0) = false |- context [if ?i =? 0 then _ else _] =>
               rewrite H
           end.
  all: split; [reflexivity|].
  all: subst; use_oracle; cbn [negb] in *.
  all: collect_log; unfold calls; rewrite map_app; reflexivity.
Qed.

Lemma healthy_probe_result_witness :
  no_fault_for 23 bench /\
  fst (fst (Ad9739aBound.ad9739a_probe chip (AxiDac.handle core_state) 7
                                       bench)) = 7.
Proof.
  assert (no_fault_for 23 bench) as H by (intros k _; reflexivity).
  split; [exact H|].
  refine (proj1 (healthy_probe_result chip core_state 7 bench H _ _ _ _)).
  - vm_compute. reflexivity.
  - vm_compute. reflexivity.
  - reflexivity.
  - vm_compute. discriminate.
Defined.

(** X29: with the buffer requested through the AXI core, and whatever the
    collaborators answer, the stages of [ad9739a_probe] still run in the
    order ClockValidate, Identify, Reset, AnalogConfig, MuLock, SkewTrim,
    BackendBind, BufferReady, each only if the stages before it succeeded;
    and every register access of the trace, the calls of the core
    included, is on the chip's own bus and names a register that the
    chip's register map lets through. *)
Theorem bound_probe_stage_order spi cst indet w :
  exists tr,
    log (snd (Ad9739aBound.ad9739a_probe spi (AxiDac.handle cst) indet w))
      = log w ++ tr /\
    follows probe_order tr = true /\
    chip_accesses_allowed spi tr = true.
Proof.
  unfold_bound_probe.
  exec_bound note_nothing; collect_log; (eexists; split; [reflexivity|]).
  all: split; [cbn; use_tests; reflexivity
              | cbn; rewrite ?Z.eqb_refl; reflexivity].
Qed.

(** X30: with the buffer requested through the AXI core,
    [ad9739a_probe] stops at the first call that goes wrong, in the chip's
    driver or in the core: in its trace every call but the last went well,
    the only exceptions being a poll of the lock bit, which is tried
    again, and the lookup of the name of the DMA channel, which falls back
    to the default name; and when the last call went wrong (a failed
    allocation or attachment of the buffer included) the probe returns an
    error. *)
Theorem bound_probe_stops_at_first_failure spi cst indet w :
  let r := Ad9739aBound.ad9739a_probe spi (AxiDac.handle cst) indet w in
  exists tr,
    log (snd r) = log w ++ tr /\
    stops_at_first_failure tr = true /\
    (last_ok tr = false -> fst (fst r) <> 0).
Proof.
  intros r. subst r. unfold_bound_probe.
  exec_bound note_nothing; collect_log; (eexists; split; [reflexivity|]).
  all: split; [cbn; use_tests; rewrite ?orb_true_r; reflexivity|].
  all: cbn; use_tests; intros Hl; try discriminate Hl.
  all: first [apply Z.eqb_neq; assumption
             | intros E; vm_compute in E; discriminate E].
Qed.
